(** * Car dealer inventory simulation: model, policies and runner

    A shallow embedding of [CarDealerModel.py], [policy.py], [policy_util.py]
    and [BaseClasses/SDPPolicy.py].

    Conventions of the embedding.
    - Python [int]s are [Z]; Python/NumPy floats are exact rationals [Q]
      (an idealisation: [max], [min], [round], [int] and comparisons are
      exact on floats, products and sums are not).  Where Python mixes an
      [int] with a float the [int] is promoted with [inject_Z].
    - NumPy integers (the integer columns of the trend table) have 64
      bits.  The embedding adds them without wrap-around; a statement about
      such a sum bounds its operands ([int64_safe]) so that every
      intermediate result fits.
    - A Python [str] is a [string].  [str.lower] is embedded for ASCII
      strings ([lower] maps the letters A-Z); a statement about its result
      assumes that the string is ASCII ([is_ascii]).
    - [int(v ** 0.5)] goes through a double; it is the integer square root
      [Z.sqrt v] while [v < 2 ^ 52], and a statement about its value assumes
      that bound.
    - A Python [dict] is an association list in insertion order; its keys
      are unique, which the predicate [wf_dict] records.
    - A Python exception is a [Raise] in the [result] type; methods that
      assign to [self] run in the state-and-error monad [M].
    - [print] calls are left out. *)

From Stdlib Require Import ZArith QArith Qround Qminmax List String Ascii Bool Lia Lqa.
Import ListNotations.

Local Open Scope Z_scope.

(** ** Exceptions and the error monad *)

Inductive exn : Type :=
| KeyError (key : string)
| TypeError (msg : string)
| ValueError (msg : string).

Inductive result (A : Type) : Type :=
| Ok (a : A)
| Raise (e : exn).

Arguments Ok {A} a.
Arguments Raise {A} e.

Definition rbind {A B} (c : result A) (k : A -> result B) : result B :=
  match c with
  | Ok a => k a
  | Raise e => Raise e
  end.

Declare Scope py_scope.
Delimit Scope py_scope with py.
Notation "x <- c ;; k" := (rbind c (fun x => k))
  (at level 61, c at next level, right associativity) : py_scope.
Local Open Scope py_scope.

(** A [for] loop whose body may raise: the accumulator is the loop's
    local state. *)
Fixpoint for_each {A S} (xs : list A) (body : S -> A -> result S) (s : S)
  : result S :=
  match xs with
  | [] => Ok s
  | x :: xs' => s' <- body s x ;; for_each xs' body s'
  end.

(** ** Numbers *)

Definition Qltb (a b : Q) : bool := negb (Qle_bool b a).

(** [max(a, b)] returns [b] only when [b > a]; [min(a, b)] returns [b]
    only when [b < a]. *)
Definition py_max (a b : Q) : Q := if Qltb a b then b else a.
Definition py_min (a b : Q) : Q := if Qltb b a then b else a.

(** [round(x)] on a float: nearest integer, ties to the even one. *)
Definition py_round (x : Q) : Z :=
  let f := Qfloor x in
  match Qcompare (x - inject_Z f) (1 # 2) with
  | Lt => f
  | Gt => f + 1
  | Eq => if Z.even f then f else f + 1
  end.

(** [int(x)] on a float: truncation toward zero. *)
Definition py_int (x : Q) : Z := Z.quot (Qnum x) (Zpos (Qden x)).

(** [sum(...)]: starts from 0 and adds from the left. *)
Definition sumQ (xs : list Q) : Q := fold_left Qplus xs 0%Q.
Definition sumZ (xs : list Z) : Z := fold_left Z.add xs 0.

(** ** Dictionaries *)

Definition dict (V : Type) : Type := list (string * V).

Section Dict.
Context {V : Type}.

Definition keys (d : dict V) : list string := map fst d.
Definition values (d : dict V) : list V := map snd d.

Fixpoint lookup (d : dict V) (k : string) : option V :=
  match d with
  | [] => None
  | (k', v) :: d' => if String.eqb k k' then Some v else lookup d' k
  end.

(** [d[k]] *)
Definition getitem (d : dict V) (k : string) : result V :=
  match lookup d k with
  | Some v => Ok v
  | None => Raise (KeyError k)
  end.

(** [d.get(k, dflt)] *)
Definition get (d : dict V) (k : string) (dflt : V) : V :=
  match lookup d k with
  | Some v => v
  | None => dflt
  end.

(** [d[k] = v]: overwrite in place, or append a new key. *)
Fixpoint setitem (d : dict V) (k : string) (v : V) : dict V :=
  match d with
  | [] => [(k, v)]
  | (k', v') :: d' =>
      if String.eqb k k' then (k, v) :: d' else (k', v') :: setitem d' k v
  end.

(** [{k: f(k) for k in ks}] *)
Definition dict_comp (ks : list string) (f : string -> result V)
  : result (dict V) :=
  for_each ks (fun d k => v <- f k ;; Ok (setitem d k v)) [].

Definition has_key (d : dict V) (k : string) : bool :=
  match lookup d k with Some _ => true | None => false end.
End Dict.

Fixpoint nodupb (ks : list string) : bool :=
  match ks with
  | [] => true
  | k :: ks' => negb (existsb (String.eqb k) ks') && nodupb ks'
  end.

(** Keys of a Python dict are unique. *)
Definition wf_dict {V} (d : dict V) : Prop := nodupb (keys d) = true.

(** Every key of [ks] is a key of [d]. *)
Definition covers {V} (d : dict V) (ks : list string) : Prop :=
  forallb (has_key d) ks = true.

(** ** Data model ([CarDealerModel.py], lines 6-8) *)

Module State.
Record t : Type := mk {
  inventory_level : dict Z;
  holding_time : dict Z;
  competitor_price : dict Q;
  market_trends : dict string;
  market_trends_lag1 : dict string;
  market_trends_lag2 : dict string;
  demand_forecast : dict Q;
  trend_eta_params : dict (list Q)
}.
End State.

Module Decision.
Record t : Type := mk {
  restock : dict Q;
  price : dict Q;
  discount : dict Q
}.
End Decision.

(** The dict returned by [exog_info_fn]. *)
Module ExogInfo.
Record t : Type := mk {
  demand : dict Q;
  competitor_prices : dict Q;
  market_trends : dict string
}.
End ExogInfo.

(** The dict returned by [transition_fn]: the eight [State] fields and the
    two diagnostic entries. *)
Module Transition.
Record t : Type := mk {
  inventory_level : dict Z;
  holding_time : dict Z;
  competitor_price : dict Q;
  market_trends : dict string;
  market_trends_lag1 : dict string;
  market_trends_lag2 : dict string;
  demand_forecast : dict Q;
  trend_eta_params : dict (list Q);
  cars_sold : dict Z;
  cars_added : dict Z
}.
End Transition.

(** One row of the market-trends table read by [pd.read_csv]. *)
Record TrendRow : Type := {
  Month : string;
  Model : string;
  Demand_Index : Q;
  Price_Trend : Q;
  Competitor_Activity : Q;
  Season : string
}.

Definition DataFrame : Type := list TrendRow.

(** The seeded random stream: [variates] lists the standard normal
    variates the generator will hand out, [cursor] counts the draws made. *)
Record RandomState : Type := {
  cursor : nat;
  variates : nat -> Q
}.

(** The attributes of a [CarDealerInventoryModel] instance. *)
Record CarDealerInventoryModel : Type := {
  t : Z;
  T : Z;
  state : State.t;
  objective : Q;
  prng : RandomState;
  holding_cost : Q;
  base_profit : Q;
  discount_rate : Q;
  max_inventory : Z;
  alpha : Q;
  variance_demand : dict Z;
  variance_forecast : dict Z;
  seasonal_holding_cost : dict Q;
  market_trends_df : option DataFrame
}.

Definition set_state (s : State.t) (m : CarDealerInventoryModel)
  : CarDealerInventoryModel :=
  {| t := t m; T := T m; state := s; objective := objective m;
     prng := prng m; holding_cost := holding_cost m;
     base_profit := base_profit m; discount_rate := discount_rate m;
     max_inventory := max_inventory m; alpha := alpha m;
     variance_demand := variance_demand m;
     variance_forecast := variance_forecast m;
     seasonal_holding_cost := seasonal_holding_cost m;
     market_trends_df := market_trends_df m |}.

Definition set_objective (o : Q) (m : CarDealerInventoryModel)
  : CarDealerInventoryModel :=
  {| t := t m; T := T m; state := state m; objective := o;
     prng := prng m; holding_cost := holding_cost m;
     base_profit := base_profit m; discount_rate := discount_rate m;
     max_inventory := max_inventory m; alpha := alpha m;
     variance_demand := variance_demand m;
     variance_forecast := variance_forecast m;
     seasonal_holding_cost := seasonal_holding_cost m;
     market_trends_df := market_trends_df m |}.

Definition set_prng (g : RandomState) (m : CarDealerInventoryModel)
  : CarDealerInventoryModel :=
  {| t := t m; T := T m; state := state m; objective := objective m;
     prng := g; holding_cost := holding_cost m;
     base_profit := base_profit m; discount_rate := discount_rate m;
     max_inventory := max_inventory m; alpha := alpha m;
     variance_demand := variance_demand m;
     variance_forecast := variance_forecast m;
     seasonal_holding_cost := seasonal_holding_cost m;
     market_trends_df := market_trends_df m |}.

(** ** Methods that assign to [self]: state and error monad *)

Definition M (A : Type) : Type :=
  CarDealerInventoryModel -> result A * CarDealerInventoryModel.

Definition mret {A} (a : A) : M A := fun self => (Ok a, self).

Definition mbind {A B} (c : M A) (k : A -> M B) : M B :=
  fun self =>
    match c self with
    | (Ok a, self') => k a self'
    | (Raise e, self') => (Raise e, self')
    end.

Definition mraise {A} (e : exn) : M A := fun self => (Raise e, self).
Definition mget : M CarDealerInventoryModel := fun self => (Ok self, self).
Definition mmodify (f : CarDealerInventoryModel -> CarDealerInventoryModel)
  : M unit := fun self => (Ok tt, f self).
Definition lift {A} (c : result A) : M A := fun self => (c, self).

Notation "x <~ c ;; k" := (mbind c (fun x => k))
  (at level 61, c at next level, right associativity) : py_scope.

Fixpoint for_each_M {A S} (xs : list A) (body : S -> A -> M S) (s : S)
  : M S :=
  match xs with
  | [] => mret s
  | x :: xs' => s' <~ body s x ;; for_each_M xs' body s'
  end.

(** [self.prng.normal(mu, sigma)]: one variate is consumed. *)
Definition normal (mu sigma : Q) : M Q :=
  fun self =>
    let g := prng self in
    (Ok (mu + sigma * variates g (cursor g))%Q,
     set_prng {| cursor := S (cursor g); variates := variates g |} self).

(** ** [CarDealerInventoryModel.exog_info_fn] (lines 47-93) *)

Definition digit (n : Z) : ascii := ascii_of_nat (48 + Z.to_nat n).

(** The format specification [:02d] for a number below 100. *)
Definition fmt_02d (n : Z) : string :=
  String (digit (n / 10)) (String (digit (n mod 10)) EmptyString).

Definition current_month_of (t : Z) : string :=
  ("2023-" ++ fmt_02d (t mod 12 + 1))%string.

(** The local dictionaries the loop of [exog_info_fn] fills. *)
Record ExogLoop : Type := {
  l_demand : dict Q;
  l_competitor_prices : dict Q;
  l_new_market_trends : dict string
}.

(** The comprehension of lines 70-73, one draw per tracked car. *)
Definition draw_all_demand (s : State.t) : M (dict Q) :=
  for_each_M (keys (State.inventory_level s))
    (fun d car =>
       f <~ lift (getitem (State.demand_forecast s) car) ;;
       x <~ normal f 10 ;;
       mret (setitem d car (py_max 0 x)))
    [].

(** The body of the loop of lines 60-84.  The sum of line 74 is exact
    here; on integer columns NumPy computes it in 64 bits. *)
Definition exog_loop_body (s : State.t) (trends_for_month : DataFrame)
    (l : ExogLoop) (car : string) : M ExogLoop :=
  let car_trend_data :=
    filter (fun r => String.eqb (Model r) car) trends_for_month in
  match car_trend_data with
  | row :: _ =>
      let demand_index := Demand_Index row in
      let price_trend := Price_Trend row in
      let competitor_activity := Competitor_Activity row in
      let base_demand := get (State.demand_forecast s) car 0%Q in
      random_variation <~ normal 0 (5 # 100) ;;
      demand <~ draw_all_demand s ;;
      cp <~ lift (getitem (State.competitor_price s) car) ;;
      mret {| l_demand := demand;
              l_competitor_prices :=
                setitem (l_competitor_prices l) car
                  (py_max 0 (cp + price_trend - competitor_activity)%Q);
              l_new_market_trends :=
                setitem (l_new_market_trends l) car (Season row) |}
  | [] =>
      let base_demand := get (State.demand_forecast s) car 0%Q in
      x <~ normal 0 5 ;;
      cp <~ lift (getitem (State.competitor_price s) car) ;;
      mret {| l_demand :=
                setitem (l_demand l) car (py_max 0 (base_demand + x)%Q);
              l_competitor_prices := setitem (l_competitor_prices l) car cp;
              l_new_market_trends :=
                setitem (l_new_market_trends l) car "stable"%string |}
  end.

Definition exog_info_fn (decision : option Decision.t) : M ExogInfo.t :=
  self <~ mget ;;
  let current_month := current_month_of (t self) in
  match market_trends_df self with
  | None => mraise (TypeError "'NoneType' object is not subscriptable")
  | Some df =>
      let trends_for_month :=
        filter (fun r => String.eqb (Month r) current_month) df in
      let s := state self in
      l <~ for_each_M (keys (State.inventory_level s))
             (exog_loop_body s trends_for_month)
             {| l_demand := []; l_competitor_prices := [];
                l_new_market_trends := [] |} ;;
      max_demand <~ lift (for_each (State.demand_forecast s)
                            (fun d kv => Ok (setitem d (fst kv) (2 * snd kv)%Q))
                            []) ;;
      demand <~ lift (dict_comp (keys (l_demand l))
                        (fun car =>
                           d <- getitem (l_demand l) car ;;
                           Ok (py_min d (get max_demand car d)))) ;;
      mret {| ExogInfo.demand := demand;
              ExogInfo.competitor_prices := l_competitor_prices l;
              ExogInfo.market_trends := l_new_market_trends l |}
  end.

(** ** [CarDealerInventoryModel.transition_fn] (lines 95-140) *)

(** The three dictionaries filled by the loop of lines 104-111. *)
Record TransLoop : Type := {
  l_new_inventory : dict Z;
  l_cars_sold : dict Z;
  l_cars_added : dict Z
}.

Definition trans_loop_body (s : State.t) (decision : Decision.t)
    (exog_info : ExogInfo.t) (l : TransLoop) (car : string)
  : result TransLoop :=
  let demand := py_round (get (ExogInfo.demand exog_info) car 0%Q) in
  level <- getitem (State.inventory_level s) car ;;
  let sold := Z.min demand level in
  let added := py_int (get (Decision.restock decision) car 0%Q) in
  Ok {| l_new_inventory :=
          setitem (l_new_inventory l) car (Z.max 0 (level + added - sold));
        l_cars_sold := setitem (l_cars_sold l) car sold;
        l_cars_added := setitem (l_cars_added l) car added |}.

Definition transition_fn (self : CarDealerInventoryModel)
    (decision : Decision.t) (exog_info : ExogInfo.t) : result Transition.t :=
  let s := state self in
  l <- for_each (keys (State.inventory_level s))
         (trans_loop_body s decision exog_info)
         {| l_new_inventory := []; l_cars_sold := []; l_cars_added := [] |} ;;
  new_holding_time <-
    dict_comp (keys (State.inventory_level s))
      (fun car =>
         n <- getitem (l_new_inventory l) car ;;
         if 0 <? n
         then h <- getitem (State.holding_time s) car ;; Ok (h + 1)
         else Ok 0) ;;
  let market_trends_lag2 := State.market_trends_lag1 s in
  let market_trends_lag1 := State.market_trends s in
  let market_trends := ExogInfo.market_trends exog_info in
  new_demand_forecast <-
    dict_comp (keys (State.demand_forecast s))
      (fun car =>
         Ok (py_max 0 (get (ExogInfo.demand exog_info) car 0
                       * (1 + (1 # 10) * inject_Z (t self)))%Q)) ;;
  Ok {| Transition.inventory_level := l_new_inventory l;
        Transition.holding_time := new_holding_time;
        Transition.competitor_price := ExogInfo.competitor_prices exog_info;
        Transition.market_trends := market_trends;
        Transition.market_trends_lag1 := market_trends_lag1;
        Transition.market_trends_lag2 := market_trends_lag2;
        Transition.demand_forecast := new_demand_forecast;
        Transition.trend_eta_params := State.trend_eta_params s;
        Transition.cars_sold := l_cars_sold l;
        Transition.cars_added := l_cars_added l |}.

(** ** [CarDealerInventoryModel.objective_fn] (lines 143-169) *)

(** [str.lower()] on an ASCII string: the letters A-Z are mapped to a-z and
    every other character is kept.  (On other strings Python follows the
    Unicode case tables, which are not embedded.) *)
Definition lower_ascii (c : ascii) : ascii :=
  let n := nat_of_ascii c in
  if (65 <=? n)%nat && (n <=? 90)%nat then ascii_of_nat (n + 32) else c.

Fixpoint lower (s : string) : string :=
  match s with
  | EmptyString => EmptyString
  | String c s' => String (lower_ascii c) (lower s')
  end.

(** [sum(f(k) for k in ks)] where [f] may raise. *)
Definition sum_over (ks : list string) (f : string -> result Q) : result Q :=
  for_each ks (fun acc k => x <- f k ;; Ok (acc + x)%Q) 0%Q.

Definition objective_fn (self : CarDealerInventoryModel)
    (decision : Decision.t) (exog_info : ExogInfo.t) : result Q :=
  let s := state self in
  let fixed_cost_per_unit := 300%Q in
  revenue <-
    sum_over (keys (State.inventory_level s))
      (fun car =>
         level <- getitem (State.inventory_level s) car ;;
         d <- getitem (ExogInfo.demand exog_info) car ;;
         p <- getitem (Decision.price decision) car ;;
         Ok (py_min (inject_Z level) d * p)%Q) ;;
  restocking_cost <-
    sum_over (keys (Decision.restock decision))
      (fun car =>
         r <- getitem (Decision.restock decision) car ;;
         Ok (r * fixed_cost_per_unit)%Q) ;;
  unsold_inventory <-
    dict_comp (keys (State.inventory_level s))
      (fun car =>
         level <- getitem (State.inventory_level s) car ;;
         d <- getitem (ExogInfo.demand exog_info) car ;;
         Ok (level - Z.min level (py_int d))) ;;
  holding_cost <-
    sum_over (keys unsold_inventory)
      (fun car =>
         u <- getitem unsold_inventory car ;;
         h <- getitem (State.holding_time s) car ;;
         trend <- getitem (ExogInfo.market_trends exog_info) car ;;
         Ok (inject_Z (u * h)
             * get (seasonal_holding_cost self) (lower trend)
                 (holding_cost self))%Q) ;;
  let profit := (revenue - (restocking_cost + holding_cost))%Q in
  Ok profit.

(** ** [CarDealerInventoryModel.is_valid_decision] (lines 173-183) *)

Definition is_valid_decision (decision : Decision.t) : M bool :=
  self <~ mget ;;
  let s := state self in
  total_inventory <~
    lift (sum_over (keys (State.inventory_level s))
            (fun car =>
               level <- getitem (State.inventory_level s) car ;;
               r <- getitem (Decision.restock decision) car ;;
               Ok (inject_Z level + r)%Q)) ;;
  if existsb (fun value => Qltb value 0) (values (Decision.restock decision))
  then mraise (ValueError "Restocking values cannot be negative!")
  else if Qltb (inject_Z (max_inventory self)) total_inventory
  then mraise (ValueError "Total inventory exceeds storage capacity!")
  else mret true.

(** ** [policy_util.py] *)

(** [int(v ** 0.5)] for an integer [v]: the power of a negative number is
    complex, and [int] refuses it.  For [0 <= v < 2 ^ 52] the double
    [v ** 0.5] truncates to the integer square root of [v]; above that
    bound the rounding of the double can push it to the next integer. *)
Definition safety_buffer_of (v : Z) : result Z :=
  if v <? 0
  then Raise (TypeError "int() argument must be a string, a bytes-like object or a real number, not 'complex'")
  else Ok (Z.sqrt v).

Definition pricing_decision (base_price competitor_price trend_factor : Q)
  : Q * Q :=
  let price := py_max 0 (base_price - 50 * trend_factor) in
  let discount := py_max 0 (competitor_price - price) in
  (price, discount).

Definition basic_order_up_to_policy_util (inventory theta_min theta_max : dict Z)
    (demand_forecast trend_factors : dict Q) (variance_demand : dict Z)
  : result (dict Q) :=
  for_each inventory
    (fun restock item =>
       let car := fst item in
       let level := snd item in
       v <- getitem variance_demand car ;;
       safety_buffer <- safety_buffer_of v ;;
       hi <- getitem theta_max car ;;
       tf <- getitem trend_factors car ;;
       f <- getitem demand_forecast car ;;
       Ok (setitem restock car
             (py_max 0 (py_min (inject_Z (hi - level))
                               (tf * (f + inject_Z safety_buffer)))%Q)))
    [].

(** ** [CarDealerPolicy] ([policy.py]) *)

Record CarDealerPolicy : Type := {
  model : CarDealerInventoryModel;
  policy_name : string
}.

Definition trend_adjustments : dict Q :=
  [("rising", 12 # 10); ("stable", 1); ("declining", 8 # 10)]%string%Q.

Definition order_up_to_body (self : CarDealerPolicy) (theta_max : dict Z)
    (exog_info : option ExogInfo.t) (restock : dict Q) (item : string * Z)
  : result (dict Q) :=
  let car := fst item in
  let level := snd item in
  let current_trend :=
    get (State.market_trends (state (model self))) car "stable"%string in
  let trend_factor := get trend_adjustments current_trend 1%Q in
  v <- getitem (variance_demand (model self)) car ;;
  safety_buffer <- safety_buffer_of v ;;
  w <- match exog_info with
       | Some w => Ok w
       | None => Raise (TypeError "'NoneType' object is not subscriptable")
       end ;;
  d <- getitem (ExogInfo.demand w) car ;;
  let target_demand := (d + inject_Z safety_buffer)%Q in
  hi <- getitem theta_max car ;;
  Ok (setitem restock car
        (py_max 0 (py_min (inject_Z (hi - level))
                          (trend_factor * target_demand))%Q)).

Definition basic_order_up_to_policy (self : CarDealerPolicy)
    (theta_min theta_max : dict Z) (exog_info : option ExogInfo.t)
  : result Decision.t :=
  let s := state (model self) in
  restock <- for_each (State.inventory_level s)
               (order_up_to_body self theta_max exog_info) [] ;;
  price <- dict_comp (keys (State.inventory_level s))
             (fun car =>
                cp <- getitem (State.competitor_price s) car ;;
                Ok (py_max 0 (cp - 50)%Q)) ;;
  discount <- dict_comp (keys (State.inventory_level s))
                (fun car => Ok 0%Q) ;;
  Ok {| Decision.restock := restock; Decision.price := price;
        Decision.discount := discount |}.

(** *** [CarDealerPolicy.run_policy] (lines 55-128) *)

(** One entry of [results]. *)
Record ResultRow : Type := {
  r_t : Z;
  r_state_before : State.t;
  r_decision : Decision.t;
  r_state_after : Transition.t;
  r_extra_info : dict Z * dict Z;
  r_revenue : Q;
  r_restocking_cost : Q;
  r_holding_cost : Q;
  r_profit : Q;
  r_objective : Q
}.

(** The [State] built from the entries of [new_state] named in
    [State._fields] (lines 83-84). *)
Definition State_of (new_state : Transition.t) : State.t :=
  {| State.inventory_level := Transition.inventory_level new_state;
     State.holding_time := Transition.holding_time new_state;
     State.competitor_price := Transition.competitor_price new_state;
     State.market_trends := Transition.market_trends new_state;
     State.market_trends_lag1 := Transition.market_trends_lag1 new_state;
     State.market_trends_lag2 := Transition.market_trends_lag2 new_state;
     State.demand_forecast := Transition.demand_forecast new_state;
     State.trend_eta_params := Transition.trend_eta_params new_state |}.

(** A method of the model that only reads [self]. *)
Definition reads {A} (f : CarDealerInventoryModel -> result A) : M A :=
  fun self => (f self, self).

(** The type of [policy_fn]: a method bound to the policy object. *)
Definition PolicyFn : Type :=
  dict Z -> dict Z -> option ExogInfo.t -> result Decision.t.

(** The body of the loop, lines 74-126; the monad's state is [model_copy],
    [self] is the policy object (its [model] is the one [policy_fn] is
    bound to, and is never written here). *)
Definition run_policy_step (self : CarDealerPolicy) (policy_fn : PolicyFn)
    (theta_min theta_max : dict Z) (i : Z) : M ResultRow :=
  exog_info <~ exog_info_fn None ;;
  decision <~ lift (policy_fn theta_min theta_max (Some exog_info)) ;;
  state_before <~ reads (fun model_copy => Ok (state model_copy)) ;;
  new_state <~ reads (fun model_copy =>
                        transition_fn model_copy decision exog_info) ;;
  _ <~ mmodify (set_state (State_of new_state)) ;;
  step_profit <~ reads (fun model_copy =>
                          objective_fn model_copy decision exog_info) ;;
  _ <~ mmodify (fun model_copy =>
                  set_objective (objective model_copy + step_profit)%Q
                    model_copy) ;;
  model_copy <~ mget ;;
  let s := state model_copy in
  revenue <~
    lift (sum_over (keys (State.inventory_level s))
            (fun car =>
               level <- getitem (State.inventory_level s) car ;;
               d <- getitem (ExogInfo.demand exog_info) car ;;
               p <- getitem (Decision.price decision) car ;;
               Ok (py_min (inject_Z level) d * p)%Q)) ;;
  restocking_cost <~
    lift (sum_over (keys (Decision.restock decision))
            (fun car =>
               r <- getitem (Decision.restock decision) car ;;
               Ok (r * 300)%Q)) ;;
  unsold_inventory <~
    lift (dict_comp (keys (State.inventory_level s))
            (fun car =>
               level <- getitem (State.inventory_level s) car ;;
               d <- getitem (ExogInfo.demand exog_info) car ;;
               Ok (level - Z.min level (py_int d)))) ;;
  holding_cost <~
    lift (sum_over (keys unsold_inventory)
            (fun car =>
               u <- getitem unsold_inventory car ;;
               h <- getitem (State.holding_time s) car ;;
               Ok (inject_Z (u * h) * holding_cost (model self))%Q)) ;;
  mret {| r_t := i;
          r_state_before := state_before;
          r_decision := decision;
          r_state_after := new_state;
          r_extra_info := (Transition.cars_sold new_state,
                           Transition.cars_added new_state);
          r_revenue := revenue;
          r_restocking_cost := restocking_cost;
          r_holding_cost := holding_cost;
          r_profit := step_profit;
          r_objective := objective model_copy |}.

(** [for i in range(n_iterations)], with the [break] of lines 71-72. *)
Fixpoint run_policy_loop (self : CarDealerPolicy) (policy_fn : PolicyFn)
    (theta_min theta_max : dict Z) (range : list Z) (results : list ResultRow)
  : M (list ResultRow) :=
  match range with
  | [] => mret results
  | i :: range' =>
      model_copy <~ mget ;;
      if T model_copy <=? t model_copy
      then mret results
      else
        row <~ run_policy_step self policy_fn theta_min theta_max i ;;
        run_policy_loop self policy_fn theta_min theta_max range'
          (results ++ [row])
  end.

Definition range (n : Z) : list Z := map Z.of_nat (seq 0 (Z.to_nat n)).

(** [run_policy]: the loop runs on a deep copy of [self.model]; the pair
    returned is the list of results (or the exception) and the final
    [model_copy]. *)
Definition run_policy (self : CarDealerPolicy) (policy_fn : PolicyFn)
    (n_iterations : Z) (theta_min theta_max : dict Z)
  : result (list ResultRow) * CarDealerInventoryModel :=
  let model_copy := model self in
  run_policy_loop self policy_fn theta_min theta_max (range n_iterations) []
    model_copy.

(** ** [SDPPolicy.get_decision] ([BaseClasses/SDPPolicy.py], lines 15-59) *)

Record SDPPolicy : Type := {
  sdp_model : CarDealerInventoryModel;
  sdp_policy_name : string
}.

(** [state.market_trends == "rising"]: a dict compared with a str. *)
Definition dict_eq_str (d : dict string) (s : string) : bool := false.

Definition promote (d : dict Z) : dict Q :=
  map (fun kv => (fst kv, inject_Z (snd kv))) d.

(** The thresholds of lines 21-30. *)
Definition thresholds (s : State.t) (t : Z) : dict Z * dict Z :=
  let current_month := t mod 12 in
  let is_winter := existsb (Z.eqb current_month) [9; 10; 11; 0; 1] in
  let theta_min :=
    (if is_winter then [("Car A", 5); ("Car B", 10); ("Car C", 5)]
     else [("Car A", 10); ("Car B", 12); ("Car C", 8)])%string in
  let theta_max :=
    (if is_winter then [("Car A", 15); ("Car B", 20); ("Car C", 15)]
     else [("Car A", 20); ("Car B", 25); ("Car C", 20)])%string in
  if dict_eq_str (State.market_trends s) "rising"
  then (theta_min, map (fun kv => (fst kv, snd kv + 2)) theta_max)
  else if dict_eq_str (State.market_trends s) "declining"
  then (map (fun kv => (fst kv, Z.max 0 (snd kv - 2))) theta_min, theta_max)
  else (theta_min, theta_max).

(** The loop of lines 33-45; its local state is [restock] and
    [available_capacity]. *)
Definition restock_body (inventory_level theta_min theta_max : dict Z)
    (l : dict Z * Z) (car : string) : result (dict Z * Z) :=
  let restock := fst l in
  let available_capacity := snd l in
  level <- getitem inventory_level car ;;
  lo <- getitem theta_min car ;;
  if level <? lo
  then
    hi <- getitem theta_max car ;;
    level' <- getitem inventory_level car ;;
    let target_restock := hi - level' in
    let r := Z.min target_restock available_capacity in
    Ok (setitem restock car r, available_capacity - r)
  else Ok (setitem restock car 0, available_capacity).

Definition restock_levels (max_inventory : Z)
    (inventory_level theta_min theta_max : dict Z) : result (dict Z) :=
  let total_inventory := sumZ (values inventory_level) in
  let available_capacity := max_inventory - total_inventory in
  l <- for_each (keys inventory_level)
         (restock_body inventory_level theta_min theta_max)
         ([], available_capacity) ;;
  Ok (fst l).

Definition get_decision (self : SDPPolicy) (s : State.t) (t T : Z)
  : result Decision.t :=
  let '(theta_min, theta_max) := thresholds s t in
  restock <- restock_levels (max_inventory (sdp_model self))
               (State.inventory_level s) theta_min theta_max ;;
  price <- dict_comp (keys (State.inventory_level s))
             (fun car =>
                cp <- getitem (State.competitor_price s) car ;;
                h <- getitem (State.holding_time s) car ;;
                Ok (cp - (if 10 <? h then 100 else 50))%Q) ;;
  discount <- dict_comp (keys (State.inventory_level s))
                (fun car =>
                   h <- getitem (State.holding_time s) car ;;
                   Ok (if 30 <? h then discount_rate (sdp_model self)
                       else 0%Q)) ;;
  Ok {| Decision.restock := promote restock; Decision.price := price;
        Decision.discount := discount |}.

(** ** Quantities named in the statements below *)

(** The three quantities lines 106-111 compute for a car at [level]. *)
Definition sold_at (exog_info : ExogInfo.t) (car : string) (level : Z) : Z :=
  Z.min (py_round (get (ExogInfo.demand exog_info) car 0%Q)) level.

Definition added_at (decision : Decision.t) (car : string) : Z :=
  py_int (get (Decision.restock decision) car 0%Q).

Definition new_level_at (decision : Decision.t) (exog_info : ExogInfo.t)
    (car : string) (level : Z) : Z :=
  Z.max 0 (level + added_at decision car - sold_at exog_info car level).

(** What the loop of [transition_fn] stores for [car]: [f] at the car's
    current level. *)
Definition loop_entry (self : CarDealerInventoryModel) (f : string -> Z -> Z)
    (car : string) (v : Z) : Prop :=
  exists level,
    lookup (State.inventory_level (state self)) car = Some level /\
    v = f car level.

(** [m'] is [m] with draws taken from its random stream. *)
Definition same_but_prng (m m' : CarDealerInventoryModel) : Prop :=
  exists g, m' = set_prng g m.

(** The total post-restock inventory over the tracked cars. *)
Definition post_restock_total (s : State.t) (decision : Decision.t) : Q :=
  sumQ (map (fun car =>
               (inject_Z (get (State.inventory_level s) car 0%Z)
                + get (Decision.restock decision) car 0)%Q)
          (keys (State.inventory_level s))).

(** The invariant of the two loops that fill a demand dictionary: the cars
    visited so far have an entry, and no entry is negative. *)
Definition demand_filled (pre : list string) (d : dict Q) : Prop :=
  wf_dict d /\
  (forall k, In k pre -> has_key d k = true) /\
  (forall k v, lookup d k = Some v -> (0 <= v)%Q).


(** The trend factor the policy reads for a car. *)
Definition trend_factor_of (s : State.t) (car : string) : Q :=
  get trend_adjustments (get (State.market_trends s) car "stable"%string) 1%Q.

(** The restock quantity of lines 40-43 for a car at [level]. *)
Definition order_up_to_quantity (s : State.t) (car : string)
    (level hi v : Z) (d : Q) : Q :=
  py_max 0 (py_min (inject_Z (hi - level))
                   (trend_factor_of s car * (d + inject_Z (Z.sqrt v)))%Q).

(** ** Worked inputs *)

(** A one-car fleet: car A, 10 in stock for 2 periods, competitor price
    1000, forecast 10, stable market. *)
Definition ex_state : State.t :=
  {| State.inventory_level := [("A", 10)]%string;
     State.holding_time := [("A", 2)]%string;
     State.competitor_price := [("A", 1000%Q)]%string;
     State.market_trends := [("A", "stable")]%string;
     State.market_trends_lag1 := [("A", "stable")]%string;
     State.market_trends_lag2 := [("A", "stable")]%string;
     State.demand_forecast := [("A", 10%Q)]%string;
     State.trend_eta_params :=
       [("stable", [6 # 10; 3 # 10; 1 # 10]);
        ("rising", [7 # 10; 2 # 10; 1 # 10]);
        ("declining", [5 # 10; 3 # 10; 2 # 10])]%string%Q |}.

(** A random stream whose variates are all zero: every draw returns the
    mean. *)
Definition zero_stream : RandomState :=
  {| cursor := 0; variates := fun _ => 0%Q |}.

(** The model of [main.py] on that fleet, with an empty trend table. *)
Definition ex_model : CarDealerInventoryModel :=
  {| t := 0; T := 30; state := ex_state; objective := 0;
     prng := zero_stream;
     holding_cost := 85; base_profit := 1500; discount_rate := 5 # 100;
     max_inventory := 50; alpha := 1 # 10;
     variance_demand := [("A", 0)]%string;
     variance_forecast := [("A", 0)]%string;
     seasonal_holding_cost := [("winter", 90%Q); ("summer", 70%Q)]%string;
     market_trends_df := Some [] |}.

Definition ex_policy : CarDealerPolicy :=
  {| model := ex_model; policy_name := "OrderUpToPolicy" |}.

(** The exogenous information [exog_info_fn] draws on [ex_model]. *)
Definition ex_exog : ExogInfo.t :=
  {| ExogInfo.demand := [("A", 10%Q)]%string;
     ExogInfo.competitor_prices := [("A", 1000%Q)]%string;
     ExogInfo.market_trends := [("A", "stable")]%string |}.

Definition ex_decision : Decision.t :=
  {| Decision.restock := [("A", 5%Q)]%string;
     Decision.price := [("A", 950%Q)]%string;
     Decision.discount := [("A", 0%Q)]%string |}.

(** The same model built without a trend file. *)
Definition no_trends_model : CarDealerInventoryModel :=
  {| t := 0; T := 30; state := ex_state; objective := 0;
     prng := zero_stream;
     holding_cost := 85; base_profit := 1500; discount_rate := 5 # 100;
     max_inventory := 50; alpha := 1 # 10;
     variance_demand := [("A", 0)]%string;
     variance_forecast := [("A", 0)]%string;
     seasonal_holding_cost := [("winter", 90%Q); ("summer", 70%Q)]%string;
     market_trends_df := None |}.

(** A full lot in a rising market: 10 cars of A, capacity 10, forecast 5. *)
Definition full_state : State.t :=
  {| State.inventory_level := [("A", 10)]%string;
     State.holding_time := [("A", 2)]%string;
     State.competitor_price := [("A", 1000%Q)]%string;
     State.market_trends := [("A", "rising")]%string;
     State.market_trends_lag1 := [("A", "stable")]%string;
     State.market_trends_lag2 := [("A", "stable")]%string;
     State.demand_forecast := [("A", 5%Q)]%string;
     State.trend_eta_params := [] |}.

Definition full_model : CarDealerInventoryModel :=
  {| t := 0; T := 30; state := full_state; objective := 0;
     prng := zero_stream;
     holding_cost := 85; base_profit := 1500; discount_rate := 5 # 100;
     max_inventory := 10; alpha := 1 # 10;
     variance_demand := [("A", 0)]%string;
     variance_forecast := [("A", 0)]%string;
     seasonal_holding_cost := [("winter", 90%Q); ("summer", 70%Q)]%string;
     market_trends_df := Some [] |}.

Definition full_policy : CarDealerPolicy :=
  {| model := full_model; policy_name := "OrderUpToPolicy" |}.

(** A fleet the threshold policy knows, with a competitor price of 30. *)
Definition cheap_state : State.t :=
  {| State.inventory_level := [("Car A", 3)]%string;
     State.holding_time := [("Car A", 2)]%string;
     State.competitor_price := [("Car A", 30%Q)]%string;
     State.market_trends := [("Car A", "stable")]%string;
     State.market_trends_lag1 := [("Car A", "stable")]%string;
     State.market_trends_lag2 := [("Car A", "stable")]%string;
     State.demand_forecast := [("Car A", 4%Q)]%string;
     State.trend_eta_params := [] |}.

(** A lot holding more than the capacity of 50. *)
Definition crowded_state : State.t :=
  {| State.inventory_level := [("Car A", 3); ("Car B", 60)]%string;
     State.holding_time := [("Car A", 2); ("Car B", 2)]%string;
     State.competitor_price := [("Car A", 1000%Q); ("Car B", 1000%Q)]%string;
     State.market_trends := [("Car A", "stable"); ("Car B", "stable")]%string;
     State.market_trends_lag1 := [];
     State.market_trends_lag2 := [];
     State.demand_forecast := [("Car A", 4%Q); ("Car B", 4%Q)]%string;
     State.trend_eta_params := [] |}.

Definition ex_sdp_policy : SDPPolicy :=
  {| sdp_model := ex_model; sdp_policy_name := "" |}.

(** The one-car fleet with a competitor price of 20. *)
Definition bargain_state : State.t :=
  {| State.inventory_level := [("A", 10)]%string;
     State.holding_time := [("A", 2)]%string;
     State.competitor_price := [("A", 20%Q)]%string;
     State.market_trends := [("A", "stable")]%string;
     State.market_trends_lag1 := [("A", "stable")]%string;
     State.market_trends_lag2 := [("A", "stable")]%string;
     State.demand_forecast := [("A", 10%Q)]%string;
     State.trend_eta_params := [] |}.

Definition bargain_policy : CarDealerPolicy :=
  {| model := set_state bargain_state ex_model;
     policy_name := "OrderUpToPolicy" |}.

(** ** Further quantities named in the statements *)

(** The three parts of the step profit of [objective_fn], car by car. *)
Definition revenue_of (s : State.t) (decision : Decision.t)
    (exog_info : ExogInfo.t) : Q :=
  sumQ (map (fun car =>
               (py_min (inject_Z (get (State.inventory_level s) car 0%Z))
                       (get (ExogInfo.demand exog_info) car 0)
                * get (Decision.price decision) car 0)%Q)
          (keys (State.inventory_level s))).

Definition restocking_cost_of (decision : Decision.t) : Q :=
  sumQ (map (fun car => (get (Decision.restock decision) car 0 * 300)%Q)
          (keys (Decision.restock decision))).

Definition unsold_of (s : State.t) (exog_info : ExogInfo.t) (car : string) : Z :=
  let level := get (State.inventory_level s) car 0 in
  level - Z.min level (py_int (get (ExogInfo.demand exog_info) car 0%Q)).

Definition holding_rate_of (self : CarDealerInventoryModel)
    (exog_info : ExogInfo.t) (car : string) : Q :=
  get (seasonal_holding_cost self)
    (lower (get (ExogInfo.market_trends exog_info) car EmptyString))
    (holding_cost self).

Definition holding_cost_of (self : CarDealerInventoryModel)
    (exog_info : ExogInfo.t) : Q :=
  let s := state self in
  sumQ (map (fun car =>
               (inject_Z (unsold_of s exog_info car
                          * get (State.holding_time s) car 0%Z)
                * holding_rate_of self exog_info car)%Q)
          (keys (State.inventory_level s))).

(** The value of the stock at the decision's prices. *)
Definition stock_value (s : State.t) (decision : Decision.t) : Q :=
  sumQ (map (fun car =>
               (inject_Z (get (State.inventory_level s) car 0%Z)
                * get (Decision.price decision) car 0)%Q)
          (keys (State.inventory_level s))).

(** Two trend mappings that differ at most in the letter case of their
    entries. *)
Definition same_trends_up_to_case (a b : dict string) : Prop :=
  forall car, option_map lower (lookup a car) = option_map lower (lookup b car).

(** The first row of the trend table for the month of [t] and the model
    [car], if there is one (lines 52-53 and 61-62). *)
Definition trend_row_for (df : DataFrame) (t : Z) (car : string)
  : option TrendRow :=
  match filter (fun r => String.eqb (Model r) car)
          (filter (fun r => String.eqb (Month r) (current_month_of t)) df) with
  | row :: _ => Some row
  | [] => None
  end.

Definition exog_price_at (df : DataFrame) (t : Z) (car : string) (cp : Q) : Q :=
  match trend_row_for df t car with
  | Some row => py_max 0 (cp + Price_Trend row - Competitor_Activity row)%Q
  | None => cp
  end.

Definition exog_trend_at (df : DataFrame) (t : Z) (car : string) : string :=
  match trend_row_for df t car with
  | Some row => Season row
  | None => "stable"%string
  end.

(** [m'] is [m] after [n] draws from its random stream: nothing else
    differs. *)
Definition draws_taken (n : nat) (m m' : CarDealerInventoryModel) : Prop :=
  m' = set_prng {| cursor := (cursor (prng m) + n)%nat;
                   variates := variates (prng m) |} m.

(** The draws of one call of [exog_info_fn]: one for a car without a trend
    row, one plus one per tracked car for a car with a trend row. *)
Definition draw_count (df : DataFrame) (t : Z) (fleet : list string) : nat :=
  list_sum (map (fun car =>
                   match trend_row_for df t car with
                   | Some _ => S (List.length fleet)
                   | None => 1%nat
                   end) fleet).

(** What the loop of [exog_info_fn] has stored for the cars visited. *)
Definition exog_filled (s : State.t) (df : DataFrame) (t : Z)
    (pre : list string) (l : ExogLoop) : Prop :=
  forall k cp,
    In k pre -> lookup (State.competitor_price s) k = Some cp ->
    lookup (l_competitor_prices l) k = Some (exog_price_at df t k cp) /\
    lookup (l_new_market_trends l) k = Some (exog_trend_at df t k).

(** The rows of one run hang together: each row starts from the state the
    row before it ended in, and its running objective is the one before it
    plus its own profit. *)
Fixpoint rows_chained (s0 : State.t) (o0 : Q) (rows : list ResultRow) : Prop :=
  match rows with
  | [] => True
  | row :: rows' =>
      r_state_before row = s0 /\
      r_objective row = (o0 + r_profit row)%Q /\
      rows_chained (State_of (r_state_after row)) (r_objective row) rows'
  end.

(** The state the last row ended in, or [s0] if there is no row. *)
Definition final_state (s0 : State.t) (rows : list ResultRow) : State.t :=
  fold_left (fun _ row => State_of (r_state_after row)) rows s0.

(** No new trend of the row has a seasonal holding rate in the table
    [seasonal]. *)
Definition no_seasonal_rate (seasonal : dict Q) (row : ResultRow) : Prop :=
  forall car trend,
    lookup (Transition.market_trends (r_state_after row)) car = Some trend ->
    lookup seasonal (lower trend) = None.

(** The logged parts of a row add up to its profit. *)
Definition row_adds_up (row : ResultRow) : Prop :=
  r_profit row
  = (r_revenue row - (r_restocking_cost row + r_holding_cost row))%Q.

(** The strings on which [lower] is [str.lower()]: every character is an
    ASCII character. *)
Fixpoint is_ascii (s : string) : bool :=
  match s with
  | EmptyString => true
  | String c s' => (nat_of_ascii c <? 128)%nat && is_ascii s'
  end.

(** Every trend name of the mapping is an ASCII string. *)
Definition ascii_trends (d : dict string) : Prop :=
  forall car trend, lookup d car = Some trend -> is_ascii trend = true.

(** An operand of the sum of line 74 that is small enough for the sum to
    stay within 64 bits at every step, whatever the other operands in that
    range are. *)
Definition int64_safe (x : Q) : Prop :=
  (- inject_Z (2 ^ 61) <= x)%Q /\ (x <= inject_Z (2 ^ 61))%Q.

(** The winter months of the threshold policy (line 22). *)
Definition is_winter (t : Z) : bool :=
  existsb (Z.eqb (t mod 12)) [9; 10; 11; 0; 1].

(** The new inventory in the words of the specification: the restock
    quantity is added as it is. *)
Definition new_inventory_as_claimed (level : Z) (restock : Q) (cars_sold : Z)
  : Q :=
  py_max 0 (inject_Z level + restock - inject_Z cars_sold)%Q.

(** The restock quantity in the words of the specification: the
    trend-adjusted forecast plus the safety buffer, capped and floored. *)
Definition restock_as_claimed (level hi : Z) (trend_factor forecast : Q)
    (v : Z) : Q :=
  py_max 0 (py_min (inject_Z (hi - level))
                   (trend_factor * forecast + inject_Z (Z.sqrt v)))%Q.

(** ** Further worked inputs *)

(** A decision that restocks car A by 2.7. *)
Definition fractional_decision : Decision.t :=
  {| Decision.restock := [("A", 27 # 10)]%string%Q;
     Decision.price := [("A", 950%Q)]%string;
     Decision.discount := [("A", 0%Q)]%string |}.


(** An empty lot in a rising market: forecast 10, demand variance 4, and
    a realised demand of 5. *)
Definition rising_state : State.t :=
  {| State.inventory_level := [("A", 0)]%string;
     State.holding_time := [("A", 0)]%string;
     State.competitor_price := [("A", 1000%Q)]%string;
     State.market_trends := [("A", "rising")]%string;
     State.market_trends_lag1 := [("A", "stable")]%string;
     State.market_trends_lag2 := [("A", "stable")]%string;
     State.demand_forecast := [("A", 10%Q)]%string;
     State.trend_eta_params := [] |}.

Definition rising_policy : CarDealerPolicy :=
  {| model :=
       {| t := 0; T := 30; state := rising_state; objective := 0;
          prng := zero_stream;
          holding_cost := 85; base_profit := 1500; discount_rate := 5 # 100;
          max_inventory := 50; alpha := 1 # 10;
          variance_demand := [("A", 4)]%string;
          variance_forecast := [("A", 0)]%string;
          seasonal_holding_cost := [("winter", 90%Q); ("summer", 70%Q)]%string;
          market_trends_df := Some [] |};
     policy_name := "OrderUpToPolicy" |}.

Definition rising_exog : ExogInfo.t :=
  {| ExogInfo.demand := [("A", 5%Q)]%string;
     ExogInfo.competitor_prices := [("A", 1000%Q)]%string;
     ExogInfo.market_trends := [("A", "rising")]%string |}.

(** A trend table with one row, for car A in January. *)
Definition ex_table : DataFrame :=
  [{| Month := "2023-01"; Model := "A"; Demand_Index := 1;
      Price_Trend := 30; Competitor_Activity := 10; Season := "Winter" |}].

(** The model of the first worked input, with that table. *)
Definition ex_model_with_table : CarDealerInventoryModel :=
  {| t := 0; T := 30; state := ex_state; objective := 0;
     prng := zero_stream;
     holding_cost := 85; base_profit := 1500; discount_rate := 5 # 100;
     max_inventory := 50; alpha := 1 # 10;
     variance_demand := [("A", 0)]%string;
     variance_forecast := [("A", 0)]%string;
     seasonal_holding_cost := [("winter", 90%Q); ("summer", 70%Q)]%string;
     market_trends_df := Some ex_table |}.

(** The exogenous information of the first worked input with its trend in
    capitals. *)
Definition ex_exog_capitals : ExogInfo.t :=
  {| ExogInfo.demand := [("A", 10%Q)]%string;
     ExogInfo.competitor_prices := [("A", 0%Q)]%string;
     ExogInfo.market_trends := [("A", "STABLE")]%string |}.

(** A decision with no entry for car A. *)
Definition empty_decision : Decision.t :=
  {| Decision.restock := []; Decision.price := []; Decision.discount := [] |}.

(** A decision that takes cars away. *)
Definition negative_decision : Decision.t :=
  {| Decision.restock := [("A", (-1)%Q)]%string;
     Decision.price := [("A", 950%Q)]%string;
     Decision.discount := [("A", 0%Q)]%string |}.

(** * Properties *)

(** ** Numbers *)

Lemma Qltb_lt (a b : Q) : Qltb a b = true <-> (a < b)%Q.
Proof.
  unfold Qltb. rewrite negb_true_iff. split; intro H.
  - apply Qnot_le_lt. intro Hle. apply Qle_bool_iff in Hle. congruence.
  - destruct (Qle_bool b a) eqn:E; [|reflexivity].
    apply Qle_bool_iff in E. exfalso. exact (Qlt_not_le _ _ H E).
Qed.

Lemma Qltb_ge (a b : Q) : Qltb a b = false <-> (b <= a)%Q.
Proof.
  unfold Qltb. rewrite negb_false_iff. apply Qle_bool_iff.
Qed.

Lemma py_max_lower (a b : Q) : (a <= py_max a b)%Q.
Proof.
  unfold py_max. destruct (Qltb a b) eqn:E.
  - apply Qlt_le_weak, Qltb_lt, E.
  - apply Qle_refl.
Qed.

Lemma py_min_cases (a b : Q) :
  (py_min a b = a /\ (a <= b)%Q) \/ (py_min a b = b /\ (b < a)%Q).
Proof.
  unfold py_min. destruct (Qltb b a) eqn:E.
  - right. split; [reflexivity | apply Qltb_lt, E].
  - left. split; [reflexivity | apply Qltb_ge, E].
Qed.

Lemma py_round_nonneg (x : Q) : (0 <= x)%Q -> 0 <= py_round x.
Proof.
  intro H. unfold py_round.
  assert (Hf : 0 <= Qfloor x).
  { change 0 with (Qfloor 0). apply Qfloor_resp_le, H. }
  destruct (Qcompare _ _); [destruct (Z.even _) | |]; lia.
Qed.

Lemma py_int_nonneg (x : Q) : (0 <= x)%Q -> 0 <= py_int x.
Proof.
  destruct x as [n d]. unfold Qle, py_int. simpl. intro H.
  assert (Hn : 0 <= n) by lia.
  apply Z.quot_pos; [exact Hn | reflexivity].
Qed.

Lemma py_int_le (x : Q) : (0 <= x)%Q -> (inject_Z (py_int x) <= x)%Q.
Proof.
  destruct x as [n d]. unfold Qle, py_int, inject_Z. simpl. intro H.
  assert (Hn : 0 <= n) by lia.
  rewrite Z.quot_div_nonneg by lia.
  rewrite Z.mul_1_r, Z.mul_comm. apply Z.mul_div_le. reflexivity.
Qed.

Lemma py_int_inject (x : Q) (k : Z) : (x == inject_Z k)%Q -> py_int x = k.
Proof.
  destruct x as [n d]. unfold Qeq, py_int, inject_Z. simpl. intro H.
  assert (Hn : n = k * Z.pos d) by lia.
  rewrite Hn. apply Z.quot_mul. lia.
Qed.

(** ** Dictionaries *)

Section DictFacts.
Context {V : Type}.
Implicit Types (d : dict V) (k : string) (v : V).

Lemma lookup_setitem d k v k' :
  lookup (setitem d k v) k' = if String.eqb k' k then Some v else lookup d k'.
Proof.
  induction d as [|[k0 v0] d IH]; simpl.
  - reflexivity.
  - destruct (String.eqb k k0) eqn:E; simpl.
    + apply String.eqb_eq in E. subst k0.
      destruct (String.eqb k' k); reflexivity.
    + rewrite IH. destruct (String.eqb k' k0) eqn:E0; [|reflexivity].
      apply String.eqb_eq in E0. subst k0.
      destruct (String.eqb k' k) eqn:E1; [|reflexivity].
      apply String.eqb_eq in E1. subst k'.
      rewrite String.eqb_refl in E. discriminate.
Qed.

Lemma has_key_in d k : has_key d k = true <-> In k (keys d).
Proof.
  unfold has_key. induction d as [|[k0 v0] d IH]; simpl.
  - split; [discriminate | tauto].
  - destruct (String.eqb k k0) eqn:E.
    + apply String.eqb_eq in E. subst. tauto.
    + apply String.eqb_neq in E. rewrite IH.
      split; [tauto | intros [H|H]; [congruence | exact H]].
Qed.

Lemma has_key_lookup d k : has_key d k = true -> exists v, lookup d k = Some v.
Proof.
  unfold has_key. destruct (lookup d k) as [v|]; [eauto | discriminate].
Qed.

Lemma lookup_has_key d k v : lookup d k = Some v -> has_key d k = true.
Proof. unfold has_key. intros ->. reflexivity. Qed.

Lemma lookup_in d k v : lookup d k = Some v -> In (k, v) d.
Proof.
  induction d as [|[k0 v0] d IH]; simpl; [discriminate|].
  destruct (String.eqb k k0) eqn:E.
  - apply String.eqb_eq in E. intros [= ->]. subst. now left.
  - intro H. right. exact (IH H).
Qed.

Lemma setitem_fresh d k v :
  has_key d k = false -> setitem d k v = d ++ [(k, v)].
Proof.
  unfold has_key. induction d as [|[k0 v0] d IH]; simpl; [reflexivity|].
  destruct (String.eqb k k0); [discriminate|].
  intro H. now rewrite IH.
Qed.

Lemma lookup_app d d' k :
  lookup (d ++ d') k =
  match lookup d k with Some v => Some v | None => lookup d' k end.
Proof.
  induction d as [|[k0 v0] d IH]; simpl; [reflexivity|].
  destruct (String.eqb k k0); [reflexivity | exact IH].
Qed.

Lemma covers_lookup d ks k :
  covers d ks -> In k ks -> exists v, lookup d k = Some v.
Proof.
  unfold covers. rewrite forallb_forall. intros H Hin.
  apply has_key_lookup, H, Hin.
Qed.

Lemma getitem_ok d k v : lookup d k = Some v -> getitem d k = Ok v.
Proof. unfold getitem. intros ->. reflexivity. Qed.

Lemma get_lookup d k v dflt : lookup d k = Some v -> get d k dflt = v.
Proof. unfold get. intros ->. reflexivity. Qed.
End DictFacts.

Lemma existsb_eqb_in (k : string) (ks : list string) :
  existsb (String.eqb k) ks = true <-> In k ks.
Proof.
  rewrite existsb_exists. split.
  - intros [x [Hin E]]. apply String.eqb_eq in E. now subst.
  - intro Hin. exists k. split; [exact Hin | apply String.eqb_refl].
Qed.

Lemma nodupb_NoDup (ks : list string) : nodupb ks = true <-> NoDup ks.
Proof.
  induction ks as [|k ks IH]; simpl.
  - split; [constructor | reflexivity].
  - rewrite andb_true_iff, negb_true_iff, IH. split.
    + intros [H1 H2]. constructor; [|exact H2].
      intro Hin. apply existsb_eqb_in in Hin. congruence.
    + intro H. inversion H as [|? ? Hn Hd]; subst. split; [|exact Hd].
      destruct (existsb (String.eqb k) ks) eqn:E; [|reflexivity].
      apply existsb_eqb_in in E. contradiction.
Qed.

Lemma has_key_app {V} (d d' : dict V) (k : string) :
  has_key (d ++ d') k = has_key d k || has_key d' k.
Proof.
  unfold has_key. rewrite lookup_app. destruct (lookup d k); reflexivity.
Qed.

(** ** Loops that fill a dictionary

    A loop over [xs] whose every turn stores, under the key of the element
    it visits, a value related to that element by [R].  When the keys visited
    are distinct and new to the dictionary, the loop appends one entry per
    element, in order. *)

Section ForEach.
Context {A S V : Type}.
Variable key : A -> string.
Variable proj : S -> dict V.
Variable R : A -> V -> Prop.
Variable body : S -> A -> result S.

Hypothesis body_sets : forall s x s',
  body s x = Ok s' ->
  exists v, R x v /\ proj s' = setitem (proj s) (key x) v.

Lemma for_each_build xs : forall s s',
  nodupb (map key xs) = true ->
  (forall x, In x xs -> has_key (proj s) (key x) = false) ->
  for_each xs body s = Ok s' ->
  exists vs, Forall2 R xs vs /\ proj s' = proj s ++ combine (map key xs) vs.
Proof.
  induction xs as [|x xs IH]; simpl; intros s s' Hnd Hfresh Hrun.
  - injection Hrun as <-. exists []. split; [constructor|].
    now rewrite app_nil_r.
  - destruct (body s x) as [s1|e] eqn:Hb; simpl in Hrun; [|discriminate].
    destruct (body_sets _ _ _ Hb) as [v [Hv Hs1]].
    rewrite setitem_fresh in Hs1 by (apply Hfresh; now left).
    apply andb_true_iff in Hnd. destruct Hnd as [Hx Hnd].
    apply negb_true_iff in Hx.
    destruct (IH s1 s' Hnd) as [vs [Hvs Hs']]; [|exact Hrun|].
    + intros y Hy. rewrite Hs1, has_key_app, (Hfresh y) by now right.
      simpl. unfold has_key. simpl.
      destruct (String.eqb (key y) (key x)) eqn:E; [|reflexivity].
      apply String.eqb_eq in E.
      assert (Hin : In (key x) (map key xs)).
      { rewrite <- E. now apply in_map. }
      apply existsb_eqb_in in Hin. congruence.
    + exists (v :: vs). split; [now constructor|].
      rewrite Hs', Hs1, <- app_assoc. reflexivity.
Qed.

Lemma lookup_combine_R xs vs :
  Forall2 R xs vs -> nodupb (map key xs) = true ->
  forall x, In x xs ->
  exists v, R x v /\ lookup (combine (map key xs) vs) (key x) = Some v.
Proof.
  induction 1 as [|x0 v0 xs vs HR HF IH]; simpl; intros Hnd x Hin;
    [contradiction|].
  apply andb_true_iff in Hnd. destruct Hnd as [Hx Hnd].
  apply negb_true_iff in Hx.
  destruct Hin as [->|Hin].
  - exists v0. now rewrite String.eqb_refl.
  - destruct (String.eqb (key x) (key x0)) eqn:E.
    + apply String.eqb_eq in E.
      assert (Hk : In (key x0) (map key xs)).
      { rewrite <- E. now apply in_map. }
      apply existsb_eqb_in in Hk. congruence.
    + now apply IH.
Qed.

Lemma for_each_total xs : forall s,
  (forall s0 x, In x xs -> exists s1, body s0 x = Ok s1) ->
  exists s', for_each xs body s = Ok s'.
Proof.
  induction xs as [|x xs IH]; simpl; intros s Hok.
  - now exists s.
  - destruct (Hok s x) as [s1 Hs1]; [now left|]. rewrite Hs1. simpl.
    apply IH. intros s0 y Hy. apply Hok. now right.
Qed.
End ForEach.

Lemma keys_combine {V} (ks : list string) (vs : list V) :
  List.length ks = List.length vs -> keys (combine ks vs) = ks.
Proof.
  unfold keys. revert vs.
  induction ks as [|k ks IH]; intros [|v vs]; simpl;
    try discriminate; try reflexivity.
  intros [= H]. f_equal. now apply IH.
Qed.

Lemma values_combine {V} (ks : list string) (vs : list V) :
  List.length ks = List.length vs -> values (combine ks vs) = vs.
Proof.
  unfold values. revert vs.
  induction ks as [|k ks IH]; intros [|v vs]; simpl;
    try discriminate; try reflexivity.
  intros [= H]. f_equal. now apply IH.
Qed.

(** ** Sums *)

Lemma sum_over_acc (f : string -> result Q) (ks : list string) :
  forall acc total,
  for_each ks (fun acc k => x <- f k ;; Ok (acc + x)%Q) acc = Ok total ->
  exists xs, Forall2 (fun k x => f k = Ok x) ks xs /\
             total = fold_left Qplus xs acc.
Proof.
  induction ks as [|k ks IH]; simpl; intros acc total H.
  - injection H as <-. exists []. split; [constructor | reflexivity].
  - destruct (f k) as [x|e] eqn:Hf; simpl in H; [|discriminate].
    destruct (IH _ _ H) as [xs [HF Ht]].
    exists (x :: xs). split; [now constructor | exact Ht].
Qed.

Lemma sum_over_inv (f : string -> result Q) (ks : list string) (total : Q) :
  sum_over ks f = Ok total ->
  exists xs, Forall2 (fun k x => f k = Ok x) ks xs /\ total = sumQ xs.
Proof. apply sum_over_acc. Qed.

Lemma fold_left_Z_le_Q (vs : list Z) (xs : list Q) :
  Forall2 (fun v x => (inject_Z v <= x)%Q) vs xs ->
  forall a b, (inject_Z a <= b)%Q ->
  (inject_Z (fold_left Z.add vs a) <= fold_left Qplus xs b)%Q.
Proof.
  induction 1 as [|v x vs xs Hvx HF IH]; simpl; intros a b Hab.
  - exact Hab.
  - apply IH. rewrite inject_Z_plus. now apply Qplus_le_compat.
Qed.

(** ** [transition_fn]: what each car's entries are *)

Section TransitionFacts.
Variable self : CarDealerInventoryModel.
Variable decision : Decision.t.
Variable exog_info : ExogInfo.t.

Let s := state self.
Let sold_at := sold_at exog_info.
Let added_at := added_at decision.
Let new_level_at := new_level_at decision exog_info.
Let loop_entry := loop_entry self.

Lemma trans_loop_body_sets (proj : TransLoop -> dict Z)
    (f : string -> Z -> Z) :
  (forall l car level,
     proj {| l_new_inventory :=
               setitem (l_new_inventory l) car (new_level_at car level);
             l_cars_sold := setitem (l_cars_sold l) car (sold_at car level);
             l_cars_added := setitem (l_cars_added l) car (added_at car) |}
     = setitem (proj l) car (f car level)) ->
  forall l car l',
    trans_loop_body s decision exog_info l car = Ok l' ->
    exists v, loop_entry f car v /\ proj l' = setitem (proj l) (id car) v.
Proof.
  intros Hproj l car l'. unfold trans_loop_body, getitem.
  destruct (lookup (State.inventory_level s) car) as [level|] eqn:Hl;
    simpl; [|discriminate].
  intros [= <-]. exists (f car level). split.
  - exists level. split; [exact Hl | reflexivity].
  - apply Hproj.
Qed.

Lemma trans_loop_total :
  exists l, for_each (keys (State.inventory_level s))
              (trans_loop_body s decision exog_info)
              {| l_new_inventory := []; l_cars_sold := [];
                 l_cars_added := [] |} = Ok l.
Proof.
  apply for_each_total. intros l car Hin.
  apply has_key_in, has_key_lookup in Hin. destruct Hin as [level Hl].
  unfold trans_loop_body, getitem. rewrite Hl. simpl. eauto.
Qed.

(** After the loop, a projection of the loop state lists one entry per
    tracked car, in the order of the fleet. *)
Lemma trans_loop_proj (proj : TransLoop -> dict Z) (f : string -> Z -> Z) l :
  (forall l car level,
     proj {| l_new_inventory :=
               setitem (l_new_inventory l) car (new_level_at car level);
             l_cars_sold := setitem (l_cars_sold l) car (sold_at car level);
             l_cars_added := setitem (l_cars_added l) car (added_at car) |}
     = setitem (proj l) car (f car level)) ->
  proj {| l_new_inventory := []; l_cars_sold := []; l_cars_added := [] |}
  = [] ->
  wf_dict (State.inventory_level s) ->
  for_each (keys (State.inventory_level s))
    (trans_loop_body s decision exog_info)
    {| l_new_inventory := []; l_cars_sold := []; l_cars_added := [] |}
  = Ok l ->
  exists vs,
    Forall2 (loop_entry f) (keys (State.inventory_level s)) vs /\
    proj l = combine (keys (State.inventory_level s)) vs.
Proof.
  intros Hproj Hnil Hwf Hrun.
  destruct (for_each_build id proj (loop_entry f) _
              (trans_loop_body_sets proj f Hproj) _ _ _
              ltac:(rewrite map_id; exact Hwf)
              ltac:(intros x _; rewrite Hnil; reflexivity) Hrun)
    as [vs [HF Hp]].
  exists vs. split; [exact HF|].
  rewrite Hp, Hnil, map_id. reflexivity.
Qed.

Lemma loop_entry_lookup (f : string -> Z -> Z) vs car level :
  wf_dict (State.inventory_level s) ->
  Forall2 (loop_entry f) (keys (State.inventory_level s)) vs ->
  lookup (State.inventory_level s) car = Some level ->
  lookup (combine (keys (State.inventory_level s)) vs) car
  = Some (f car level).
Proof.
  intros Hwf HF Hl.
  assert (Hin : In car (keys (State.inventory_level s))).
  { apply has_key_in. eapply lookup_has_key, Hl. }
  destruct (lookup_combine_R id (loop_entry f) _ _ HF
              ltac:(rewrite map_id; exact Hwf) car Hin)
    as [v [[level' [Hl' ->]] Hv]].
  rewrite !map_id in Hv. unfold id in Hv. rewrite Hv.
  unfold s in Hl. rewrite Hl in Hl'. now injection Hl' as <-.
Qed.
End TransitionFacts.

(** ** Dictionary comprehensions *)

Section DictComp.
Context {V : Type}.
Variable f : string -> result V.

Lemma dict_comp_build ks d :
  nodupb ks = true -> dict_comp ks f = Ok d ->
  exists vs, Forall2 (fun k v => f k = Ok v) ks vs /\ d = combine ks vs.
Proof.
  intros Hnd Hrun. unfold dict_comp in Hrun.
  destruct (for_each_build id id (fun k v => f k = Ok v)
              (fun d k => v <- f k ;; Ok (setitem d k v))) with
    (xs := ks) (s := @nil (string * V)) (s' := d) as [vs [HF Hd]].
  - intros d0 k d1. destruct (f k) as [v|e]; simpl; [|discriminate].
    intros [= <-]. exists v. split; reflexivity.
  - now rewrite map_id.
  - reflexivity.
  - exact Hrun.
  - exists vs. split; [exact HF|]. unfold id in Hd. now rewrite map_id in Hd.
Qed.

Lemma dict_comp_total ks :
  (forall k, In k ks -> exists v, f k = Ok v) ->
  exists d, dict_comp ks f = Ok d.
Proof.
  intro H. apply for_each_total. intros d0 k Hk.
  destruct (H k Hk) as [v ->]. simpl. eauto.
Qed.

Lemma dict_comp_lookup ks d k :
  nodupb ks = true -> dict_comp ks f = Ok d -> In k ks ->
  exists v, f k = Ok v /\ lookup d k = Some v.
Proof.
  intros Hnd Hrun Hin.
  destruct (dict_comp_build _ _ Hnd Hrun) as [vs [HF ->]].
  destruct (lookup_combine_R id (fun k v => f k = Ok v) _ _ HF
              ltac:(rewrite map_id; exact Hnd) k Hin) as [v [Hv Hl]].
  rewrite map_id in Hl. exists v. split; assumption.
Qed.

End DictComp.

(** ** [transition_fn] returns, and what it returns *)

Lemma transition_fn_spec (self : CarDealerInventoryModel)
    (decision : Decision.t) (exog_info : ExogInfo.t) :
  let s := state self in
  wf_dict (State.inventory_level s) ->
  covers (State.holding_time s) (keys (State.inventory_level s)) ->
  exists ts vs,
    transition_fn self decision exog_info = Ok ts /\
    Forall2 (loop_entry self (new_level_at decision exog_info))
      (keys (State.inventory_level s)) vs /\
    Transition.inventory_level ts = combine (keys (State.inventory_level s)) vs /\
    forall car level h,
      lookup (State.inventory_level s) car = Some level ->
      lookup (State.holding_time s) car = Some h ->
      lookup (Transition.cars_sold ts) car = Some (sold_at exog_info car level) /\
      lookup (Transition.cars_added ts) car = Some (added_at decision car) /\
      lookup (Transition.inventory_level ts) car
      = Some (new_level_at decision exog_info car level) /\
      lookup (Transition.holding_time ts) car
      = Some (if 0 <? new_level_at decision exog_info car level
              then h + 1 else 0).
Proof.
  intros s Hwf Hcov. unfold transition_fn. fold s.
  destruct (trans_loop_total self decision exog_info) as [l Hl].
  fold s in Hl. rewrite Hl. simpl.
  destruct (trans_loop_proj self decision exog_info l_new_inventory
              (new_level_at decision exog_info) l
              ltac:(reflexivity) ltac:(reflexivity) Hwf Hl) as [vn [HFn Hn]].
  destruct (trans_loop_proj self decision exog_info l_cars_sold
              (sold_at exog_info) l
              ltac:(reflexivity) ltac:(reflexivity) Hwf Hl) as [vs [HFs Hs]].
  destruct (trans_loop_proj self decision exog_info l_cars_added
              (fun car _ => added_at decision car) l
              ltac:(reflexivity) ltac:(reflexivity) Hwf Hl) as [va [HFa Ha]].
  fold s in Hn, Hs, Ha, HFn, HFs, HFa.
  set (ht := fun car =>
         n <- getitem (l_new_inventory l) car ;;
         if 0 <? n
         then h <- getitem (State.holding_time s) car ;; Ok (h + 1)
         else Ok 0).
  assert (Hht : forall car level h,
             lookup (State.inventory_level s) car = Some level ->
             lookup (State.holding_time s) car = Some h ->
             ht car = Ok (if 0 <? new_level_at decision exog_info car level
                          then h + 1 else 0)).
  { intros car level h Hlv Hh. unfold ht.
    rewrite (getitem_ok _ _ (new_level_at decision exog_info car level)).
    - simpl. destruct (0 <? _); [|reflexivity].
      rewrite (getitem_ok _ _ h Hh). reflexivity.
    - rewrite Hn. now apply (loop_entry_lookup self). }
  destruct (dict_comp_total ht (keys (State.inventory_level s))) as [nh Hnh].
  { intros car Hin.
    destruct (covers_lookup _ _ _ Hcov Hin) as [h Hh].
    apply has_key_in, has_key_lookup in Hin. destruct Hin as [level Hlv].
    rewrite (Hht _ _ _ Hlv Hh). eauto. }
  rewrite Hnh. simpl.
  match goal with
  | |- context [dict_comp ?ks ?g] =>
      destruct (dict_comp_total g ks) as [nf Hnf]; [eauto|rewrite Hnf]
  end.
  simpl. eexists. exists vn. split; [reflexivity|]. simpl.
  split; [exact HFn|]. split; [exact Hn|].
  intros car level h Hlv Hh.
  rewrite Hs, Ha, Hn.
  split; [exact (loop_entry_lookup self _ _ _ _ Hwf HFs Hlv)|].
  split; [exact (loop_entry_lookup self _ _ _ _ Hwf HFa Hlv)|].
  split; [exact (loop_entry_lookup self _ _ _ _ Hwf HFn Hlv)|].
  assert (Hin : In car (keys (State.inventory_level s))).
  { apply has_key_in. eapply lookup_has_key, Hlv. }
  destruct (dict_comp_lookup ht _ _ car Hwf Hnh Hin) as [v [Hv Hlk]].
  rewrite Hlk. rewrite (Hht _ _ _ Hlv Hh) in Hv. congruence.
Qed.

Lemma Forall2_join {A B C} (P : A -> B -> Prop) (Q : A -> C -> Prop)
    (R : B -> C -> Prop) (ks : list A) (vs : list B) (xs : list C) :
  Forall2 P ks vs -> Forall2 Q ks xs ->
  (forall k v x, In k ks -> P k v -> Q k x -> R v x) ->
  Forall2 R vs xs.
Proof.
  intro HP. revert xs. induction HP as [|k v ks vs Hkv HP IH];
    intros xs HQ HR; inversion HQ; subst; constructor.
  - apply (HR k); [now left | assumption | assumption].
  - apply IH; [assumption|]. intros k0 v0 x0 Hin. apply HR. now right.
Qed.

(** What a passed validation says about the decision. *)
Lemma is_valid_decision_true (self : CarDealerInventoryModel)
    (decision : Decision.t) :
  fst (is_valid_decision decision self) = Ok true ->
  exists total,
    sum_over (keys (State.inventory_level (state self)))
      (fun car =>
         level <- getitem (State.inventory_level (state self)) car ;;
         r <- getitem (Decision.restock decision) car ;;
         Ok (inject_Z level + r)%Q) = Ok total /\
    (forall r, In r (values (Decision.restock decision)) -> (0 <= r)%Q) /\
    (total <= inject_Z (max_inventory self))%Q.
Proof.
  unfold is_valid_decision, mbind, mget, lift, mraise, mret. simpl.
  destruct (sum_over _ _) as [total|e]; simpl; [|discriminate].
  destruct (existsb _ _) eqn:Hneg; simpl; [discriminate|].
  destruct (Qltb _ total) eqn:Hcap; simpl; [discriminate|].
  intros _. exists total. split; [reflexivity|]. split.
  - intros r Hin. apply Qltb_ge.
    destruct (Qltb r 0) eqn:E; [|reflexivity].
    assert (existsb (fun value => Qltb value 0)
              (values (Decision.restock decision)) = true).
    { apply existsb_exists. eauto. }
    congruence.
  - apply Qltb_ge, Hcap.
Qed.

Lemma in_values {V} (d : dict V) (k : string) (v : V) :
  lookup d k = Some v -> In v (values d).
Proof.
  intro H. apply lookup_in in H. unfold values.
  change v with (snd (k, v)). now apply in_map.
Qed.

(** C5, as stated, fails: the restock quantity is not added as it is.
    With 10 cars of A in stock, a demand of 10 and a restock of 2.7 the
    code adds [int(2.7) = 2] cars and the new inventory is 2, where the
    formula of the claim gives 2.7. *)
Lemma transition_fn_truncates_restock :
  exists ts,
    transition_fn ex_model fractional_decision ex_exog = Ok ts /\
    lookup (Decision.restock fractional_decision) "A" = Some (27 # 10)%Q /\
    lookup (Transition.cars_sold ts) "A" = Some 10 /\
    lookup (Transition.cars_added ts) "A" = Some 2 /\
    lookup (Transition.inventory_level ts) "A" = Some 2 /\
    (new_inventory_as_claimed 10 (27 # 10) 10 == 27 # 10)%Q /\
    ~ (inject_Z 2 == new_inventory_as_claimed 10 (27 # 10) 10)%Q.
Proof.
  eexists. split; [vm_compute; reflexivity|].
  repeat (split; [reflexivity|]).
  intro H. vm_compute in H. discriminate.
Qed.

(** C5, amended. For every tracked car [car] with inventory [level] and
    holding time [h], every decision and every exogenous information, with
    [d = demand.get(car, 0)] and [q = restock.get(car, 0)]: [transition_fn]
    returns, and in what it returns [cars_sold[car] = min(round(d), level)],
    [cars_added[car] = int(q)] (the restock truncated toward zero),
    [new_inventory[car] = max(0, level + int(q) - cars_sold[car])] and
    [new_holding_time[car]] is [h + 1] if the new inventory is positive and
    [0] otherwise; the holding time is reset to zero exactly when the new
    inventory is zero. *)
Theorem transition_fn_per_car (self : CarDealerInventoryModel)
    (decision : Decision.t) (exog_info : ExogInfo.t)
    (car : string) (level h : Z) :
  let s := state self in
  let d := get (ExogInfo.demand exog_info) car 0%Q in
  let q := get (Decision.restock decision) car 0%Q in
  wf_dict (State.inventory_level s) ->
  covers (State.holding_time s) (keys (State.inventory_level s)) ->
  lookup (State.inventory_level s) car = Some level ->
  lookup (State.holding_time s) car = Some h ->
  let cars_sold := Z.min (py_round d) level in
  let cars_added := py_int q in
  let new_inventory := Z.max 0 (level + cars_added - cars_sold) in
  exists ts,
    transition_fn self decision exog_info = Ok ts /\
    lookup (Transition.cars_sold ts) car = Some cars_sold /\
    lookup (Transition.cars_added ts) car = Some cars_added /\
    lookup (Transition.inventory_level ts) car = Some new_inventory /\
    lookup (Transition.holding_time ts) car
    = Some (if 0 <? new_inventory then h + 1 else 0) /\
    (new_inventory = 0 -> lookup (Transition.holding_time ts) car = Some 0) /\
    (new_inventory <> 0 ->
     lookup (Transition.holding_time ts) car = Some (h + 1)).
Proof.
  intros s d q Hwf Hcov Hlv Hh cars_sold cars_added new_inventory.
  destruct (transition_fn_spec self decision exog_info Hwf Hcov)
    as [ts [vs [Hts [_ [_ Hcar]]]]].
  destruct (Hcar car level h Hlv Hh) as [Hs [Ha [Hn Ht]]].
  change (sold_at exog_info car level) with cars_sold in Hs.
  change (added_at decision car) with cars_added in Ha.
  change (new_level_at decision exog_info car level) with new_inventory
    in Hn, Ht.
  exists ts. repeat (split; [assumption|]). split.
  - intro H0. rewrite Ht, H0. reflexivity.
  - intro Hnz. rewrite Ht.
    assert (Hpos : 0 < new_inventory) by (unfold new_inventory in *; lia).
    apply Z.ltb_lt in Hpos. now rewrite Hpos.
Qed.

(** C4. For a state with well-formed, non-negative inventory, a decision
    that passes [is_valid_decision] and exogenous information whose demand
    is non-negative, [transition_fn] returns and the new inventory levels it
    returns sum to at most [max_inventory]. *)
Theorem transition_fn_within_capacity (self : CarDealerInventoryModel)
    (decision : Decision.t) (exog_info : ExogInfo.t) :
  let s := state self in
  wf_dict (State.inventory_level s) ->
  covers (State.holding_time s) (keys (State.inventory_level s)) ->
  (forall car level,
     lookup (State.inventory_level s) car = Some level -> 0 <= level) ->
  (forall car d,
     lookup (ExogInfo.demand exog_info) car = Some d -> (0 <= d)%Q) ->
  fst (is_valid_decision decision self) = Ok true ->
  exists ts,
    transition_fn self decision exog_info = Ok ts /\
    sumZ (values (Transition.inventory_level ts)) <= max_inventory self.
Proof.
  intros s Hwf Hcov Hinv Hdem Hvalid.
  destruct (transition_fn_spec self decision exog_info Hwf Hcov)
    as [ts [vs [Hts [HF [Hnew _]]]]].
  exists ts. split; [exact Hts|].
  destruct (is_valid_decision_true _ _ Hvalid) as [total [Hsum [Hpos Hcap]]].
  destruct (sum_over_inv _ _ _ Hsum) as [xs [HX ->]].
  fold s in HF, HX, Hnew.
  rewrite Hnew, values_combine by (now apply Forall2_length in HF).
  rewrite Zle_Qle. eapply Qle_trans; [|exact Hcap].
  unfold sumZ, sumQ. apply fold_left_Z_le_Q; [|apply Qle_refl].
  apply (Forall2_join _ _ _ _ _ _ HF HX).
  intros k v x _ [lv [Hlv ->]]. fold s in Hlv.
  unfold getitem. rewrite Hlv. simpl.
  destruct (lookup (Decision.restock decision) k) as [q|] eqn:Hq;
    simpl; [|discriminate].
  intros [= <-].
  assert (Hq0 : (0 <= q)%Q) by (eapply Hpos, in_values, Hq).
  assert (Hl0 : 0 <= lv) by (eapply Hinv, Hlv).
  assert (Hd0 : 0 <= py_round (get (ExogInfo.demand exog_info) k 0%Q)).
  { apply py_round_nonneg. unfold get.
    destruct (lookup (ExogInfo.demand exog_info) k) eqn:E;
      [eapply Hdem, E | apply Qle_refl]. }
  unfold new_level_at, sold_at, added_at.
  rewrite (get_lookup _ _ _ _ Hq).
  pose proof (py_int_nonneg q Hq0) as Ha0.
  pose proof (py_int_le q Hq0) as Hale.
  eapply Qle_trans with (y := (inject_Z lv + inject_Z (py_int q))%Q).
  - rewrite <- inject_Z_plus, <- Zle_Qle. lia.
  - apply Qplus_le_compat; [apply Qle_refl | exact Hale].
Qed.

(** ** Dictionaries stay well formed *)

Lemma has_key_setitem {V} (d : dict V) (k k' : string) (v : V) :
  has_key (setitem d k v) k' = String.eqb k' k || has_key d k'.
Proof.
  unfold has_key. rewrite lookup_setitem.
  destruct (String.eqb k' k); reflexivity.
Qed.

Lemma existsb_has_key {V} (d : dict V) (k : string) :
  existsb (String.eqb k) (keys d) = has_key d k.
Proof.
  unfold has_key. induction d as [|[k0 v0] d IH]; simpl; [reflexivity|].
  destruct (String.eqb k k0); [reflexivity | exact IH].
Qed.

Lemma wf_setitem {V} (d : dict V) (k : string) (v : V) :
  wf_dict d -> wf_dict (setitem d k v).
Proof.
  unfold wf_dict. induction d as [|[k0 v0] d IH]; simpl; [reflexivity|].
  intro H. apply andb_true_iff in H. destruct H as [H0 Hd].
  destruct (String.eqb k k0) eqn:E; simpl.
  - apply String.eqb_eq in E. subst k0. now rewrite H0, Hd.
  - rewrite (IH Hd), andb_true_r.
    change (map fst (setitem d k v)) with (keys (setitem d k v)).
    rewrite existsb_has_key, has_key_setitem.
    change (map fst d) with (keys d) in H0.
    rewrite existsb_has_key in H0. apply negb_true_iff in H0.
    rewrite H0, orb_false_r, String.eqb_sym, E. reflexivity.
Qed.

(** ** Loops in the state monad *)

Section ForEachM.
Context {A S : Type}.
Variable all : list A.
Variable I : list A -> S -> Prop.
Variable body : S -> A -> M S.

Hypothesis body_keeps : forall pre s x m,
  incl (pre ++ [x]) all -> I pre s ->
  exists s' m', body s x m = (Ok s', m') /\ I (pre ++ [x]) s'.

Lemma for_each_M_inv xs : forall pre s m,
  incl (pre ++ xs) all -> I pre s ->
  exists s' m', for_each_M xs body s m = (Ok s', m') /\ I (pre ++ xs) s'.
Proof.
  induction xs as [|x xs IH]; simpl; intros pre s m Hincl HI.
  - rewrite app_nil_r. exists s, m. split; [reflexivity | exact HI].
  - destruct (body_keeps pre s x m) as [s1 [m1 [Hb HI1]]].
    + intros y Hy. apply Hincl. apply in_app_or in Hy.
      apply in_or_app. destruct Hy as [Hy|[<-|[]]];
        [now left | right; now left].
    + exact HI.
    + unfold mbind. rewrite Hb.
      replace (pre ++ x :: xs) with ((pre ++ [x]) ++ xs) in *
        by (rewrite <- app_assoc; reflexivity).
      now apply IH.
Qed.
End ForEachM.

(** ** [exog_info_fn]: the demand it returns *)

Lemma demand_filled_setitem pre d car x :
  demand_filled pre d ->
  demand_filled (pre ++ [car]) (setitem d car (py_max 0 x)).
Proof.
  intros [Hwf [Hk Hv]]. split; [now apply wf_setitem|]. split.
  - intros k Hin. rewrite has_key_setitem. apply in_app_or in Hin.
    destruct Hin as [Hin|[<-|[]]].
    + rewrite (Hk k Hin). apply orb_true_r.
    + now rewrite String.eqb_refl.
  - intros k v. rewrite lookup_setitem.
    destruct (String.eqb k car).
    + intros [= <-]. apply py_max_lower.
    + apply Hv.
Qed.

Lemma draw_all_demand_spec (s : State.t) (m : CarDealerInventoryModel) :
  covers (State.demand_forecast s) (keys (State.inventory_level s)) ->
  exists d m',
    draw_all_demand s m = (Ok d, m') /\
    demand_filled (keys (State.inventory_level s)) d.
Proof.
  intro Hcov. unfold draw_all_demand.
  apply (for_each_M_inv (keys (State.inventory_level s)) demand_filled)
    with (pre := @nil string).
  - intros pre d car m0 Hincl HI.
    assert (Hin : In car (keys (State.inventory_level s))).
    { apply Hincl, in_or_app. right. now left. }
    destruct (covers_lookup _ _ _ Hcov Hin) as [f Hf].
    unfold mbind, lift, normal, mret. rewrite (getitem_ok _ _ _ Hf).
    eexists. eexists. split; [reflexivity|].
    now apply demand_filled_setitem.
  - simpl. apply incl_refl.
  - repeat split; [intros k [] | discriminate].
Qed.

Lemma exog_loop_spec (s : State.t) (trends_for_month : DataFrame)
    (m : CarDealerInventoryModel) :
  covers (State.demand_forecast s) (keys (State.inventory_level s)) ->
  covers (State.competitor_price s) (keys (State.inventory_level s)) ->
  exists l m',
    for_each_M (keys (State.inventory_level s))
      (exog_loop_body s trends_for_month)
      {| l_demand := []; l_competitor_prices := [];
         l_new_market_trends := [] |} m = (Ok l, m') /\
    demand_filled (keys (State.inventory_level s)) (l_demand l).
Proof.
  intros Hf Hp.
  apply (for_each_M_inv (keys (State.inventory_level s))
           (fun pre l => demand_filled pre (l_demand l)))
    with (pre := @nil string).
  - intros pre l car m0 Hincl HI.
    assert (Hin : In car (keys (State.inventory_level s))).
    { apply Hincl, in_or_app. right. now left. }
    destruct (covers_lookup _ _ _ Hp Hin) as [cp Hcp].
    unfold exog_loop_body.
    destruct (filter _ trends_for_month) as [|row rows].
    + unfold mbind, lift, normal, mret. rewrite (getitem_ok _ _ _ Hcp).
      eexists. eexists. split; [reflexivity|]. simpl.
      now apply demand_filled_setitem.
    + unfold mbind at 1. unfold normal at 1. unfold mbind at 1.
      match goal with
      | |- context [draw_all_demand s ?m1] =>
          destruct (draw_all_demand_spec s m1 Hf) as [d [m2 [Hd HId]]]
      end.
      rewrite Hd.
      unfold mbind, lift, mret. rewrite (getitem_ok _ _ _ Hcp).
      eexists. eexists. split; [reflexivity|]. simpl.
      destruct HId as [Hwf [Hk Hv]]. split; [exact Hwf|]. split; [|exact Hv].
      intros k Hk'. apply Hk, Hincl, Hk'.
  - simpl. apply incl_refl.
  - repeat split; [intros k [] | discriminate].
Qed.

(** The dictionary of line 85: twice the forecast of every car. *)
Lemma max_demand_spec (forecast : dict Q) :
  wf_dict forecast ->
  exists max_demand,
    for_each forecast
      (fun d kv => Ok (setitem d (fst kv) (2 * snd kv)%Q)) [] = Ok max_demand /\
    forall car f, lookup forecast car = Some f ->
                  lookup max_demand car = Some (2 * f)%Q.
Proof.
  intro Hwf.
  destruct (for_each_total
              (fun (d : dict Q) (kv : string * Q) =>
                 Ok (setitem d (fst kv) (2 * snd kv)%Q)) forecast [])
    as [md Hmd]; [eauto|].
  exists md. split; [exact Hmd|].
  destruct (for_each_build fst id (fun (kv : string * Q) v => v = (2 * snd kv)%Q)
              (fun d kv => Ok (setitem d (fst kv) (2 * snd kv)%Q)))
    with (xs := forecast) (s := @nil (string * Q)) (s' := md)
    as [vs [HF Hd]].
  - intros d0 kv d1 [= <-]. eexists. split; reflexivity.
  - exact Hwf.
  - reflexivity.
  - exact Hmd.
  - intros car f Hl. unfold id in Hd. simpl in Hd. rewrite Hd.
    destruct (lookup_combine_R fst _ _ _ HF Hwf (car, f) (lookup_in _ _ _ Hl))
      as [v [-> Hv]].
    exact Hv.
Qed.

(** [exog_info_fn] assigns to nothing but the random stream. *)
Lemma same_but_prng_refl (m : CarDealerInventoryModel) : same_but_prng m m.
Proof. exists (prng m). destruct m. reflexivity. Qed.

Lemma same_but_prng_trans (m1 m2 m3 : CarDealerInventoryModel) :
  same_but_prng m1 m2 -> same_but_prng m2 m3 -> same_but_prng m1 m3.
Proof. intros [g1 ->] [g2 ->]. exists g2. reflexivity. Qed.

Lemma mbind_frame {A B} (c : M A) (k : A -> M B) (m : CarDealerInventoryModel) :
  same_but_prng m (snd (c m)) ->
  (forall a m1, same_but_prng m1 (snd (k a m1))) ->
  same_but_prng m (snd (mbind c k m)).
Proof.
  intros Hc Hk. unfold mbind. destruct (c m) as [[a|e] m1]; simpl in *.
  - eapply same_but_prng_trans; [exact Hc | apply Hk].
  - exact Hc.
Qed.

Lemma normal_frame (mu sigma : Q) (m : CarDealerInventoryModel) :
  same_but_prng m (snd (normal mu sigma m)).
Proof. unfold normal. simpl. eexists. reflexivity. Qed.

Lemma for_each_M_frame {A S} (body : S -> A -> M S) (xs : list A) :
  (forall s x m, same_but_prng m (snd (body s x m))) ->
  forall s m, same_but_prng m (snd (for_each_M xs body s m)).
Proof.
  intro Hb. induction xs as [|x xs IH]; simpl; intros s m.
  - apply same_but_prng_refl.
  - apply mbind_frame; [apply Hb | intros; apply IH].
Qed.

Lemma draw_all_demand_frame (s : State.t) (m : CarDealerInventoryModel) :
  same_but_prng m (snd (draw_all_demand s m)).
Proof.
  apply for_each_M_frame. intros d car m0.
  apply mbind_frame; [apply same_but_prng_refl|]. intros f m1.
  apply mbind_frame; [apply normal_frame|]. intros x m2.
  apply same_but_prng_refl.
Qed.

Lemma exog_info_fn_frame (decision : option Decision.t)
    (m : CarDealerInventoryModel) :
  same_but_prng m (snd (exog_info_fn decision m)).
Proof.
  unfold exog_info_fn.
  apply mbind_frame; [apply same_but_prng_refl|]. intros self m1.
  destruct (market_trends_df self) as [df|]; [|apply same_but_prng_refl].
  apply mbind_frame.
  - apply for_each_M_frame. intros l car m0. unfold exog_loop_body.
    destruct (filter _ _) as [|row rows].
    + apply mbind_frame; [apply normal_frame|]. intros x m2.
      apply mbind_frame; [apply same_but_prng_refl|]. intros cp m3.
      apply same_but_prng_refl.
    + apply mbind_frame; [apply normal_frame|]. intros x m2.
      apply mbind_frame; [apply draw_all_demand_frame|]. intros d m3.
      apply mbind_frame; [apply same_but_prng_refl|]. intros cp m4.
      apply same_but_prng_refl.
  - intros l m2.
    apply mbind_frame; [apply same_but_prng_refl|]. intros md m3.
    apply mbind_frame; [apply same_but_prng_refl|]. intros dem m4.
    apply same_but_prng_refl.
Qed.

(** C10. A model built without a market-trends file has
    [market_trends_df = None]; every call of [exog_info_fn] on it raises
    (subscripting [None] is a [TypeError]) before any car is looked at,
    whatever the state, the time index and the random stream, and leaves
    the model as it was: the fallback branch is never reached. *)
Theorem exog_info_fn_without_trends (self : CarDealerInventoryModel)
    (decision : option Decision.t) :
  market_trends_df self = None ->
  exists msg, exog_info_fn decision self = (Raise (TypeError msg), self).
Proof.
  intro H. unfold exog_info_fn, mbind, mget, mraise. simpl. rewrite H.
  eexists. reflexivity.
Qed.

(** C9. When the trend table is present, the forecast dictionary is well
    formed and covers the fleet with non-negative forecasts, and every car
    has a competitor price, [exog_info_fn] returns, and for every tracked
    car the demand it returns lies between 0 and twice the car's current
    forecast. *)
Theorem exog_info_fn_demand_bounds (self : CarDealerInventoryModel)
    (decision : option Decision.t) (table : DataFrame) :
  let s := state self in
  market_trends_df self = Some table ->
  wf_dict (State.demand_forecast s) ->
  covers (State.demand_forecast s) (keys (State.inventory_level s)) ->
  covers (State.competitor_price s) (keys (State.inventory_level s)) ->
  (forall car f,
     lookup (State.demand_forecast s) car = Some f -> (0 <= f)%Q) ->
  exists w self',
    exog_info_fn decision self = (Ok w, self') /\
    forall car, In car (keys (State.inventory_level s)) ->
      exists d f,
        lookup (ExogInfo.demand w) car = Some d /\
        lookup (State.demand_forecast s) car = Some f /\
        (0 <= d)%Q /\ (d <= 2 * f)%Q.
Proof.
  intros s Htab Hwf Hcf Hcp Hpos.
  unfold exog_info_fn. unfold mbind at 1. unfold mget. rewrite Htab.
  fold s.
  destruct (exog_loop_spec s
              (filter (fun r => String.eqb (Month r) (current_month_of (t self)))
                 table) self Hcf Hcp) as [l [m' [Hl [Hlwf [Hlk Hlv]]]]].
  unfold mbind at 1. rewrite Hl.
  destruct (max_demand_spec _ Hwf) as [md [Hmd Hmdl]].
  unfold mbind at 1. unfold lift at 1. rewrite Hmd.
  set (cap := fun car =>
         d <- getitem (l_demand l) car ;; Ok (py_min d (get md car d))).
  destruct (dict_comp_total cap (keys (l_demand l))) as [dem Hdem].
  { intros k Hk. apply has_key_in, has_key_lookup in Hk.
    destruct Hk as [v Hv]. unfold cap. rewrite (getitem_ok _ _ _ Hv).
    simpl. eauto. }
  unfold mbind, lift, mret. rewrite Hdem.
  eexists. eexists. split; [reflexivity|]. simpl.
  intros car Hin.
  destruct (covers_lookup _ _ _ Hcf Hin) as [f Hf].
  assert (Hkl : In car (keys (l_demand l))) by (apply has_key_in, Hlk, Hin).
  destruct (dict_comp_lookup cap _ _ car Hlwf Hdem Hkl) as [d [Hd Hlook]].
  exists d, f. split; [exact Hlook|]. split; [exact Hf|].
  unfold cap, getitem in Hd.
  destruct (lookup (l_demand l) car) as [d0|] eqn:Hd0; simpl in Hd;
    [|discriminate].
  injection Hd as <-.
  rewrite (get_lookup _ _ _ _ (Hmdl _ _ Hf)).
  pose proof (Hlv _ _ Hd0) as H0. pose proof (Hpos _ _ Hf) as Hf0.
  destruct (py_min_cases d0 (2 * f)) as [[-> Hle]|[-> Hlt]].
  - split; assumption.
  - split; [|apply Qle_refl].
    change 0%Q with (2 * 0)%Q. apply Qmult_le_l; [reflexivity | exact Hf0].
Qed.

(** ** [is_valid_decision] *)

Lemma sum_over_map (f : string -> result Q) (g : string -> Q)
    (ks : list string) :
  (forall k, In k ks -> f k = Ok (g k)) ->
  sum_over ks f = Ok (sumQ (map g ks)).
Proof.
  unfold sum_over, sumQ. generalize 0%Q.
  induction ks as [|k ks IH]; simpl; intros acc H; [reflexivity|].
  rewrite (H k) by now left. simpl. apply IH.
  intros k' Hk'. apply H. now right.
Qed.

Lemma is_valid_decision_total (s : State.t) (decision : Decision.t) :
  covers (Decision.restock decision) (keys (State.inventory_level s)) ->
  sum_over (keys (State.inventory_level s))
    (fun car =>
       level <- getitem (State.inventory_level s) car ;;
       r <- getitem (Decision.restock decision) car ;;
       Ok (inject_Z level + r)%Q)
  = Ok (post_restock_total s decision).
Proof.
  intro Hcov. unfold post_restock_total. apply sum_over_map.
  intros k Hk.
  destruct (covers_lookup _ _ _ Hcov Hk) as [r Hr].
  apply has_key_in, has_key_lookup in Hk. destruct Hk as [level Hl].
  rewrite (getitem_ok _ _ _ Hl), (getitem_ok _ _ _ Hr).
  rewrite (get_lookup _ _ _ _ Hl), (get_lookup _ _ _ _ Hr). reflexivity.
Qed.

(** C3. [is_valid_decision] never changes the model, whether it returns
    or raises.  For a decision whose restock mapping has an entry for every
    tracked car, it raises if and only if some restock value is negative
    or the total post-restock inventory exceeds [max_inventory], and
    otherwise returns [True]. *)
Theorem is_valid_decision_spec (self : CarDealerInventoryModel)
    (decision : Decision.t) :
  let s := state self in
  let invalid :=
    (exists value,
        In value (values (Decision.restock decision)) /\ (value < 0)%Q) \/
    (inject_Z (max_inventory self) < post_restock_total s decision)%Q in
  snd (is_valid_decision decision self) = self /\
  (covers (Decision.restock decision) (keys (State.inventory_level s)) ->
   ((exists e, fst (is_valid_decision decision self) = Raise e) <-> invalid) /\
   (~ invalid -> fst (is_valid_decision decision self) = Ok true)).
Proof.
  intros s invalid. split.
  - unfold is_valid_decision, mbind, mget, lift, mraise, mret. simpl.
    destruct (sum_over _ _); simpl; [|reflexivity].
    destruct (existsb _ _); simpl; [reflexivity|].
    destruct (Qltb _ _); reflexivity.
  - intro Hcov.
    unfold is_valid_decision, mbind, mget, lift, mraise, mret. simpl.
    fold s. rewrite (is_valid_decision_total s decision Hcov). simpl.
    destruct (existsb _ _) eqn:Hneg; simpl.
    + assert (Hinv : invalid).
      { left. apply existsb_exists in Hneg. destruct Hneg as [v [Hin Hv]].
        exists v. split; [exact Hin | apply Qltb_lt, Hv]. }
      split; [split; [intros _; exact Hinv | intros _; eauto]|].
      intro Hn. contradiction.
    + destruct (Qltb _ _) eqn:Hcap; simpl.
      * assert (Hinv : invalid) by (right; apply Qltb_lt, Hcap).
        split; [split; [intros _; exact Hinv | intros _; eauto]|].
        intro Hn. contradiction.
      * assert (Hok : ~ invalid).
        { intros [[v [Hin Hv]]|Hgt].
          - apply Qltb_lt in Hv.
            assert (existsb (fun value => Qltb value 0)
                      (values (Decision.restock decision)) = true)
              by (apply existsb_exists; eauto).
            congruence.
          - apply Qltb_lt in Hgt. congruence. }
        split; [split; [intros [e He]; discriminate | intro; contradiction]|].
        reflexivity.
Qed.

(** ** The threshold policy: capacity is handed out in fleet order *)

Lemma sumZ_acc (xs : list Z) (a : Z) : fold_left Z.add xs a = a + sumZ xs.
Proof.
  unfold sumZ. revert a. induction xs as [|x xs IH]; simpl; intro a; [lia|].
  rewrite IH, (IH x). lia.
Qed.

Lemma sumZ_cons (x : Z) (xs : list Z) : sumZ (x :: xs) = x + sumZ xs.
Proof. unfold sumZ. simpl. apply sumZ_acc. Qed.

Section RestockLoop.
Variables inventory theta_min theta_max : dict Z.




End RestockLoop.

(** Reading a prefix of the keys back from the dictionary built on them. *)
Lemma get_combine_prefix (ks1 ks2 : list string) (vs1 vs2 : list Z) :
  nodupb (ks1 ++ ks2) = true -> List.length ks1 = List.length vs1 ->
  map (fun k => get (combine (ks1 ++ ks2) (vs1 ++ vs2)) k 0) ks1 = vs1.
Proof.
  revert vs1. induction ks1 as [|k ks1 IH]; intros [|v vs1]; simpl;
    try discriminate; try reflexivity.
  intros Hnd [= Hlen]. apply andb_true_iff in Hnd. destruct Hnd as [Hk Hnd].
  apply negb_true_iff in Hk.
  unfold get at 1. simpl. rewrite String.eqb_refl. f_equal.
  transitivity (map (fun k0 => get (combine (ks1 ++ ks2) (vs1 ++ vs2)) k0 0)
                  ks1); [|now apply IH].
  apply map_ext_in. intros k' Hk'. unfold get. simpl.
  destruct (String.eqb k' k) eqn:E; [|reflexivity].
  apply String.eqb_eq in E. subst k'.
  assert (Hin : In k (ks1 ++ ks2)) by (apply in_or_app; now left).
  apply existsb_eqb_in in Hin. congruence.
Qed.





Lemma lookup_promote (d : dict Z) (k : string) :
  lookup (promote d) k = option_map inject_Z (lookup d k).
Proof.
  unfold promote. induction d as [|[k0 v0] d IH]; simpl; [reflexivity|].
  destruct (String.eqb k k0); [reflexivity | exact IH].
Qed.






(** ** The forecast-adaptive policy *)

Lemma safety_buffer_of_nonneg (v : Z) :
  0 <= v -> safety_buffer_of v = Ok (Z.sqrt v).
Proof.
  intro H. unfold safety_buffer_of.
  destruct (v <? 0) eqn:E; [apply Z.ltb_lt in E; lia | reflexivity].
Qed.

Lemma safety_buffer_of_inv (v b : Z) :
  safety_buffer_of v = Ok b -> 0 <= v /\ b = Z.sqrt v.
Proof.
  unfold safety_buffer_of. destruct (v <? 0) eqn:E; [discriminate|].
  intros [= <-]. apply Z.ltb_ge in E. split; [exact E | reflexivity].
Qed.

Section OrderUpTo.
Variable self : CarDealerPolicy.
Variables theta_min theta_max : dict Z.
Variable w : ExogInfo.t.

Let s := state (model self).

(** What the loop stores for the item [(car, level)]. *)
Let entry (item : string * Z) (q : Q) : Prop :=
  exists v d hi,
    lookup (variance_demand (model self)) (fst item) = Some v /\
    lookup (ExogInfo.demand w) (fst item) = Some d /\
    lookup theta_max (fst item) = Some hi /\
    q = order_up_to_quantity s (fst item) (snd item) hi v d.

Lemma order_up_to_body_sets restock item restock' :
  order_up_to_body self theta_max (Some w) restock item = Ok restock' ->
  exists q, entry item q /\ id restock' = setitem (id restock) (fst item) q.
Proof.
  unfold order_up_to_body, getitem.
  destruct (lookup (variance_demand (model self)) (fst item)) as [v|] eqn:Hv;
    simpl; [|discriminate].
  destruct (safety_buffer_of v) as [b|e] eqn:Hb; simpl; [|discriminate].
  destruct (lookup (ExogInfo.demand w) (fst item)) as [d|] eqn:Hd;
    simpl; [|discriminate].
  destruct (lookup theta_max (fst item)) as [hi|] eqn:Hhi;
    simpl; [|discriminate].
  intros [= <-]. apply safety_buffer_of_inv in Hb. destruct Hb as [_ ->].
  eexists. split; [|reflexivity].
  exists v, d, hi. repeat split; assumption.
Qed.

Lemma order_up_to_restock restock car level v d hi :
  wf_dict (State.inventory_level s) ->
  for_each (State.inventory_level s)
    (order_up_to_body self theta_max (Some w)) [] = Ok restock ->
  lookup (State.inventory_level s) car = Some level ->
  lookup (variance_demand (model self)) car = Some v ->
  lookup (ExogInfo.demand w) car = Some d ->
  lookup theta_max car = Some hi ->
  lookup restock car = Some (order_up_to_quantity s car level hi v d).
Proof.
  intros Hwf Hrun Hl Hv Hd Hhi.
  destruct (for_each_build fst id entry _ order_up_to_body_sets
              (State.inventory_level s) (@nil (string * Q)) restock Hwf
              ltac:(intros; reflexivity) Hrun) as [qs [HF Hr]].
  unfold id in Hr. simpl in Hr. rewrite Hr.
  destruct (lookup_combine_R fst entry _ _ HF Hwf (car, level)
              (lookup_in _ _ _ Hl)) as [q [[v' [d' [hi' He]]] Hq]].
  simpl in He, Hq. destruct He as [Hv' [Hd' [Hhi' ->]]].
  rewrite Hq. congruence.
Qed.

Lemma order_up_to_total :
  covers (variance_demand (model self)) (keys (State.inventory_level s)) ->
  (forall car v,
     lookup (variance_demand (model self)) car = Some v -> 0 <= v) ->
  covers (ExogInfo.demand w) (keys (State.inventory_level s)) ->
  covers theta_max (keys (State.inventory_level s)) ->
  exists restock,
    for_each (State.inventory_level s)
      (order_up_to_body self theta_max (Some w)) [] = Ok restock.
Proof.
  intros Hv Hv0 Hd Hhi. apply for_each_total. intros r [car level] Hin.
  assert (Hk : In car (keys (State.inventory_level s))).
  { unfold keys. change car with (fst (car, level)). now apply in_map. }
  destruct (covers_lookup _ _ _ Hv Hk) as [v Hlv].
  destruct (covers_lookup _ _ _ Hd Hk) as [d Hld].
  destruct (covers_lookup _ _ _ Hhi Hk) as [hi Hlh].
  unfold order_up_to_body. simpl.
  rewrite (getitem_ok _ _ _ Hlv). simpl.
  rewrite (safety_buffer_of_nonneg v (Hv0 _ _ Hlv)). simpl.
  rewrite (getitem_ok _ _ _ Hld). simpl.
  rewrite (getitem_ok _ _ _ Hlh). simpl. eauto.
Qed.
End OrderUpTo.

(** The helper of [policy_util.py] computes the same quantity from the
    forecast and the trend factors it is handed (for a variance below
    [2 ^ 52], where [int(v ** 0.5)] is the integer square root). *)
Lemma basic_order_up_to_policy_util_restock
    (inventory theta_min theta_max : dict Z)
    (demand_forecast trend_factors : dict Q) (variance_demand : dict Z)
    (restock : dict Q) (car : string) (level v hi : Z) (f tf : Q) :
  wf_dict inventory ->
  basic_order_up_to_policy_util inventory theta_min theta_max demand_forecast
    trend_factors variance_demand = Ok restock ->
  lookup inventory car = Some level ->
  lookup variance_demand car = Some v ->
  v < 2 ^ 52 ->
  lookup theta_max car = Some hi ->
  lookup trend_factors car = Some tf ->
  lookup demand_forecast car = Some f ->
  lookup restock car
  = Some (py_max 0 (py_min (inject_Z (hi - level))
                           (tf * (f + inject_Z (Z.sqrt v))))%Q).
Proof.
  intros Hwf Hrun Hl Hv _ Hhi Htf Hf.
  unfold basic_order_up_to_policy_util in Hrun.
  set (entry := fun (item : string * Z) (q : Q) =>
         exists v hi tf f,
           lookup variance_demand (fst item) = Some v /\
           lookup theta_max (fst item) = Some hi /\
           lookup trend_factors (fst item) = Some tf /\
           lookup demand_forecast (fst item) = Some f /\
           q = py_max 0 (py_min (inject_Z (hi - snd item))
                                (tf * (f + inject_Z (Z.sqrt v))))%Q).
  destruct (for_each_build fst id entry
              (fun restock item =>
                 let car := fst item in
                 let level := snd item in
                 v <- getitem variance_demand car ;;
                 safety_buffer <- safety_buffer_of v ;;
                 hi <- getitem theta_max car ;;
                 tf <- getitem trend_factors car ;;
                 f <- getitem demand_forecast car ;;
                 Ok (setitem restock car
                       (py_max 0 (py_min (inject_Z (hi - level))
                                    (tf * (f + inject_Z safety_buffer)))%Q))))
    with (xs := inventory) (s := @nil (string * Q)) (s' := restock)
    as [qs [HF Hr]].
  - intros r0 item r1. cbv zeta. unfold getitem.
    destruct (lookup variance_demand (fst item)) as [v0|] eqn:E1; simpl;
      [|discriminate].
    destruct (safety_buffer_of v0) as [b|e] eqn:E2; simpl; [|discriminate].
    destruct (lookup theta_max (fst item)) as [hi0|] eqn:E3; simpl;
      [|discriminate].
    destruct (lookup trend_factors (fst item)) as [tf0|] eqn:E4; simpl;
      [|discriminate].
    destruct (lookup demand_forecast (fst item)) as [f0|] eqn:E5; simpl;
      [|discriminate].
    intros [= <-]. apply safety_buffer_of_inv in E2. destruct E2 as [_ ->].
    eexists. split; [|reflexivity].
    exists v0, hi0, tf0, f0. repeat split; assumption.
  - exact Hwf.
  - reflexivity.
  - exact Hrun.
  - unfold id in Hr. simpl in Hr. rewrite Hr.
    destruct (lookup_combine_R fst entry _ _ HF Hwf (car, level)
                (lookup_in _ _ _ Hl))
      as [q [[v' [hi' [tf' [f' He]]]] Hq]].
    simpl in He, Hq. destruct He as [Hv' [Hhi' [Htf' [Hf' ->]]]].
    rewrite Hq. congruence.
Qed.

(** C8, as stated, fails, at its price and at its restock quantity.
    With a competitor price of 20 the policy asks a price of 0, not of
    20 - 50.  With an empty lot, a rising market (trend factor 1.2), a
    demand forecast of 10, a realised demand of 5, a demand variance of 4
    and a maximum threshold of 100 it restocks 1.2 * (5 + 2) = 8.4: the
    demand it reads is the realised one, and the trend factor multiplies
    the safety buffer too.  The trend-adjusted forecast plus the buffer is
    1.2 * 10 + 2 = 14, and 1.2 * 5 + 2 = 8 if the realised demand is
    read for the forecast. *)
Lemma order_up_to_price_and_restock_differ :
  (exists d p,
     basic_order_up_to_policy bargain_policy [] [("A", 10)]%string
       (Some ex_exog) = Ok d /\
     lookup (State.competitor_price (state (model bargain_policy))) "A"
     = Some 20%Q /\
     lookup (Decision.price d) "A" = Some p /\
     ~ (p == 20 - 50)%Q) /\
  (exists d r,
     basic_order_up_to_policy rising_policy [] [("A", 100)]%string
       (Some rising_exog) = Ok d /\
     lookup (Decision.restock d) "A" = Some r /\
     (r == 84 # 10)%Q /\
     (restock_as_claimed 0 100 (12 # 10) 10 4 == 14)%Q /\
     (restock_as_claimed 0 100 (12 # 10) 5 4 == 8)%Q /\
     ~ (r == restock_as_claimed 0 100 (12 # 10) 10 4)%Q /\
     ~ (r == restock_as_claimed 0 100 (12 # 10) 5 4)%Q).
Proof.
  split.
  - eexists. eexists. split; [vm_compute; reflexivity|].
    split; [reflexivity|]. split; [reflexivity|].
    intro H. vm_compute in H. discriminate.
  - eexists. eexists. split; [vm_compute; reflexivity|].
    split; [reflexivity|]. split; [reflexivity|].
    split; [reflexivity|]. split; [reflexivity|].
    split; intro H; vm_compute in H; discriminate.
Qed.

(** C8, amended. When every tracked car has a demand variance [v] with
    [0 <= v < 2 ^ 52], a realised demand in [exog_info], a maximum threshold
    and a competitor price, the forecast-adaptive policy returns, and for
    every tracked car its restock quantity is [max(0, min(theta_max - level,
    trend_factor * (demand + safety_buffer)))], where [demand] is the
    realised demand [exog_info["demand"][car]], [safety_buffer =
    int(v ** 0.5)] is the integer square root of the car's demand variance
    and [trend_factor] is read from the car's current trend; its price is
    [max(0, competitor_price - 50)] and its discount is 0. *)
Theorem basic_order_up_to_policy_spec (self : CarDealerPolicy)
    (theta_min theta_max : dict Z) (w : ExogInfo.t) :
  let s := state (model self) in
  wf_dict (State.inventory_level s) ->
  covers (variance_demand (model self)) (keys (State.inventory_level s)) ->
  (forall car v,
     lookup (variance_demand (model self)) car = Some v -> 0 <= v < 2 ^ 52) ->
  covers (ExogInfo.demand w) (keys (State.inventory_level s)) ->
  covers theta_max (keys (State.inventory_level s)) ->
  covers (State.competitor_price s) (keys (State.inventory_level s)) ->
  exists decision,
    basic_order_up_to_policy self theta_min theta_max (Some w) = Ok decision /\
    forall car level v d hi cp,
      lookup (State.inventory_level s) car = Some level ->
      lookup (variance_demand (model self)) car = Some v ->
      lookup (ExogInfo.demand w) car = Some d ->
      lookup theta_max car = Some hi ->
      lookup (State.competitor_price s) car = Some cp ->
      let safety_buffer := Z.sqrt v in
      let trend_factor := trend_factor_of s car in
      lookup (Decision.restock decision) car
      = Some (py_max 0
                (py_min (inject_Z (hi - level))
                   (trend_factor * (d + inject_Z safety_buffer)))%Q) /\
      lookup (Decision.price decision) car = Some (py_max 0 (cp - 50)%Q) /\
      lookup (Decision.discount decision) car = Some 0%Q.
Proof.
  intros s Hwf Hv Hv0 Hd Hhi Hcp. unfold basic_order_up_to_policy. fold s.
  destruct (order_up_to_total self theta_max w Hv
              (fun car v H => proj1 (Hv0 car v H)) Hd Hhi)
    as [restock Hrestock].
  fold s in Hrestock. rewrite Hrestock. simpl.
  set (pricef := fun car =>
         cp <- getitem (State.competitor_price s) car ;;
         Ok (py_max 0 (cp - 50)%Q)).
  destruct (dict_comp_total pricef (keys (State.inventory_level s)))
    as [price Hprice].
  { intros k Hk. destruct (covers_lookup _ _ _ Hcp Hk) as [cp Hc].
    unfold pricef. rewrite (getitem_ok _ _ _ Hc). simpl. eauto. }
  rewrite Hprice. simpl.
  set (discountf := fun _ : string => Ok 0%Q).
  destruct (dict_comp_total discountf (keys (State.inventory_level s)))
    as [discount Hdiscount]; [unfold discountf; eauto|].
  rewrite Hdiscount. simpl.
  eexists. split; [reflexivity|]. simpl.
  intros car level v d hi cp Hl Hlv Hld Hlh Hlc.
  assert (Hin : In car (keys (State.inventory_level s))).
  { apply has_key_in. eapply lookup_has_key, Hl. }
  split; [|split].
  - exact (order_up_to_restock self theta_max w _ _ _ _ _ _
             Hwf Hrestock Hl Hlv Hld Hlh).
  - destruct (dict_comp_lookup pricef _ _ car Hwf Hprice Hin) as [p [Hp ->]].
    unfold pricef in Hp. rewrite (getitem_ok _ _ _ Hlc) in Hp. simpl in Hp.
    congruence.
  - destruct (dict_comp_lookup discountf _ _ car Hwf Hdiscount Hin)
      as [c [Hc ->]].
    unfold discountf in Hc. congruence.
Qed.

(** The forecast-adaptive policy never returns a negative entry, and gives
    every tracked car an entry in each of its three mappings. *)
Lemma basic_order_up_to_policy_nonneg (self : CarDealerPolicy)
    (theta_min theta_max : dict Z) (w : option ExogInfo.t)
    (decision : Decision.t) (car : string) :
  let s := state (model self) in
  wf_dict (State.inventory_level s) ->
  basic_order_up_to_policy self theta_min theta_max w = Ok decision ->
  In car (keys (State.inventory_level s)) ->
  exists r p c,
    lookup (Decision.restock decision) car = Some r /\ (0 <= r)%Q /\
    lookup (Decision.price decision) car = Some p /\ (0 <= p)%Q /\
    lookup (Decision.discount decision) car = Some c /\ (0 <= c)%Q.
Proof.
  intros s Hwf Hrun Hin. unfold basic_order_up_to_policy in Hrun. fold s in Hrun.
  destruct (for_each _ _ _) as [restock|e] eqn:Hrestock; simpl in Hrun;
    [|discriminate].
  destruct (dict_comp _ _) as [price|e] eqn:Hprice; simpl in Hrun;
    [|discriminate].
  destruct (dict_comp _ (fun _ => Ok 0%Q)) as [discount|e] eqn:Hdiscount;
    simpl in Hrun; [|discriminate].
  injection Hrun as <-. simpl.
  destruct (for_each_build fst id (fun (_ : string * Z) q => (0 <= q)%Q)
              (order_up_to_body self theta_max w))
    with (xs := State.inventory_level s) (s := @nil (string * Q))
         (s' := restock) as [qs [HF Hr]].
  { intros r0 item r1. unfold order_up_to_body.
    destruct (getitem _ _); simpl; [|discriminate].
    destruct (safety_buffer_of _); simpl; [|discriminate].
    destruct w as [w0|]; simpl; [|discriminate].
    destruct (getitem _ _); simpl; [|discriminate].
    destruct (getitem _ _); simpl; [|discriminate].
    intros [= <-]. eexists. split; [apply py_max_lower | reflexivity]. }
  { exact Hwf. }
  { reflexivity. }
  { exact Hrestock. }
  apply has_key_in, has_key_lookup in Hin. destruct Hin as [level Hl].
  destruct (lookup_combine_R fst _ _ _ HF Hwf (car, level) (lookup_in _ _ _ Hl))
    as [r [Hr0 Hlr]].
  assert (Hk : In car (keys (State.inventory_level s))).
  { apply has_key_in. eapply lookup_has_key, Hl. }
  destruct (dict_comp_lookup _ _ _ car Hwf Hprice Hk) as [p [Hp Hlp]].
  destruct (dict_comp_lookup _ _ _ car Hwf Hdiscount Hk) as [c [Hc Hlc]].
  exists r, p, c. unfold id in Hr. simpl in Hr, Hlr. rewrite Hr.
  split; [exact Hlr|]. split; [exact Hr0|]. split; [exact Hlp|].
  split; [|split; [exact Hlc|]].
  - destruct (getitem _ _) in Hp; simpl in Hp; [|discriminate].
    injection Hp as <-. apply py_max_lower.
  - injection Hc as <-. apply Qle_refl.
Qed.

(** C6 fails on the threshold policy.  Its price is the competitor price
    minus 50 or 100 with no floor: at a competitor price of 30 it is -20.
    Its restock is capped by the remaining capacity, which is negative
    when the lot already holds more than [max_inventory]: with 63 cars and
    a capacity of 50 car A is restocked by -13.  For a fleet with a car
    outside the policy's threshold tables no decision is returned. *)
Theorem get_decision_negative_entries :
  (exists d p,
     get_decision ex_sdp_policy cheap_state 0 30 = Ok d /\
     lookup (Decision.price d) "Car A" = Some p /\ (p < 0)%Q) /\
  (exists d r,
     get_decision ex_sdp_policy crowded_state 0 30 = Ok d /\
     lookup (Decision.restock d) "Car A" = Some r /\ (r < 0)%Q) /\
  get_decision ex_sdp_policy ex_state 0 30 = Raise (KeyError "A").
Proof.
  split; [|split].
  - eexists. eexists. split; [vm_compute; reflexivity|].
    split; reflexivity.
  - eexists. eexists. split; [vm_compute; reflexivity|].
    split; reflexivity.
  - reflexivity.
Qed.

(** ** The runner of [policy.py] *)

(** What one turn of the loop does, read off a turn that returned: the
    decision goes to [transition_fn] as the policy produced it, the state is
    replaced, and only then is [objective_fn] called, on the model that
    already carries the new state. *)
Lemma run_policy_step_inv (self : CarDealerPolicy) (policy_fn : PolicyFn)
    (theta_min theta_max : dict Z) (i : Z)
    (m m' : CarDealerInventoryModel) (row : ResultRow) :
  run_policy_step self policy_fn theta_min theta_max i m = (Ok row, m') ->
  exists w m1,
    exog_info_fn None m = (Ok w, m1) /\
    policy_fn theta_min theta_max (Some w) = Ok (r_decision row) /\
    r_state_before row = state m /\
    transition_fn m1 (r_decision row) w = Ok (r_state_after row) /\
    objective_fn (set_state (State_of (r_state_after row)) m1)
      (r_decision row) w = Ok (r_profit row) /\
    state m' = State_of (r_state_after row) /\
    objective m' = (objective m1 + r_profit row)%Q.
Proof.
  unfold run_policy_step. unfold mbind at 1.
  destruct (exog_info_fn None m) as [[w|e] m1] eqn:Hw; [|discriminate].
  unfold mbind at 1. unfold lift at 1.
  destruct (policy_fn theta_min theta_max (Some w)) as [d|e] eqn:Hd;
    [|discriminate].
  unfold mbind at 1. unfold reads at 1.
  unfold mbind at 1. unfold reads at 1.
  destruct (transition_fn m1 d w) as [ts|e] eqn:Hts; [|discriminate].
  unfold mbind at 1. unfold mmodify at 1.
  unfold mbind at 1. unfold reads at 1.
  destruct (objective_fn (set_state (State_of ts) m1) d w) as [p|e] eqn:Hp;
    [|discriminate].
  unfold mbind at 1. unfold mmodify at 1.
  unfold mbind at 1. unfold mget at 1.
  unfold mbind at 1. unfold lift at 1.
  destruct (sum_over _ _) as [revenue|e]; [|discriminate].
  unfold mbind at 1. unfold lift at 1.
  destruct (sum_over _ _) as [restocking|e]; [|discriminate].
  unfold mbind at 1. unfold lift at 1.
  destruct (dict_comp _ _) as [unsold|e]; [|discriminate].
  unfold mbind at 1. unfold lift at 1.
  destruct (sum_over _ _) as [holding|e]; [|discriminate].
  unfold mret. intros [= <- <-]. simpl.
  exists w, m1. repeat split; try assumption; try reflexivity.
  pose proof (exog_info_fn_frame None m) as [g Hg].
  rewrite Hw in Hg. simpl in Hg. now rewrite Hg.
Qed.

(** C1 fails on [run_policy].  On the one-car fleet (10 cars of A, demand
    10, price 950, maximum threshold 10) the transition sells the 10 cars,
    the state is replaced, and the objective is then computed on the empty
    lot: the step's profit is 0, while [objective_fn] on the state the
    transition read gives 9500. *)
Theorem run_policy_objective_after_transition :
  exists row m' p_before,
    run_policy ex_policy (basic_order_up_to_policy ex_policy) 1 []
      [("A", 10)]%string = (Ok [row], m') /\
    fst (exog_info_fn None ex_model) = Ok ex_exog /\
    r_state_before row = ex_state /\
    lookup (Transition.cars_sold (r_state_after row)) "A" = Some 10 /\
    lookup (Decision.price (r_decision row)) "A" = Some 950%Q /\
    objective_fn (set_state (State_of (r_state_after row)) ex_model)
      (r_decision row) ex_exog = Ok (r_profit row) /\
    (r_profit row == 0)%Q /\
    objective_fn ex_model (r_decision row) ex_exog = Ok p_before /\
    (p_before == 9500)%Q.
Proof.
  eexists. eexists. eexists.
  split; [vm_compute; reflexivity|].
  repeat split; try (vm_compute; reflexivity).
Qed.

(** C2 fails on [run_policy].  On the full lot (10 cars of A, capacity 10,
    rising market, demand 5, maximum threshold 20) the policy restocks 6;
    [is_valid_decision] rejects that decision, yet the runner applies its
    transition and the lot ends with 11 cars. *)
Theorem run_policy_applies_invalid_decision :
  exists row m' q,
    run_policy full_policy (basic_order_up_to_policy full_policy) 1 []
      [("A", 20)]%string = (Ok [row], m') /\
    lookup (Decision.restock (r_decision row)) "A" = Some q /\ (q == 6)%Q /\
    fst (is_valid_decision (r_decision row) full_model)
    = Raise (ValueError "Total inventory exceeds storage capacity!") /\
    lookup (State.inventory_level (state full_model)) "A" = Some 10 /\
    lookup (State.inventory_level (state m')) "A" = Some 11 /\
    max_inventory m' = 10.
Proof.
  eexists. eexists. eexists.
  split; [vm_compute; reflexivity|].
  repeat split; try (vm_compute; reflexivity).
Qed.

(** ** The theorems at the worked inputs *)

(** A fact about every entry of a one-entry dictionary. *)
Ltac one_entry :=
  let k := fresh "k" in
  let v := fresh "v" in
  intros k v; simpl; destruct (String.eqb k _);
  [intros [= <-]; vm_compute; discriminate | discriminate].

Lemma transition_fn_per_car_witness :
  wf_dict (State.inventory_level (state ex_model)) /\
  exists ts,
    transition_fn ex_model fractional_decision ex_exog = Ok ts /\
    lookup (Transition.cars_sold ts) "A" = Some 10 /\
    lookup (Transition.cars_added ts) "A" = Some 2 /\
    lookup (Transition.inventory_level ts) "A" = Some 2 /\
    lookup (Transition.holding_time ts) "A" = Some 3.
Proof.
  split; [reflexivity|].
  destruct (transition_fn_per_car ex_model fractional_decision ex_exog "A"
              10 2 eq_refl eq_refl eq_refl eq_refl)
    as [ts [H [Hs [Ha [Hn [Hh _]]]]]].
  exists ts. repeat split; assumption.
Defined.

Lemma transition_fn_within_capacity_witness :
  fst (is_valid_decision ex_decision ex_model) = Ok true /\
  exists ts,
    transition_fn ex_model ex_decision ex_exog = Ok ts /\
    sumZ (values (Transition.inventory_level ts)) <= 50.
Proof.
  split; [reflexivity|].
  apply (transition_fn_within_capacity ex_model ex_decision ex_exog).
  - reflexivity.
  - reflexivity.
  - one_entry.
  - one_entry.
  - reflexivity.
Defined.

Lemma is_valid_decision_spec_witness :
  covers (Decision.restock ex_decision)
    (keys (State.inventory_level (state ex_model))) /\
  fst (is_valid_decision ex_decision ex_model) = Ok true /\
  snd (is_valid_decision ex_decision ex_model) = ex_model.
Proof.
  split; [reflexivity|].
  destruct (is_valid_decision_spec ex_model ex_decision) as [Hsame Hspec].
  split; [|exact Hsame].
  apply (proj2 (Hspec eq_refl)).
  intros [[v [[<-|[]] Hv]]|H]; vm_compute in *; discriminate.
Defined.


Lemma basic_order_up_to_policy_spec_witness :
  wf_dict (State.inventory_level (state (model rising_policy))) /\
  lookup (variance_demand (model rising_policy)) "A" = Some 4 /\
  exists decision,
    basic_order_up_to_policy rising_policy [] [("A", 100)]%string
      (Some rising_exog) = Ok decision /\
    lookup (Decision.restock decision) "A"
    = Some (py_max 0 (py_min (inject_Z (100 - 0))
                        ((12 # 10) * (5 + inject_Z 2)))%Q) /\
    lookup (Decision.price decision) "A" = Some (py_max 0 (1000 - 50)%Q).
Proof.
  split; [reflexivity|]. split; [reflexivity|].
  destruct (basic_order_up_to_policy_spec rising_policy [] [("A", 100)]%string
              rising_exog eq_refl eq_refl) as [decision [Hrun Hcar]];
    [ intros k v; simpl; destruct (String.eqb k _);
      [intros [= <-]; split; [vm_compute; discriminate | reflexivity]
      | discriminate]
    | reflexivity | reflexivity | reflexivity |].
  exists decision. split; [exact Hrun|].
  destruct (Hcar "A"%string 0 4 5%Q 100 1000%Q
              eq_refl eq_refl eq_refl eq_refl eq_refl) as [Hr [Hp _]].
  split; [exact Hr | exact Hp].
Defined.

Lemma exog_info_fn_demand_bounds_witness :
  market_trends_df ex_model = Some [] /\
  exists w self',
    exog_info_fn None ex_model = (Ok w, self') /\
    exists d, lookup (ExogInfo.demand w) "A" = Some d /\
              (0 <= d)%Q /\ (d <= 2 * 10)%Q.
Proof.
  split; [reflexivity|].
  destruct (exog_info_fn_demand_bounds ex_model None [] eq_refl eq_refl
              eq_refl eq_refl) as [w [self' [Hrun Hcar]]]; [one_entry|].
  exists w, self'. split; [exact Hrun|].
  destruct (Hcar "A"%string (or_introl eq_refl)) as [d [f [Hd [Hf [H0 H2]]]]].
  injection Hf as <-. exists d. repeat split; assumption.
Defined.

Lemma exog_info_fn_without_trends_witness :
  market_trends_df no_trends_model = None /\
  exists msg,
    exog_info_fn None no_trends_model = (Raise (TypeError msg), no_trends_model).
Proof.
  split; [reflexivity|].
  exact (exog_info_fn_without_trends no_trends_model None eq_refl).
Defined.

(** * Further properties of the code *)

(** ** [transition_fn] *)

Lemma Forall2_in_r {A B} (R : A -> B -> Prop) (xs : list A) (ys : list B) (y : B) :
  Forall2 R xs ys -> In y ys -> exists x, In x xs /\ R x y.
Proof.
  induction 1 as [|x0 y0 xs ys HR HF IH]; simpl; [tauto|].
  intros [<-|Hin].
  - exists x0. split; [now left | exact HR].
  - destruct (IH Hin) as [x [Hx HRx]]. exists x. split; [now right | exact HRx].
Qed.

Lemma lookup_combine_value {V} (ks : list string) (vs : list V)
    (k : string) (v : V) :
  lookup (combine ks vs) k = Some v -> In v vs.
Proof.
  intro H. apply lookup_in in H. eapply in_combine_r, H.
Qed.

(** What [transition_fn] computed, read off a call that returned. *)
Lemma transition_fn_inv (self : CarDealerInventoryModel)
    (decision : Decision.t) (exog_info : ExogInfo.t) (ts : Transition.t) :
  let s := state self in
  wf_dict (State.inventory_level s) ->
  transition_fn self decision exog_info = Ok ts ->
  exists vn vh,
    Transition.inventory_level ts = combine (keys (State.inventory_level s)) vn /\
    Forall2 (loop_entry self (new_level_at decision exog_info))
      (keys (State.inventory_level s)) vn /\
    Transition.holding_time ts = combine (keys (State.inventory_level s)) vh /\
    Forall2 (fun car v =>
               (n <- getitem (Transition.inventory_level ts) car ;;
                if 0 <? n
                then h <- getitem (State.holding_time s) car ;; Ok (h + 1)
                else Ok 0) = Ok v)
      (keys (State.inventory_level s)) vh /\
    dict_comp (keys (State.demand_forecast s))
      (fun car =>
         Ok (py_max 0 (get (ExogInfo.demand exog_info) car 0
                       * (1 + (1 # 10) * inject_Z (t self)))%Q))
    = Ok (Transition.demand_forecast ts).
Proof.
  intros s Hwf. unfold transition_fn. fold s.
  destruct (for_each _ _ _) as [l|e] eqn:Hl; simpl; [|discriminate].
  destruct (dict_comp (keys (State.inventory_level s)) _) as [nh|e] eqn:Hh;
    simpl; [|discriminate].
  destruct (dict_comp (keys (State.demand_forecast s)) _) as [nf|e] eqn:Hf;
    simpl; [|discriminate].
  intro Hts. injection Hts as Hts. subst ts. simpl.
  destruct (trans_loop_proj self decision exog_info l_new_inventory
              (new_level_at decision exog_info) l
              ltac:(reflexivity) ltac:(reflexivity) Hwf Hl) as [vn [HFn Hn]].
  destruct (dict_comp_build _ _ _ Hwf Hh) as [vh [HFh Hnh]].
  exists vn, vh. repeat split; assumption.
Qed.

(** X1. A transition keeps the shape of the state.  From a state whose
    inventory and forecast dictionaries are well formed and whose holding
    times are non-negative, the state built from what [transition_fn]
    returns tracks the same cars in its inventory and holding-time mappings
    and the same cars in its forecast, and all its inventory levels, holding
    times and forecasts are non-negative, whatever the decision and the
    exogenous information were. *)
Theorem transition_fn_keeps_shape (self : CarDealerInventoryModel)
    (decision : Decision.t) (exog_info : ExogInfo.t) (ts : Transition.t) :
  let s := state self in
  let s' := State_of ts in
  wf_dict (State.inventory_level s) ->
  wf_dict (State.demand_forecast s) ->
  (forall car h, lookup (State.holding_time s) car = Some h -> 0 <= h) ->
  transition_fn self decision exog_info = Ok ts ->
  keys (State.inventory_level s') = keys (State.inventory_level s) /\
  keys (State.holding_time s') = keys (State.inventory_level s) /\
  keys (State.demand_forecast s') = keys (State.demand_forecast s) /\
  (forall car n, lookup (State.inventory_level s') car = Some n -> 0 <= n) /\
  (forall car h, lookup (State.holding_time s') car = Some h -> 0 <= h) /\
  (forall car f, lookup (State.demand_forecast s') car = Some f -> (0 <= f)%Q).
Proof.
  intros s s' Hwf Hwff Hh Hrun.
  destruct (transition_fn_inv self decision exog_info ts Hwf Hrun)
    as [vn [vh [Hn [HFn [Hnh [HFh Hf]]]]]].
  fold s in Hn, HFn, Hnh, HFh, Hf.
  destruct (dict_comp_build _ _ _ Hwff Hf) as [vf [HFf Hnf]].
  unfold s'. simpl. rewrite Hn, Hnh, Hnf.
  split; [apply keys_combine; now apply Forall2_length in HFn|].
  split; [apply keys_combine; now apply Forall2_length in HFh|].
  split; [apply keys_combine; now apply Forall2_length in HFf|].
  split; [|split].
  - intros car n Hl. apply lookup_combine_value in Hl.
    destruct (Forall2_in_r _ _ _ _ HFn Hl) as [k [_ [level [_ ->]]]].
    unfold new_level_at. lia.
  - intros car h Hl. apply lookup_combine_value in Hl.
    destruct (Forall2_in_r _ _ _ _ HFh Hl) as [k [_ Hk]].
    destruct (getitem (Transition.inventory_level ts) k) as [n|e];
      simpl in Hk; [|discriminate].
    destruct (0 <? n); [|injection Hk as <-; lia].
    unfold getitem in Hk.
    destruct (lookup (State.holding_time s) k) as [h0|] eqn:Hh0;
      simpl in Hk; [|discriminate].
    injection Hk as <-. specialize (Hh _ _ Hh0). lia.
  - intros car f Hl. apply lookup_combine_value in Hl.
    destruct (Forall2_in_r _ _ _ _ HFf Hl) as [k [_ Hk]].
    injection Hk as <-. apply py_max_lower.
Qed.

(** X2. Stock is conserved.  For a tracked car with non-negative level,
    restock and demand, [transition_fn] sells at most the stock and at most
    the rounded demand, adds the restock truncated to an integer, and the
    new level is exactly [level + added - sold]: the floor at zero never
    cuts anything off. *)
Theorem transition_fn_conserves_stock (self : CarDealerInventoryModel)
    (decision : Decision.t) (exog_info : ExogInfo.t)
    (car : string) (level : Z) :
  let s := state self in
  let d := get (ExogInfo.demand exog_info) car 0%Q in
  let q := get (Decision.restock decision) car 0%Q in
  wf_dict (State.inventory_level s) ->
  covers (State.holding_time s) (keys (State.inventory_level s)) ->
  lookup (State.inventory_level s) car = Some level ->
  0 <= level -> (0 <= d)%Q -> (0 <= q)%Q ->
  exists ts sold added,
    transition_fn self decision exog_info = Ok ts /\
    lookup (Transition.cars_sold ts) car = Some sold /\
    lookup (Transition.cars_added ts) car = Some added /\
    lookup (Transition.inventory_level ts) car = Some (level + added - sold) /\
    0 <= sold /\ sold <= level /\ sold <= py_round d /\
    0 <= added /\ (inject_Z added <= q)%Q.
Proof.
  intros s d q Hwf Hcov Hl Hl0 Hd0 Hq0.
  destruct (transition_fn_spec self decision exog_info Hwf Hcov)
    as [ts [vs [Hts [_ [_ Hcar]]]]].
  assert (Hin : In car (keys (State.inventory_level s))).
  { apply has_key_in. eapply lookup_has_key, Hl. }
  destruct (covers_lookup _ _ _ Hcov Hin) as [h Hh].
  destruct (Hcar car level h Hl Hh) as [Hs [Ha [Hn _]]].
  pose proof (py_round_nonneg d Hd0) as Hr.
  pose proof (py_int_nonneg q Hq0) as Hi.
  pose proof (py_int_le q Hq0) as Hle.
  exists ts, (sold_at exog_info car level), (added_at decision car).
  split; [exact Hts|]. split; [exact Hs|]. split; [exact Ha|].
  unfold new_level_at in Hn. unfold sold_at, added_at in *. fold d q in Hn |- *.
  split; [rewrite Hn; f_equal; lia|].
  repeat split; try lia; assumption.
Qed.

(** X3. [transition_fn] returns exactly when every tracked car that ends
    the step with stock has a holding time: the holding time of a car that
    sells out is never read. *)
Theorem transition_fn_returns_iff (self : CarDealerInventoryModel)
    (decision : Decision.t) (exog_info : ExogInfo.t) :
  let s := state self in
  wf_dict (State.inventory_level s) ->
  (exists ts, transition_fn self decision exog_info = Ok ts) <->
  (forall car level,
     lookup (State.inventory_level s) car = Some level ->
     0 < new_level_at decision exog_info car level ->
     has_key (State.holding_time s) car = true).
Proof.
  intros s Hwf. split.
  - intros [ts Hrun] car level Hl Hpos.
    destruct (transition_fn_inv self decision exog_info ts Hwf Hrun)
      as [vn [vh [Hn [HFn [Hnh [HFh _]]]]]].
    fold s in Hn, HFn, Hnh, HFh.
    assert (Hin : In car (keys (State.inventory_level s))).
    { apply has_key_in. eapply lookup_has_key, Hl. }
    destruct (lookup_combine_R id _ _ _ HFh
                ltac:(rewrite map_id; exact Hwf) car Hin) as [v [Hv _]].
    rewrite Hn in Hv.
    pose proof (loop_entry_lookup self _ _ _ _ Hwf HFn Hl) as Hlk.
    fold s in Hlk. rewrite (getitem_ok _ _ _ Hlk) in Hv.
    simpl in Hv. apply Z.ltb_lt in Hpos. rewrite Hpos in Hv.
    unfold getitem, has_key in *.
    destruct (lookup (State.holding_time s) car); [reflexivity|discriminate].
  - intro Hok. unfold transition_fn. fold s.
    destruct (trans_loop_total self decision exog_info) as [l Hl].
    fold s in Hl. rewrite Hl. simpl.
    destruct (trans_loop_proj self decision exog_info l_new_inventory
                (new_level_at decision exog_info) l
                ltac:(reflexivity) ltac:(reflexivity) Hwf Hl) as [vn [HFn Hn]].
    fold s in Hn, HFn.
    match goal with
    | |- context [dict_comp (keys (State.inventory_level s)) ?g] =>
        destruct (dict_comp_total g (keys (State.inventory_level s)))
          as [nh Hnh]
    end.
    { intros car Hin.
      apply has_key_in, has_key_lookup in Hin. destruct Hin as [level Hlv].
      rewrite Hn.
      pose proof (loop_entry_lookup self _ _ _ _ Hwf HFn Hlv) as Hlk.
      fold s in Hlk. rewrite (getitem_ok _ _ _ Hlk).
      simpl. destruct (0 <? _) eqn:Hpos; [|eauto].
      apply Z.ltb_lt in Hpos.
      destruct (has_key_lookup _ _ (Hok car level Hlv Hpos)) as [h Hh].
      rewrite (getitem_ok _ _ _ Hh). simpl. eauto. }
    rewrite Hnh. simpl.
    match goal with
    | |- context [dict_comp ?ks ?g] =>
        destruct (dict_comp_total g ks) as [nf Hnf]; [eauto|rewrite Hnf]
    end.
    simpl. eauto.
Qed.

(** X4. The trend history shifts by one position per step.  After two
    transitions in a row the second lag of the state is the trend mapping the
    first state had, the first lag is the trend mapping drawn at the first
    step and the current trends and competitor prices are those drawn at the
    second; the trend parameters are carried along unchanged. *)
Theorem transition_fn_shifts_trends (self : CarDealerInventoryModel)
    (d1 d2 : Decision.t) (w1 w2 : ExogInfo.t) (ts1 ts2 : Transition.t) :
  transition_fn self d1 w1 = Ok ts1 ->
  transition_fn (set_state (State_of ts1) self) d2 w2 = Ok ts2 ->
  let s := state self in
  let s2 := State_of ts2 in
  State.market_trends_lag2 s2 = State.market_trends s /\
  State.market_trends_lag1 s2 = ExogInfo.market_trends w1 /\
  State.market_trends s2 = ExogInfo.market_trends w2 /\
  State.competitor_price s2 = ExogInfo.competitor_prices w2 /\
  State.trend_eta_params s2 = State.trend_eta_params s.
Proof.
  unfold transition_fn. intros H1 H2.
  destruct (for_each _ _ _) as [l1|e] in H1; simpl in H1; [|discriminate].
  destruct (dict_comp (keys (State.inventory_level (state self))) _)
    as [h1|e] in H1; simpl in H1; [|discriminate].
  destruct (dict_comp (keys (State.demand_forecast (state self))) _)
    as [f1|e] in H1; simpl in H1; [|discriminate].
  injection H1 as <-. simpl in H2.
  destruct (for_each _ _ _) as [l2|e] in H2; simpl in H2; [|discriminate].
  destruct (dict_comp (keys (l_new_inventory l1)) _)
    as [h2|e] in H2; simpl in H2; [|discriminate].
  destruct (dict_comp (keys f1) _) as [f2|e] in H2; simpl in H2;
    [|discriminate].
  injection H2 as <-. simpl. repeat split; reflexivity.
Qed.

Lemma dict_comp_keys_eq {V} (f : string -> result V) (ks : list string)
    (d : dict V) :
  nodupb ks = true -> dict_comp ks f = Ok d -> keys d = ks.
Proof.
  intros Hnd Hrun.
  destruct (dict_comp_build f _ _ Hnd Hrun) as [vs [HF ->]].
  apply keys_combine. now apply Forall2_length in HF.
Qed.

Lemma drift_increases (d : Q) (t : Z) :
  (0 <= d)%Q -> 0 <= t -> (d <= d * (1 + (1 # 10) * inject_Z t))%Q.
Proof.
  intros Hd Ht.
  assert (H1 : (1 <= 1 + (1 # 10) * inject_Z t)%Q).
  { rewrite <- (Qplus_0_r 1) at 1. apply Qplus_le_compat; [apply Qle_refl|].
    apply Qmult_le_0_compat; [discriminate|].
    change 0%Q with (inject_Z 0). now rewrite <- Zle_Qle. }
  rewrite (Qmult_comm d). rewrite <- (Qmult_1_l d) at 1.
  now apply Qmult_le_compat_r.
Qed.

(** X23. The forecast is rebuilt from the realised demand alone.  For
    every car of the old forecast, the new forecast is [max(0, demand * (1 +
    0.1 * t))], with a missing demand read as 0: it depends neither on the
    old forecast nor on the decision, and from [t >= 0] on it is never below
    a non-negative realised demand. *)
Theorem transition_fn_forecast (self : CarDealerInventoryModel)
    (decision : Decision.t) (exog_info : ExogInfo.t) (ts : Transition.t)
    (car : string) :
  let s := state self in
  let d := get (ExogInfo.demand exog_info) car 0%Q in
  wf_dict (State.inventory_level s) ->
  wf_dict (State.demand_forecast s) ->
  transition_fn self decision exog_info = Ok ts ->
  In car (keys (State.demand_forecast s)) ->
  lookup (Transition.demand_forecast ts) car
  = Some (py_max 0 (d * (1 + (1 # 10) * inject_Z (t self))))%Q /\
  (0 <= t self -> (0 <= d)%Q ->
   exists f, lookup (Transition.demand_forecast ts) car = Some f /\
             (d <= f)%Q).
Proof.
  intros s d Hwf Hwff Hrun Hin.
  destruct (transition_fn_inv self decision exog_info ts Hwf Hrun)
    as [vn [vh [_ [_ [_ [_ Hf]]]]]].
  fold s in Hf.
  destruct (dict_comp_lookup _ _ _ car Hwff Hf Hin) as [f [Hfc Hl]].
  injection Hfc as <-. fold d in Hl. split; [exact Hl|].
  intros Ht Hd. eexists. split; [exact Hl|].
  pose proof (drift_increases d (t self) Hd Ht) as Hup.
  unfold py_max. destruct (Qltb 0 _) eqn:E; [exact Hup|].
  apply Qltb_ge in E. eapply Qle_trans; [exact Hup | exact E].
Qed.

(** ** [objective_fn] *)

Lemma for_each_ext {A S} (body body' : S -> A -> result S) (xs : list A) :
  (forall s x, In x xs -> body s x = body' s x) ->
  forall s, for_each xs body s = for_each xs body' s.
Proof.
  induction xs as [|x xs IH]; simpl; intros H s; [reflexivity|].
  rewrite H by now left. destruct (body' s x); simpl; [|reflexivity].
  apply IH. intros s0 y Hy. apply H. now right.
Qed.

Lemma sum_over_ext (f f' : string -> result Q) (ks : list string) :
  (forall k, In k ks -> f k = f' k) -> sum_over ks f = sum_over ks f'.
Proof.
  intro H. apply for_each_ext. intros acc k Hk. now rewrite H.
Qed.

Lemma fold_left_Qplus_le (f g : string -> Q) (ks : list string) :
  (forall k, In k ks -> (f k <= g k)%Q) ->
  forall a b, (a <= b)%Q ->
  (fold_left Qplus (map f ks) a <= fold_left Qplus (map g ks) b)%Q.
Proof.
  induction ks as [|k ks IH]; simpl; intros H a b Hab; [exact Hab|].
  apply IH.
  - intros k' Hk'. apply H. now right.
  - apply Qplus_le_compat; [exact Hab | apply H; now left].
Qed.

Lemma sumQ_nonneg (f : string -> Q) (ks : list string) :
  (forall k, In k ks -> (0 <= f k)%Q) -> (0 <= sumQ (map f ks))%Q.
Proof.
  intro H. unfold sumQ.
  assert (G : forall a, (0 <= a)%Q ->
                (0 <= fold_left Qplus (map f ks) a)%Q).
  { induction ks as [|k ks IH]; simpl; intros a Ha; [exact Ha|].
    apply IH; [intros; apply H; now right|].
    rewrite <- (Qplus_0_r 0). apply Qplus_le_compat;
      [exact Ha | apply H; now left]. }
  apply G, Qle_refl.
Qed.

Lemma py_min_le_l (a b : Q) : (py_min a b <= a)%Q.
Proof.
  destruct (py_min_cases a b) as [[-> _]|[-> H]];
    [apply Qle_refl | now apply Qlt_le_weak].
Qed.

(** The three sums of [objective_fn], freed of their loops. *)
Lemma objective_fn_formula (self : CarDealerInventoryModel)
    (decision : Decision.t) (exog_info : ExogInfo.t) :
  let s := state self in
  wf_dict (State.inventory_level s) ->
  covers (ExogInfo.demand exog_info) (keys (State.inventory_level s)) ->
  covers (Decision.price decision) (keys (State.inventory_level s)) ->
  covers (State.holding_time s) (keys (State.inventory_level s)) ->
  covers (ExogInfo.market_trends exog_info) (keys (State.inventory_level s)) ->
  objective_fn self decision exog_info
  = Ok (revenue_of s decision exog_info
        - (restocking_cost_of decision + holding_cost_of self exog_info))%Q.
Proof.
  intros s Hwf Hd Hp Hh Ht. unfold objective_fn. fold s.
  rewrite (sum_over_map _
             (fun car =>
                (py_min (inject_Z (get (State.inventory_level s) car 0%Z))
                        (get (ExogInfo.demand exog_info) car 0)
                 * get (Decision.price decision) car 0)%Q)).
  2:{ intros k Hk.
      destruct (covers_lookup _ _ _ Hd Hk) as [d Hld].
      destruct (covers_lookup _ _ _ Hp Hk) as [p Hlp].
      apply has_key_in, has_key_lookup in Hk. destruct Hk as [level Hl].
      rewrite (getitem_ok _ _ _ Hl), (getitem_ok _ _ _ Hld),
        (getitem_ok _ _ _ Hlp).
      rewrite (get_lookup _ _ _ _ Hl), (get_lookup _ _ _ _ Hld),
        (get_lookup _ _ _ _ Hlp). reflexivity. }
  simpl.
  rewrite (sum_over_map _
             (fun car => (get (Decision.restock decision) car 0 * 300)%Q)).
  2:{ intros k Hk. apply has_key_in, has_key_lookup in Hk.
      destruct Hk as [r Hr].
      rewrite (getitem_ok _ _ _ Hr), (get_lookup _ _ _ _ Hr). reflexivity. }
  simpl.
  set (fu := fun car =>
         level <- getitem (State.inventory_level s) car ;;
         d <- getitem (ExogInfo.demand exog_info) car ;;
         Ok (level - Z.min level (py_int d))).
  assert (Hfu : forall k, In k (keys (State.inventory_level s)) ->
                  fu k = Ok (unsold_of s exog_info k)).
  { intros k Hk. destruct (covers_lookup _ _ _ Hd Hk) as [d Hld].
    apply has_key_in, has_key_lookup in Hk. destruct Hk as [level Hl].
    unfold fu, unsold_of.
    rewrite (getitem_ok _ _ _ Hl), (getitem_ok _ _ _ Hld).
    rewrite (get_lookup _ _ _ _ Hl), (get_lookup _ _ _ _ Hld). reflexivity. }
  destruct (dict_comp_total fu (keys (State.inventory_level s)))
    as [unsold Hu]; [intros k Hk; rewrite (Hfu k Hk); eauto|].
  rewrite Hu. simpl.
  destruct (dict_comp_build fu _ _ Hwf Hu) as [us [HFu Hus]].
  assert (Hk : keys unsold = keys (State.inventory_level s)).
  { rewrite Hus. apply keys_combine. now apply Forall2_length in HFu. }
  rewrite Hk.
  rewrite (sum_over_map _
             (fun car =>
                (inject_Z (unsold_of s exog_info car
                           * get (State.holding_time s) car 0%Z)
                 * holding_rate_of self exog_info car)%Q)).
  2:{ intros k Hin.
      destruct (dict_comp_lookup fu _ _ k Hwf Hu Hin) as [u [Hfk Hlu]].
      rewrite (Hfu k Hin) in Hfk. injection Hfk as <-.
      destruct (covers_lookup _ _ _ Hh Hin) as [h Hlh].
      destruct (covers_lookup _ _ _ Ht Hin) as [tr Hlt].
      rewrite (getitem_ok _ _ _ Hlu), (getitem_ok _ _ _ Hlh),
        (getitem_ok _ _ _ Hlt).
      unfold holding_rate_of.
      rewrite (get_lookup _ _ _ _ Hlh), (get_lookup _ _ _ _ Hlt).
      reflexivity. }
  reflexivity.
Qed.

(** X5. When every tracked car has a realised demand, a price, a holding
    time and a new trend, and the new trends are ASCII strings,
    [objective_fn] returns, and the profit it returns is the revenue
    [sum(min(level, demand) * price)] minus the restocking cost
    [sum(restock * 300)] over the decision's restock entries and the holding
    cost [sum(unsold * holding_time * rate)], where [unsold] is the level
    minus [min(level, int(demand))] and the rate is the seasonal rate of the
    car's lower-cased new trend, or the base holding cost. *)
Theorem objective_fn_value (self : CarDealerInventoryModel)
    (decision : Decision.t) (exog_info : ExogInfo.t) :
  let s := state self in
  wf_dict (State.inventory_level s) ->
  covers (ExogInfo.demand exog_info) (keys (State.inventory_level s)) ->
  covers (Decision.price decision) (keys (State.inventory_level s)) ->
  covers (State.holding_time s) (keys (State.inventory_level s)) ->
  covers (ExogInfo.market_trends exog_info) (keys (State.inventory_level s)) ->
  ascii_trends (ExogInfo.market_trends exog_info) ->
  objective_fn self decision exog_info
  = Ok (revenue_of s decision exog_info
        - (restocking_cost_of decision + holding_cost_of self exog_info))%Q.
Proof.
  intros s Hwf Hd Hp Hh Ht _.
  exact (objective_fn_formula self decision exog_info Hwf Hd Hp Hh Ht).
Qed.

(** X6. A step never earns more than the stock is worth.  When prices,
    restock quantities, holding times and holding rates are non-negative,
    the profit [objective_fn] returns is at most the value of the current
    stock at the decision's prices, [sum(level * price)], whatever the
    demand. *)
Theorem objective_fn_at_most_stock_value (self : CarDealerInventoryModel)
    (decision : Decision.t) (exog_info : ExogInfo.t) :
  let s := state self in
  wf_dict (State.inventory_level s) ->
  covers (ExogInfo.demand exog_info) (keys (State.inventory_level s)) ->
  covers (Decision.price decision) (keys (State.inventory_level s)) ->
  covers (State.holding_time s) (keys (State.inventory_level s)) ->
  covers (ExogInfo.market_trends exog_info) (keys (State.inventory_level s)) ->
  (forall car p, lookup (Decision.price decision) car = Some p -> (0 <= p)%Q) ->
  (forall car r, lookup (Decision.restock decision) car = Some r -> (0 <= r)%Q) ->
  (forall car h, lookup (State.holding_time s) car = Some h -> 0 <= h) ->
  (0 <= holding_cost self)%Q ->
  (forall season rate,
     lookup (seasonal_holding_cost self) season = Some rate -> (0 <= rate)%Q) ->
  exists profit,
    objective_fn self decision exog_info = Ok profit /\
    (profit <= stock_value s decision)%Q.
Proof.
  intros s Hwf Hd Hp Hh Ht Hp0 Hr0 Hh0 Hc0 Hs0.
  rewrite (objective_fn_formula self decision exog_info Hwf Hd Hp Hh Ht).
  eexists. split; [reflexivity|]. fold s.
  assert (Hrc : (0 <= restocking_cost_of decision)%Q).
  { apply sumQ_nonneg. intros k Hk.
    apply has_key_in, has_key_lookup in Hk. destruct Hk as [r Hr].
    rewrite (get_lookup _ _ _ _ Hr).
    apply Qmult_le_0_compat; [eapply Hr0, Hr | discriminate]. }
  assert (Hhc : (0 <= holding_cost_of self exog_info)%Q).
  { apply sumQ_nonneg. intros k Hk. fold s.
    destruct (covers_lookup _ _ _ Hh Hk) as [h Hlh].
    rewrite (get_lookup _ _ _ _ Hlh).
    apply Qmult_le_0_compat.
    - change 0%Q with (inject_Z 0). rewrite <- Zle_Qle.
      apply Z.mul_nonneg_nonneg; [unfold unsold_of; lia | eapply Hh0, Hlh].
    - unfold holding_rate_of, get.
      destruct (lookup (seasonal_holding_cost self) _) eqn:E;
        [eapply Hs0, E | exact Hc0]. }
  assert (Hrev : (revenue_of s decision exog_info <= stock_value s decision)%Q).
  { unfold revenue_of, stock_value, sumQ.
    apply fold_left_Qplus_le; [|apply Qle_refl].
    intros k Hk. destruct (covers_lookup _ _ _ Hp Hk) as [p Hlp].
    rewrite (get_lookup _ _ _ _ Hlp).
    apply Qmult_le_compat_r; [apply py_min_le_l | eapply Hp0, Hlp]. }
  apply Qle_trans with (y := revenue_of s decision exog_info); [|exact Hrev].
  rewrite <- (Qplus_0_r (revenue_of s decision exog_info)) at 2.
  unfold Qminus. apply Qplus_le_compat; [apply Qle_refl|].
  apply (Qopp_le_compat 0).
  rewrite <- (Qplus_0_r 0). now apply Qplus_le_compat.
Qed.

(** X7. The profit does not depend on the letter case of the new trends,
    nor on the competitor prices drawn: two pieces of exogenous information
    with the same demand whose trends agree up to case give the same result,
    value or exception. *)
Theorem objective_fn_ignores_trend_case (self : CarDealerInventoryModel)
    (decision : Decision.t) (w w' : ExogInfo.t) :
  ExogInfo.demand w = ExogInfo.demand w' ->
  same_trends_up_to_case (ExogInfo.market_trends w) (ExogInfo.market_trends w') ->
  objective_fn self decision w = objective_fn self decision w'.
Proof.
  intros Hd Ht. unfold objective_fn. rewrite <- Hd.
  destruct (sum_over _ _) as [revenue|e]; simpl; [|reflexivity].
  destruct (sum_over _ _) as [restocking|e]; simpl; [|reflexivity].
  destruct (dict_comp _ _) as [unsold|e]; simpl; [|reflexivity].
  match goal with
  | |- (x <- sum_over ?ks ?f ;; _) = (y <- sum_over _ ?f' ;; _) =>
      rewrite (sum_over_ext f f' ks)
  end; [reflexivity|].
  intros k _.
  destruct (getitem unsold k); simpl; [|reflexivity].
  destruct (getitem (State.holding_time (state self)) k); simpl;
    [|reflexivity].
  specialize (Ht k). unfold getitem.
  destruct (lookup (ExogInfo.market_trends w) k),
    (lookup (ExogInfo.market_trends w') k); simpl in *;
    try discriminate; [|reflexivity].
  injection Ht as ->. reflexivity.
Qed.

(** ** [exog_info_fn] *)

Lemma draws_taken_zero (m : CarDealerInventoryModel) : draws_taken 0 m m.
Proof.
  unfold draws_taken. destruct m as [? ? ? ? [c v] ? ? ? ? ? ? ? ? ?].
  unfold set_prng. simpl. now rewrite Nat.add_0_r.
Qed.

Lemma draws_taken_add (a b : nat) (m1 m2 m3 : CarDealerInventoryModel) :
  draws_taken a m1 m2 -> draws_taken b m2 m3 -> draws_taken (a + b) m1 m3.
Proof.
  unfold draws_taken. intros -> ->. unfold set_prng. simpl.
  now rewrite Nat.add_assoc.
Qed.

Lemma normal_draws (mu sigma : Q) (m : CarDealerInventoryModel) :
  draws_taken 1 m (snd (normal mu sigma m)).
Proof.
  unfold draws_taken, normal. simpl. now rewrite Nat.add_1_r.
Qed.

(** A loop in the state monad that returned: an invariant of its local
    state, and the count of its draws. *)
Section ForEachMPost.
Context {A S : Type}.
Variable I : list A -> S -> Prop.
Variable c : A -> nat.
Variable body : S -> A -> M S.

Hypothesis body_post : forall pre s x m s' m',
  body s x m = (Ok s', m') -> I pre s ->
  I (pre ++ [x]) s' /\ draws_taken (c x) m m'.

Lemma for_each_M_post xs : forall pre s m s' m',
  for_each_M xs body s m = (Ok s', m') -> I pre s ->
  I (pre ++ xs) s' /\ draws_taken (list_sum (map c xs)) m m'.
Proof.
  induction xs as [|x xs IH]; simpl; intros pre s m s' m' Hrun HI.
  - injection Hrun as <- <-. rewrite app_nil_r.
    split; [exact HI | apply draws_taken_zero].
  - unfold mbind in Hrun.
    destruct (body s x m) as [[s1|e] m1] eqn:Hb; [|discriminate].
    destruct (body_post _ _ _ _ _ _ Hb HI) as [HI1 Hd1].
    destruct (IH _ _ _ _ _ Hrun HI1) as [HI2 Hd2].
    rewrite <- app_assoc in HI2. split; [exact HI2|].
    exact (draws_taken_add _ _ _ _ _ Hd1 Hd2).
Qed.
End ForEachMPost.

Lemma draw_all_demand_draws (s : State.t) (m m' : CarDealerInventoryModel)
    (d : dict Q) :
  draw_all_demand s m = (Ok d, m') ->
  draws_taken (List.length (keys (State.inventory_level s))) m m'.
Proof.
  intro Hrun. unfold draw_all_demand in Hrun.
  apply (for_each_M_post (fun (_ : list string) (_ : dict Q) => True)
           (fun _ : string => 1%nat)) with (pre := @nil string) in Hrun.
  - destruct Hrun as [_ Hd]. revert Hd.
    generalize (keys (State.inventory_level s)). intro ks.
    replace (list_sum (map (fun _ : string => 1%nat) ks))
      with (List.length ks); [tauto|].
    induction ks as [|k ks IH]; simpl; [reflexivity | now rewrite IH].
  - intros pre d0 car m0 d1 m1 Hb _. split; [exact I|].
    unfold mbind, lift in Hb.
    destruct (getitem (State.demand_forecast s) car) as [f|e]; [|discriminate].
    unfold mret in Hb.
    pose proof (normal_draws f 10 m0) as Hn.
    destruct (normal f 10 m0) as [[x|e] m2]; [|discriminate].
    injection Hb as _ <-. exact Hn.
  - exact I.
Qed.

Lemma exog_filled_step (s : State.t) (df : DataFrame) (t : Z)
    (pre : list string) (l : ExogLoop) (car : string) (cp : Q)
    (demand : dict Q) :
  exog_filled s df t pre l ->
  lookup (State.competitor_price s) car = Some cp ->
  exog_filled s df t (pre ++ [car])
    {| l_demand := demand;
       l_competitor_prices :=
         setitem (l_competitor_prices l) car (exog_price_at df t car cp);
       l_new_market_trends :=
         setitem (l_new_market_trends l) car (exog_trend_at df t car) |}.
Proof.
  intros HI Hcp k cp' Hin Hk. simpl. rewrite !lookup_setitem.
  destruct (String.eqb k car) eqn:E.
  - apply String.eqb_eq in E. subst k. rewrite Hcp in Hk.
    injection Hk as <-. split; reflexivity.
  - apply in_app_or in Hin. destruct Hin as [Hin|[<-|[]]].
    + now apply HI.
    + rewrite String.eqb_refl in E. discriminate.
Qed.

Lemma exog_loop_post (s : State.t) (df : DataFrame) (t : Z)
    (m m' : CarDealerInventoryModel) (l : ExogLoop) :
  for_each_M (keys (State.inventory_level s))
    (exog_loop_body s
       (filter (fun r => String.eqb (Month r) (current_month_of t)) df))
    {| l_demand := []; l_competitor_prices := [];
       l_new_market_trends := [] |} m = (Ok l, m') ->
  exog_filled s df t (keys (State.inventory_level s)) l /\
  draws_taken (draw_count df t (keys (State.inventory_level s))) m m'.
Proof.
  intro Hrun. unfold draw_count.
  apply (for_each_M_post (exog_filled s df t)
           (fun car => match trend_row_for df t car with
                       | Some _ => S (List.length (keys (State.inventory_level s)))
                       | None => 1%nat
                       end)) with (pre := @nil string) in Hrun.
  - exact Hrun.
  - intros pre l0 car m0 l1 m1 Hb HI.
    unfold exog_loop_body in Hb.
    pose proof (exog_filled_step s df t pre l0 car) as Hstep.
    unfold exog_price_at, exog_trend_at, trend_row_for in Hstep |- *.
    destruct (filter (fun r => String.eqb (Model r) car) _) as [|row rows].
    + unfold mbind at 1 in Hb.
      pose proof (normal_draws 0 5 m0) as Hn.
      destruct (normal 0 5 m0) as [[x|e] m2]; [|discriminate].
      unfold mbind, lift, mret in Hb.
      destruct (getitem (State.competitor_price s) car) as [cp|e] eqn:Hcp;
        [|discriminate].
      injection Hb as <- <-. split; [|exact Hn].
      apply Hstep; [exact HI|].
      unfold getitem in Hcp.
      destruct (lookup (State.competitor_price s) car); [|discriminate].
      now injection Hcp as ->.
    + unfold mbind at 1 in Hb.
      pose proof (normal_draws 0 (5 # 100) m0) as Hn.
      destruct (normal 0 (5 # 100) m0) as [[x|e] m2]; [|discriminate].
      unfold mbind at 1 in Hb.
      destruct (draw_all_demand s m2) as [[d|e] m3] eqn:Hd; [|discriminate].
      apply draw_all_demand_draws in Hd.
      unfold mbind, lift, mret in Hb.
      destruct (getitem (State.competitor_price s) car) as [cp|e] eqn:Hcp;
        [|discriminate].
      injection Hb as <- <-.
      split; [|exact (draws_taken_add 1 _ _ _ _ Hn Hd)].
      apply Hstep; [exact HI|].
      unfold getitem in Hcp.
      destruct (lookup (State.competitor_price s) car); [|discriminate].
      now injection Hcp as ->.
  - intros k cp [].
Qed.

(** What [exog_info_fn] did, read off a call that returned. *)
Lemma exog_info_fn_inv (self self' : CarDealerInventoryModel)
    (decision : option Decision.t) (table : DataFrame) (w : ExogInfo.t) :
  market_trends_df self = Some table ->
  exog_info_fn decision self = (Ok w, self') ->
  exists l,
    ExogInfo.competitor_prices w = l_competitor_prices l /\
    ExogInfo.market_trends w = l_new_market_trends l /\
    exog_filled (state self) table (t self)
      (keys (State.inventory_level (state self))) l /\
    draws_taken (draw_count table (t self)
                   (keys (State.inventory_level (state self)))) self self'.
Proof.
  intros Htab Hrun. unfold exog_info_fn in Hrun.
  unfold mbind at 1 in Hrun. unfold mget in Hrun. rewrite Htab in Hrun.
  unfold mbind at 1 in Hrun.
  destruct (for_each_M _ _ _ self) as [[l|e] m1] eqn:Hl; [|discriminate].
  apply exog_loop_post in Hl. destruct Hl as [HI Hd].
  unfold mbind at 1 in Hrun. unfold lift at 1 in Hrun.
  destruct (for_each _ _ _) as [md|e]; [|discriminate].
  unfold mbind, lift, mret in Hrun.
  destruct (dict_comp _ _) as [dem|e]; [|discriminate].
  injection Hrun as <- <-. simpl.
  exists l. split; [reflexivity|]. split; [reflexivity|].
  split; [exact HI | exact Hd].
Qed.

(** Three operands in the safe range: the sum of line 74 stays within 64
    bits at both of its steps. *)
Lemma int64_safe_sum (a b c : Q) :
  int64_safe a -> int64_safe b -> int64_safe c ->
  (- inject_Z (2 ^ 63) <= a + b)%Q /\ (a + b < inject_Z (2 ^ 63))%Q /\
  (- inject_Z (2 ^ 63) <= a + b - c)%Q /\ (a + b - c < inject_Z (2 ^ 63))%Q.
Proof.
  unfold int64_safe. intros [Ha Ha'] [Hb Hb'] [Hc Hc'].
  assert (E : (inject_Z (2 ^ 63) == 4 * inject_Z (2 ^ 61))%Q) by reflexivity.
  assert (P : (0 < inject_Z (2 ^ 61))%Q) by reflexivity.
  set (x := inject_Z (2 ^ 61)) in *. set (y := inject_Z (2 ^ 63)) in *.
  clearbody x y.
  repeat split; lra.
Qed.

(** X8. What [exog_info_fn] returns for a tracked car besides its demand,
    when the car's competitor price and the [Price_Trend] and
    [Competitor_Activity] of its trend row are at most [2 ^ 61] in absolute
    value (so that the sum of line 74 stays within 64 bits at both steps,
    also on integer columns).  If the trend table has a row for the current
    month and the car, the new competitor price is [max(0, price +
    Price_Trend - Competitor_Activity)] of the first such row and the new
    trend is its season; if it has none, the competitor price is unchanged
    and the trend is "stable".  In either case a non-negative competitor
    price stays non-negative. *)
Theorem exog_info_fn_prices_and_trends (self self' : CarDealerInventoryModel)
    (decision : option Decision.t) (table : DataFrame) (w : ExogInfo.t)
    (car : string) (cp : Q) :
  market_trends_df self = Some table ->
  exog_info_fn decision self = (Ok w, self') ->
  In car (keys (State.inventory_level (state self))) ->
  lookup (State.competitor_price (state self)) car = Some cp ->
  int64_safe cp ->
  (forall row,
     trend_row_for table (t self) car = Some row ->
     int64_safe (Price_Trend row) /\ int64_safe (Competitor_Activity row)) ->
  lookup (ExogInfo.competitor_prices w) car
  = Some (match trend_row_for table (t self) car with
          | Some row => py_max 0 (cp + Price_Trend row - Competitor_Activity row)%Q
          | None => cp
          end) /\
  lookup (ExogInfo.market_trends w) car
  = Some (match trend_row_for table (t self) car with
          | Some row => Season row
          | None => "stable"%string
          end) /\
  ((0 <= cp)%Q ->
   exists p, lookup (ExogInfo.competitor_prices w) car = Some p /\ (0 <= p)%Q) /\
  (forall row,
     trend_row_for table (t self) car = Some row ->
     (- inject_Z (2 ^ 63) <= cp + Price_Trend row)%Q /\
     (cp + Price_Trend row < inject_Z (2 ^ 63))%Q /\
     (- inject_Z (2 ^ 63) <= cp + Price_Trend row - Competitor_Activity row)%Q /\
     (cp + Price_Trend row - Competitor_Activity row < inject_Z (2 ^ 63))%Q).
Proof.
  intros Htab Hrun Hin Hcp Hsafe Hrow.
  destruct (exog_info_fn_inv _ _ _ _ _ Htab Hrun) as [l [Hp [Ht [HI _]]]].
  destruct (HI car cp Hin Hcp) as [H1 H2]. rewrite Hp, Ht.
  unfold exog_price_at in H1. unfold exog_trend_at in H2.
  split; [exact H1|]. split; [exact H2|]. split.
  - intro H0. eexists. split; [exact H1|].
    destruct (trend_row_for table (t self) car);
      [apply py_max_lower | exact H0].
  - intros row Hr. destruct (Hrow row Hr) as [Hpt Hca].
    now apply int64_safe_sum.
Qed.

(** X9. A call of [exog_info_fn] that returns has changed nothing of the
    model but the position of its random stream, and has consumed a number
    of variates fixed by the trend table, the month and the fleet alone: one
    for each car without a trend row and one plus the size of the fleet for
    each car with one (the demand of the whole fleet is drawn afresh at each
    such car). *)
Theorem exog_info_fn_draws (self self' : CarDealerInventoryModel)
    (decision : option Decision.t) (table : DataFrame) (w : ExogInfo.t) :
  market_trends_df self = Some table ->
  exog_info_fn decision self = (Ok w, self') ->
  self' = set_prng
            {| cursor := (cursor (prng self)
                          + draw_count table (t self)
                              (keys (State.inventory_level (state self))))%nat;
               variates := variates (prng self) |} self.
Proof.
  intros Htab Hrun.
  destruct (exog_info_fn_inv _ _ _ _ _ Htab Hrun) as [l [_ [_ [_ Hd]]]].
  exact Hd.
Qed.

(** ** [is_valid_decision]: which error comes first *)

Lemma total_raises_at_first_missing (s : State.t) (decision : Decision.t)
    (ks : list string) :
  (forall k, In k ks -> has_key (State.inventory_level s) k = true) ->
  (exists k, In k ks /\ has_key (Decision.restock decision) k = false) ->
  forall acc,
  exists pre k post,
    ks = pre ++ k :: post /\
    covers (Decision.restock decision) pre /\
    has_key (Decision.restock decision) k = false /\
    for_each ks
      (fun acc car =>
         x <- (level <- getitem (State.inventory_level s) car ;;
               r <- getitem (Decision.restock decision) car ;;
               Ok (inject_Z level + r)%Q) ;;
         Ok (acc + x)%Q) acc = Raise (KeyError k).
Proof.
  induction ks as [|k0 ks IH]; intros Hinv [k [Hin Hk]] acc; [destruct Hin|].
  destruct (has_key_lookup _ _ (Hinv k0 (or_introl eq_refl))) as [level Hl].
  destruct (has_key (Decision.restock decision) k0) eqn:E0.
  - destruct Hin as [->|Hin]; [congruence|].
    destruct (has_key_lookup _ _ E0) as [r Hr].
    destruct (IH (fun k' H => Hinv k' (or_intror H))
                (ex_intro _ k (conj Hin Hk)) (acc + (inject_Z level + r))%Q)
      as [pre [k1 [post [-> [Hpre [Hk1 Hrun]]]]]].
    exists (k0 :: pre), k1, post. split; [reflexivity|].
    split; [unfold covers in *; simpl; now rewrite E0, Hpre|].
    split; [exact Hk1|]. simpl.
    rewrite (getitem_ok _ _ _ Hl), (getitem_ok _ _ _ Hr). simpl. exact Hrun.
  - exists [], k0, ks. split; [reflexivity|]. split; [reflexivity|].
    split; [exact E0|]. simpl. rewrite (getitem_ok _ _ _ Hl). simpl.
    unfold getitem, has_key in *.
    destruct (lookup (Decision.restock decision) k0); [discriminate|].
    reflexivity.
Qed.

(** X10. The order of the checks of [is_valid_decision].  A decision with
    no restock entry for some tracked car raises [KeyError] for the first
    such car of the fleet, before any test (so even if another entry is
    negative).  A decision with an entry for every tracked car and a
    negative restock value raises the negative-restock [ValueError], whether
    or not the capacity is exceeded as well. *)
Theorem is_valid_decision_error_order (self : CarDealerInventoryModel)
    (decision : Decision.t) :
  let s := state self in
  ((exists car, In car (keys (State.inventory_level s)) /\
                has_key (Decision.restock decision) car = false) ->
   exists pre k post,
     keys (State.inventory_level s) = pre ++ k :: post /\
     covers (Decision.restock decision) pre /\
     has_key (Decision.restock decision) k = false /\
     fst (is_valid_decision decision self) = Raise (KeyError k)) /\
  (covers (Decision.restock decision) (keys (State.inventory_level s)) ->
   (exists value,
       In value (values (Decision.restock decision)) /\ (value < 0)%Q) ->
   fst (is_valid_decision decision self)
   = Raise (ValueError "Restocking values cannot be negative!")).
Proof.
  intro s. split.
  - intro Hmiss.
    destruct (total_raises_at_first_missing s decision
                (keys (State.inventory_level s))
                (fun k H => proj2 (has_key_in _ _) H) Hmiss 0%Q)
      as [pre [k [post [Hks [Hpre [Hk Hrun]]]]]].
    exists pre, k, post. repeat split; try assumption.
    unfold is_valid_decision, mbind, mget, lift, sum_over. simpl. fold s.
    rewrite Hrun. reflexivity.
  - intros Hcov [v [Hin Hv]].
    unfold is_valid_decision, mbind, mget, lift, mraise. simpl. fold s.
    rewrite (is_valid_decision_total s decision Hcov). simpl.
    assert (Hneg : existsb (fun value => Qltb value 0)
                     (values (Decision.restock decision)) = true).
    { apply existsb_exists. exists v. split; [exact Hin | now apply Qltb_lt]. }
    rewrite Hneg. reflexivity.
Qed.

(** ** The forecast-adaptive policy: bounds and the omitted argument *)

Lemma py_max_0_cases (x : Q) :
  (py_max 0 x = 0%Q /\ (x <= 0)%Q) \/ (py_max 0 x = x /\ (0 < x)%Q).
Proof.
  unfold py_max. destruct (Qltb 0 x) eqn:E.
  - right. split; [reflexivity | now apply Qltb_lt].
  - left. split; [reflexivity | now apply Qltb_ge].
Qed.

Lemma order_up_to_bounds (z : Z) (b : Q) :
  let q := py_max 0 (py_min (inject_Z z) b) in
  (0 <= q)%Q /\ (q <= inject_Z (Z.max 0 z))%Q.
Proof.
  intro q. split; [apply py_max_lower|]. unfold q.
  destruct (py_max_0_cases (py_min (inject_Z z) b)) as [[-> _]|[-> _]].
  - change 0%Q with (inject_Z 0). rewrite <- Zle_Qle. lia.
  - eapply Qle_trans; [apply py_min_le_l|]. rewrite <- Zle_Qle. lia.
Qed.

(** The shape of a decision of the forecast-adaptive policy. *)
Lemma order_up_to_policy_shape (self : CarDealerPolicy)
    (theta_min theta_max : dict Z) (w : option ExogInfo.t)
    (decision : Decision.t) :
  let s := state (model self) in
  wf_dict (State.inventory_level s) ->
  basic_order_up_to_policy self theta_min theta_max w = Ok decision ->
  keys (Decision.restock decision) = keys (State.inventory_level s) /\
  keys (Decision.price decision) = keys (State.inventory_level s) /\
  keys (Decision.discount decision) = keys (State.inventory_level s) /\
  forall car level hi,
    lookup (State.inventory_level s) car = Some level ->
    lookup theta_max car = Some hi ->
    exists r,
      lookup (Decision.restock decision) car = Some r /\
      (0 <= r)%Q /\ (inject_Z level + r <= inject_Z (Z.max level hi))%Q.
Proof.
  intros s Hwf Hrun. unfold basic_order_up_to_policy in Hrun. fold s in Hrun.
  destruct (for_each _ _ _) as [restock|e] eqn:Hrestock; simpl in Hrun;
    [|discriminate].
  destruct (dict_comp _ _) as [price|e] eqn:Hprice; simpl in Hrun;
    [|discriminate].
  destruct (dict_comp _ (fun _ => Ok 0%Q)) as [discount|e] eqn:Hdiscount;
    simpl in Hrun; [|discriminate].
  injection Hrun as <-. simpl.
  destruct (for_each_build fst id
              (fun (item : string * Z) q =>
                 exists hi, lookup theta_max (fst item) = Some hi /\
                            (0 <= q)%Q /\
                            (q <= inject_Z (Z.max 0 (hi - snd item)))%Q)
              (order_up_to_body self theta_max w))
    with (xs := State.inventory_level s) (s := @nil (string * Q))
         (s' := restock) as [qs [HF Hr]].
  { intros r0 item r1. unfold order_up_to_body.
    destruct (getitem _ _); simpl; [|discriminate].
    destruct (safety_buffer_of _); simpl; [|discriminate].
    destruct w as [w0|]; simpl; [|discriminate].
    destruct (getitem _ _); simpl; [|discriminate].
    unfold getitem.
    destruct (lookup theta_max (fst item)) as [hi|] eqn:Hhi; simpl;
      [|discriminate].
    intros [= <-]. eexists. split; [|reflexivity].
    exists hi. split; [reflexivity|]. apply order_up_to_bounds. }
  { exact Hwf. }
  { reflexivity. }
  { exact Hrestock. }
  unfold id in Hr. simpl in Hr.
  split; [rewrite Hr; apply Forall2_length in HF;
          apply (keys_combine (map fst (State.inventory_level s)));
          now rewrite length_map|].
  split; [exact (dict_comp_keys_eq _ _ _ Hwf Hprice)|].
  split; [exact (dict_comp_keys_eq _ _ _ Hwf Hdiscount)|].
  intros car level hi Hl Hhi.
  destruct (lookup_combine_R fst _ _ _ HF Hwf (car, level) (lookup_in _ _ _ Hl))
    as [r [[hi' [Hhi' [H0 Hle]]] Hlr]].
  simpl in Hhi', Hle, Hlr. rewrite Hhi in Hhi'. injection Hhi' as <-.
  exists r. rewrite Hr. split; [exact Hlr|]. split; [exact H0|].
  apply Qle_trans with (y := (inject_Z level + inject_Z (Z.max 0 (hi - level)))%Q).
  - apply Qplus_le_compat; [apply Qle_refl | exact Hle].
  - rewrite <- inject_Z_plus, <- Zle_Qle. lia.
Qed.

(** X11. The forecast-adaptive policy orders up to the maximum threshold
    and no further.  Whenever it returns, its three mappings have exactly
    the fleet's keys, and for every tracked car the restock is between 0 and
    [max(0, theta_max - level)]: the level after restocking does not exceed
    [max(level, theta_max)]. *)
Theorem basic_order_up_to_policy_bounds (self : CarDealerPolicy)
    (theta_min theta_max : dict Z) (w : option ExogInfo.t)
    (decision : Decision.t) :
  let s := state (model self) in
  wf_dict (State.inventory_level s) ->
  basic_order_up_to_policy self theta_min theta_max w = Ok decision ->
  keys (Decision.restock decision) = keys (State.inventory_level s) /\
  keys (Decision.price decision) = keys (State.inventory_level s) /\
  keys (Decision.discount decision) = keys (State.inventory_level s) /\
  forall car level hi,
    lookup (State.inventory_level s) car = Some level ->
    lookup theta_max car = Some hi ->
    exists r,
      lookup (Decision.restock decision) car = Some r /\
      (0 <= r)%Q /\ (inject_Z level + r <= inject_Z (Z.max level hi))%Q.
Proof. exact (order_up_to_policy_shape self theta_min theta_max w decision). Qed.

(** X12. The default [exog_info=None] is unusable: called without
    exogenous information the policy raises for every non-empty fleet
    (the first car fails, at its variance or at [exog_info["demand"]]),
    and returns the empty decision for the empty fleet. *)
Theorem basic_order_up_to_policy_without_exog (self : CarDealerPolicy)
    (theta_min theta_max : dict Z) :
  let s := state (model self) in
  (State.inventory_level s <> [] ->
   exists e,
     basic_order_up_to_policy self theta_min theta_max None = Raise e) /\
  (State.inventory_level s = [] ->
   basic_order_up_to_policy self theta_min theta_max None
   = Ok {| Decision.restock := []; Decision.price := [];
           Decision.discount := [] |}).
Proof.
  intro s. unfold basic_order_up_to_policy. fold s. split.
  - destruct (State.inventory_level s) as [|[car level] rest];
      [congruence|]. intros _. simpl. unfold order_up_to_body. simpl.
    destruct (getitem _ car) as [v|e]; simpl; [|eauto].
    destruct (safety_buffer_of v); simpl; eauto.
  - intros ->. reflexivity.
Qed.

(** ** The threshold policy: its decisions pass validation *)

Lemma thresholds_ordered (s : State.t) (t : Z) (car : string) (lo hi : Z) :
  lookup (fst (thresholds s t)) car = Some lo ->
  lookup (snd (thresholds s t)) car = Some hi ->
  lo <= hi.
Proof.
  unfold thresholds, dict_eq_str.
  destruct (existsb (Z.eqb (t mod 12)) [9; 10; 11; 0; 1]); simpl;
    destruct (String.eqb car "Car A"); try (intros [= <-] [= <-]; lia);
    destruct (String.eqb car "Car B"); try (intros [= <-] [= <-]; lia);
    destruct (String.eqb car "Car C"); try (intros [= <-] [= <-]; lia);
    discriminate.
Qed.

(** The loop of [get_decision] on thresholds with [theta_min <= theta_max],
    started with capacity to spare: it hands out non-negative quantities
    that sum to what it took off the capacity, and never more than there
    was. *)
Lemma restock_loop_valid (inventory theta_min theta_max : dict Z) :
  (forall car lo hi,
     lookup theta_min car = Some lo -> lookup theta_max car = Some hi ->
     lo <= hi) ->
  forall xs acc avail r avail',
  nodupb xs = true ->
  (forall k, In k xs -> has_key acc k = false) ->
  0 <= avail ->
  for_each xs (restock_body inventory theta_min theta_max) (acc, avail)
  = Ok (r, avail') ->
  exists vs,
    r = acc ++ combine xs vs /\ List.length xs = List.length vs /\
    Forall (fun v => 0 <= v) vs /\
    sumZ vs = avail - avail' /\ 0 <= avail'.
Proof.
  intros Hord. induction xs as [|car xs IH]; simpl;
    intros acc avail r avail' Hnd Hfr Ha Hrun.
  - injection Hrun as <- <-. exists []. rewrite app_nil_r.
    repeat split; [constructor | unfold sumZ; simpl; lia | exact Ha].
  - apply andb_true_iff in Hnd. destruct Hnd as [Hc Hnd].
    apply negb_true_iff in Hc.
    destruct (restock_body inventory theta_min theta_max (acc, avail) car)
      as [[acc1 avail1]|e] eqn:Hb; simpl in Hrun; [|discriminate].
    assert (Hstep : exists v, acc1 = setitem acc car v /\ 0 <= v /\
                              avail1 = avail - v /\ 0 <= avail1).
    { unfold restock_body, getitem in Hb. simpl in Hb.
      destruct (lookup inventory car) as [level|]; simpl in Hb; [|discriminate].
      destruct (lookup theta_min car) as [lo|] eqn:Hlo; simpl in Hb;
        [|discriminate].
      destruct (level <? lo) eqn:E.
      - destruct (lookup theta_max car) as [hi|] eqn:Hhi; simpl in Hb;
          [|discriminate].
        injection Hb as <- <-. apply Z.ltb_lt in E.
        specialize (Hord car lo hi Hlo Hhi).
        eexists. split; [reflexivity|]. lia.
      - injection Hb as <- <-. exists 0. split; [reflexivity|]. lia. }
    destruct Hstep as [v [-> [Hv [-> Ha1]]]].
    destruct (IH (setitem acc car v) (avail - v) r avail' Hnd)
      as [vs [-> [Hlen [Hvs [Hsum Ha']]]]]; [| exact Ha1 | exact Hrun |].
    { intros k Hk. rewrite has_key_setitem, (Hfr k) by now right.
      rewrite orb_false_r.
      destruct (String.eqb k car) eqn:E; [|reflexivity].
      apply String.eqb_eq in E. subst k.
      apply existsb_eqb_in in Hk. congruence. }
    exists (v :: vs). rewrite setitem_fresh by (apply Hfr; now left).
    rewrite <- app_assoc. simpl.
    repeat split; [now rewrite Hlen | now constructor | | exact Ha'].
    rewrite sumZ_cons. lia.
Qed.

Lemma combine_keys_values {V} (d : dict V) : combine (keys d) (values d) = d.
Proof.
  unfold keys, values. induction d as [|[k v] d IH]; simpl;
    [reflexivity | now rewrite IH].
Qed.

Lemma get_own_keys (d : dict Z) :
  wf_dict d -> map (fun k => get d k 0) (keys d) = values d.
Proof.
  intro Hwf.
  pose proof (get_combine_prefix (keys d) [] (values d) []) as H.
  rewrite !app_nil_r, combine_keys_values in H. apply H.
  - exact Hwf.
  - unfold keys, values. now rewrite !length_map.
Qed.

Lemma get_combine_all (ks : list string) (vs : list Z) :
  nodupb ks = true -> List.length ks = List.length vs ->
  map (fun k => get (combine ks vs) k 0) ks = vs.
Proof.
  intros Hnd Hlen.
  pose proof (get_combine_prefix ks [] vs []) as H.
  rewrite !app_nil_r in H. now apply H.
Qed.

Lemma sumQ_inject_pairs (a b : string -> Z) (ks : list string) :
  (sumQ (map (fun k => inject_Z (a k) + inject_Z (b k)) ks)
   == inject_Z (sumZ (map a ks) + sumZ (map b ks)))%Q.
Proof.
  unfold sumQ.
  assert (G : forall z,
             (fold_left Qplus
                (map (fun k => inject_Z (a k) + inject_Z (b k)) ks)
                (inject_Z z)
              == inject_Z (z + sumZ (map a ks) + sumZ (map b ks)))%Q).
  { induction ks as [|k ks IH]; intro z; simpl.
    - unfold sumZ. simpl. now rewrite !Z.add_0_r.
    - rewrite <- !inject_Z_plus, IH, !sumZ_cons.
      apply inject_Z_injective. lia. }
  rewrite (G 0). apply inject_Z_injective. lia.
Qed.

(** X13. The threshold policy respects the capacity it reads.  If the lot
    is within capacity ([sum(inventory) <= max_inventory]), every decision
    [get_decision] returns passes [is_valid_decision] on a model in that
    state: no restock is negative and the total after restocking is within
    capacity. *)
Theorem get_decision_is_valid (self : SDPPolicy) (s : State.t) (t T : Z)
    (decision : Decision.t) :
  wf_dict (State.inventory_level s) ->
  sumZ (values (State.inventory_level s)) <= max_inventory (sdp_model self) ->
  get_decision self s t T = Ok decision ->
  fst (is_valid_decision decision (set_state s (sdp_model self))) = Ok true.
Proof.
  intros Hwf Hcap Hrun. unfold get_decision in Hrun.
  rewrite (surjective_pairing (thresholds s t)) in Hrun.
  destruct (restock_levels _ _ _ _) as [restock|e] eqn:Hr; simpl in Hrun;
    [|discriminate].
  destruct (dict_comp _ _) as [price|e]; simpl in Hrun; [|discriminate].
  destruct (dict_comp _ _) as [discount|e]; simpl in Hrun; [|discriminate].
  injection Hrun as <-.
  unfold restock_levels in Hr. cbv zeta in Hr.
  destruct (for_each _ _ _) as [[r avail']|e] eqn:Hloop; simpl in Hr;
    [|discriminate].
  injection Hr as ->.
  destruct (restock_loop_valid (State.inventory_level s)
              (fst (thresholds s t)) (snd (thresholds s t))
              (thresholds_ordered s t)
              (keys (State.inventory_level s)) []
              (max_inventory (sdp_model self)
               - sumZ (values (State.inventory_level s)))
              restock avail' Hwf
              ltac:(intros; reflexivity) ltac:(lia) Hloop)
    as [vs [-> [Hlen [Hvs [Hsum Ha']]]]].
  simpl app.
  set (ks := keys (State.inventory_level s)) in *.
  unfold is_valid_decision, mbind, mget, lift, mraise, mret. simpl.
  fold ks.
  rewrite (sum_over_map _
             (fun k => (inject_Z (get (State.inventory_level s) k 0%Z)
                        + inject_Z (get (combine ks vs) k 0%Z))%Q)).
  2:{ intros k Hk.
      assert (Hk' : In k (keys (combine ks vs)))
        by (rewrite keys_combine; assumption).
      apply has_key_in, has_key_lookup in Hk. destruct Hk as [level Hl].
      apply has_key_in, has_key_lookup in Hk'. destruct Hk' as [v Hv].
      rewrite (getitem_ok _ _ _ Hl). simpl.
      unfold getitem. rewrite lookup_promote, Hv. simpl.
      rewrite (get_lookup _ _ _ _ Hl), (get_lookup _ _ _ _ Hv). reflexivity. }
  simpl.
  assert (Hneg : existsb (fun value => Qltb value 0)
                   (values (promote (combine ks vs))) = false).
  { destruct (existsb _ _) eqn:E; [|reflexivity].
    apply existsb_exists in E. destruct E as [q [Hin Hq]].
    unfold values, promote in Hin. rewrite map_map in Hin. simpl in Hin.
    apply in_map_iff in Hin. destruct Hin as [[k v] [<- Hin]].
    apply in_combine_r in Hin. rewrite Forall_forall in Hvs.
    specialize (Hvs v Hin). apply Qltb_lt in Hq. simpl in Hq.
    exfalso. apply (Qlt_not_le _ _ Hq).
    change 0%Q with (inject_Z 0). now rewrite <- Zle_Qle. }
  rewrite Hneg.
  match goal with
  | |- context [Qltb ?a ?b] =>
      assert (Hle : Qltb a b = false)
  end.
  { apply Qltb_ge. rewrite sumQ_inject_pairs. unfold ks in *.
    rewrite (get_own_keys _ Hwf), (get_combine_all _ vs Hwf Hlen).
    rewrite <- Zle_Qle. lia. }
  rewrite Hle. reflexivity.
Qed.

(** X14. Price and discount of the threshold policy.  Whenever
    [get_decision] returns, a tracked car with competitor price [cp] and
    holding time [h] is priced at [cp - 100] if [h > 10] and [cp - 50]
    otherwise, and gets the model's discount rate if [h > 30] and no
    discount otherwise: a discount is only ever given on top of the larger
    price cut. *)
Theorem get_decision_price_and_discount (self : SDPPolicy) (s : State.t)
    (t T : Z) (decision : Decision.t) (car : string) (level h : Z) (cp : Q) :
  wf_dict (State.inventory_level s) ->
  get_decision self s t T = Ok decision ->
  lookup (State.inventory_level s) car = Some level ->
  lookup (State.competitor_price s) car = Some cp ->
  lookup (State.holding_time s) car = Some h ->
  lookup (Decision.price decision) car
  = Some (cp - (if 10 <? h then 100 else 50))%Q /\
  lookup (Decision.discount decision) car
  = Some (if 30 <? h then discount_rate (sdp_model self) else 0%Q) /\
  (30 < h ->
   lookup (Decision.price decision) car = Some (cp - 100)%Q /\
   lookup (Decision.discount decision) car
   = Some (discount_rate (sdp_model self))).
Proof.
  intros Hwf Hrun Hl Hcp Hh. unfold get_decision in Hrun.
  rewrite (surjective_pairing (thresholds s t)) in Hrun.
  destruct (restock_levels _ _ _ _) as [restock|e]; simpl in Hrun;
    [|discriminate].
  destruct (dict_comp _ _) as [price|e] eqn:Hprice; simpl in Hrun;
    [|discriminate].
  destruct (dict_comp _ _) as [discount|e] eqn:Hdiscount in Hrun;
    simpl in Hrun; [|discriminate].
  injection Hrun as <-. simpl.
  assert (Hin : In car (keys (State.inventory_level s))).
  { apply has_key_in. eapply lookup_has_key, Hl. }
  destruct (dict_comp_lookup _ _ _ car Hwf Hprice Hin) as [p [Hp Hlp]].
  destruct (dict_comp_lookup _ _ _ car Hwf Hdiscount Hin) as [c [Hc Hlc]].
  rewrite (getitem_ok _ _ _ Hcp), (getitem_ok _ _ _ Hh) in Hp. simpl in Hp.
  rewrite (getitem_ok _ _ _ Hh) in Hc. simpl in Hc.
  injection Hp as <-. injection Hc as <-.
  split; [exact Hlp|]. split; [exact Hlc|].
  intro H30. rewrite Hlp, Hlc.
  assert (E10 : (10 <? h) = true) by (apply Z.ltb_lt; lia).
  assert (E30 : (30 <? h) = true) by (apply Z.ltb_lt; lia).
  now rewrite E10, E30.
Qed.

(** X15. The threshold policy is seasonal with a period of twelve steps
    and does not look at the horizon: its decision at [t + 12 * k] with any
    horizon is its decision at [t]. *)
Theorem get_decision_periodic (self : SDPPolicy) (s : State.t)
    (t T T' k : Z) :
  get_decision self s (t + 12 * k) T' = get_decision self s t T.
Proof.
  unfold get_decision, thresholds.
  replace ((t + 12 * k) mod 12) with (t mod 12);
    [reflexivity|].
  rewrite (Z.mul_comm 12 k). symmetry. apply Z.mod_add. lia.
Qed.

(** ** The runner of [policy.py] *)

(** What one turn of the loop leaves as it was, and what it records. *)
Lemma run_policy_step_frame (self : CarDealerPolicy) (policy_fn : PolicyFn)
    (theta_min theta_max : dict Z) (i : Z)
    (m m' : CarDealerInventoryModel) (row : ResultRow) :
  run_policy_step self policy_fn theta_min theta_max i m = (Ok row, m') ->
  t m' = t m /\ T m' = T m /\
  r_t row = i /\
  r_state_before row = state m /\
  state m' = State_of (r_state_after row) /\
  r_objective row = (objective m + r_profit row)%Q /\
  objective m' = r_objective row.
Proof.
  unfold run_policy_step. unfold mbind at 1.
  pose proof (exog_info_fn_frame None m) as [g Hg].
  destruct (exog_info_fn None m) as [[w|e] m1] eqn:Hw; [|discriminate].
  simpl in Hg. subst m1.
  unfold mbind at 1. unfold lift at 1.
  destruct (policy_fn theta_min theta_max (Some w)) as [d|e]; [|discriminate].
  unfold mbind at 1. unfold reads at 1.
  unfold mbind at 1. unfold reads at 1.
  destruct (transition_fn _ d w) as [ts|e]; [|discriminate].
  unfold mbind at 1. unfold mmodify at 1.
  unfold mbind at 1. unfold reads at 1.
  destruct (objective_fn _ d w) as [p|e]; [|discriminate].
  unfold mbind at 1. unfold mmodify at 1.
  unfold mbind at 1. unfold mget at 1.
  unfold mbind at 1. unfold lift at 1.
  destruct (sum_over _ _) as [revenue|e]; [|discriminate].
  unfold mbind at 1. unfold lift at 1.
  destruct (sum_over _ _) as [restocking|e]; [|discriminate].
  unfold mbind at 1. unfold lift at 1.
  destruct (dict_comp _ _) as [unsold|e]; [|discriminate].
  unfold mbind at 1. unfold lift at 1.
  destruct (sum_over _ _) as [holding|e]; [|discriminate].
  unfold mret. intros [= <- <-]. simpl. repeat split; reflexivity.
Qed.

Lemma run_policy_loop_rows (self : CarDealerPolicy) (policy_fn : PolicyFn)
    (theta_min theta_max : dict Z) (rng : list Z) :
  forall acc m rows m',
  t m < T m ->
  run_policy_loop self policy_fn theta_min theta_max rng acc m = (Ok rows, m') ->
  exists new,
    rows = acc ++ new /\ map r_t new = rng /\
    rows_chained (state m) (objective m) new /\
    state m' = final_state (state m) new /\
    objective m' = fold_left Qplus (map r_profit new) (objective m) /\
    t m' = t m /\ T m' = T m.
Proof.
  induction rng as [|i rng IH]; simpl; intros acc m rows m' Hlt Hrun.
  - injection Hrun as <- <-. exists []. rewrite app_nil_r.
    repeat split; reflexivity.
  - unfold mbind at 1 in Hrun. unfold mget in Hrun.
    assert (E : (T m <=? t m) = false) by (apply Z.leb_gt; exact Hlt).
    rewrite E in Hrun. unfold mbind at 1 in Hrun.
    destruct (run_policy_step self policy_fn theta_min theta_max i m)
      as [[row|e] m1] eqn:Hstep; [|discriminate].
    destruct (run_policy_step_frame _ _ _ _ _ _ _ _ Hstep)
      as [Ht [HT [Hi [Hb [Hs [Ho Ho']]]]]].
    destruct (IH (acc ++ [row]) m1 rows m') as
      [new [-> [Hmap [Hch [Hfs [Hfo [Ht' HT']]]]]]];
      [rewrite Ht, HT; exact Hlt | exact Hrun |].
    exists (row :: new). rewrite <- app_assoc. simpl.
    split; [reflexivity|]. split; [now rewrite Hi, Hmap|].
    split; [|split; [|split; [|split]]].
    + split; [exact Hb|]. split; [exact Ho|].
      now rewrite <- Hs, <- Ho'.
    + unfold final_state in *. simpl. now rewrite Hfs, Hs.
    + now rewrite Hfo, Ho', Ho.
    + now rewrite Ht'.
    + now rewrite HT'.
Qed.

(** X16. The runner never advances the time index, so its horizon test
    either stops it at once or never.  On a model that has reached its
    horizon [run_policy] returns no row and leaves the model as it is,
    whatever [n_iterations]; on a model that has not, a run that returns has
    made exactly [n_iterations] rows, numbered [0 .. n_iterations - 1], each
    starting from the state the previous one ended in, the final objective is
    the initial one plus the profits of the rows, and the time index is
    still what it was. *)
Theorem run_policy_rows (self : CarDealerPolicy) (policy_fn : PolicyFn)
    (n_iterations : Z) (theta_min theta_max : dict Z) :
  (T (model self) <= t (model self) ->
   run_policy self policy_fn n_iterations theta_min theta_max
   = (Ok [], model self)) /\
  (t (model self) < T (model self) ->
   forall rows m',
     run_policy self policy_fn n_iterations theta_min theta_max
     = (Ok rows, m') ->
     map r_t rows = range n_iterations /\
     rows_chained (state (model self)) (objective (model self)) rows /\
     state m' = final_state (state (model self)) rows /\
     objective m'
     = fold_left Qplus (map r_profit rows) (objective (model self)) /\
     t m' = t (model self)).
Proof.
  unfold run_policy. split.
  - intro Hfin. destruct (range n_iterations) as [|i rng]; [reflexivity|].
    simpl. unfold mbind, mget, mret.
    apply Z.leb_le in Hfin. now rewrite Hfin.
  - intros Hlt rows m' Hrun.
    destruct (run_policy_loop_rows _ _ _ _ _ _ _ _ _ Hlt Hrun)
      as [new [-> [Hmap [Hch [Hfs [Hfo [Ht _]]]]]]].
    simpl. repeat split; assumption.
Qed.

(** ** [policy_util.py] *)

(** X17. [pricing_decision] returns a non-negative price and a
    non-negative discount, and the discount is exactly what the price falls
    short of the competitor's: price plus discount is the larger of the price
    and the competitor price. *)
Theorem pricing_decision_spec (base_price competitor_price trend_factor : Q) :
  let price := fst (pricing_decision base_price competitor_price trend_factor) in
  let discount := snd (pricing_decision base_price competitor_price trend_factor) in
  (0 <= price)%Q /\ (0 <= discount)%Q /\
  (price + discount == py_max price competitor_price)%Q.
Proof.
  unfold pricing_decision. simpl.
  set (price := py_max 0 (base_price - 50 * trend_factor)).
  split; [apply py_max_lower|]. split; [apply py_max_lower|].
  destruct (py_max_0_cases (competitor_price - price)) as [[-> Hle]|[-> Hlt]].
  - unfold py_max. replace (Qltb price competitor_price) with false.
    + apply Qplus_0_r.
    + symmetry. apply Qltb_ge.
      apply Qplus_le_l with (z := (- price)%Q).
      rewrite Qplus_opp_r. exact Hle.
  - unfold py_max. replace (Qltb price competitor_price) with true.
    + ring.
    + symmetry. apply Qltb_lt.
      apply Qplus_lt_l with (z := (- price)%Q).
      rewrite Qplus_opp_r. exact Hlt.
Qed.

(** X18. The helper [basic_order_up_to_policy_util] raises on a negative
    variance or a car missing from one of its tables; whenever it returns,
    its restock mapping has exactly the keys of the inventory and every
    quantity is between 0 and [max(0, theta_max - level)]. *)
Theorem basic_order_up_to_policy_util_bounds
    (inventory theta_min theta_max : dict Z)
    (demand_forecast trend_factors : dict Q) (variance_demand : dict Z)
    (restock : dict Q) :
  wf_dict inventory ->
  basic_order_up_to_policy_util inventory theta_min theta_max demand_forecast
    trend_factors variance_demand = Ok restock ->
  keys restock = keys inventory /\
  forall car level,
    lookup inventory car = Some level ->
    exists v hi tf f r,
      lookup variance_demand car = Some v /\ 0 <= v /\
      lookup theta_max car = Some hi /\
      lookup trend_factors car = Some tf /\
      lookup demand_forecast car = Some f /\
      lookup restock car = Some r /\
      (0 <= r)%Q /\ (r <= inject_Z (Z.max 0 (hi - level)))%Q.
Proof.
  intros Hwf Hrun. unfold basic_order_up_to_policy_util in Hrun.
  set (entry := fun (item : string * Z) (q : Q) =>
         exists v hi tf f,
           lookup variance_demand (fst item) = Some v /\ 0 <= v /\
           lookup theta_max (fst item) = Some hi /\
           lookup trend_factors (fst item) = Some tf /\
           lookup demand_forecast (fst item) = Some f /\
           (0 <= q)%Q /\ (q <= inject_Z (Z.max 0 (hi - snd item)))%Q).
  destruct (for_each_build fst id entry
              (fun restock item =>
                 let car := fst item in
                 let level := snd item in
                 v <- getitem variance_demand car ;;
                 safety_buffer <- safety_buffer_of v ;;
                 hi <- getitem theta_max car ;;
                 tf <- getitem trend_factors car ;;
                 f <- getitem demand_forecast car ;;
                 Ok (setitem restock car
                       (py_max 0 (py_min (inject_Z (hi - level))
                                    (tf * (f + inject_Z safety_buffer)))%Q))))
    with (xs := inventory) (s := @nil (string * Q)) (s' := restock)
    as [qs [HF Hr]].
  - intros r0 item r1. cbv zeta. unfold getitem.
    destruct (lookup variance_demand (fst item)) as [v0|] eqn:E1; simpl;
      [|discriminate].
    destruct (safety_buffer_of v0) as [b|e] eqn:E2; simpl; [|discriminate].
    destruct (lookup theta_max (fst item)) as [hi0|] eqn:E3; simpl;
      [|discriminate].
    destruct (lookup trend_factors (fst item)) as [tf0|] eqn:E4; simpl;
      [|discriminate].
    destruct (lookup demand_forecast (fst item)) as [f0|] eqn:E5; simpl;
      [|discriminate].
    intros [= <-]. apply safety_buffer_of_inv in E2. destruct E2 as [Hv0 ->].
    eexists. split; [|reflexivity].
    exists v0, hi0, tf0, f0.
    repeat (split; [assumption|]). apply order_up_to_bounds.
  - exact Hwf.
  - reflexivity.
  - exact Hrun.
  - unfold id in Hr. simpl in Hr. split.
    + rewrite Hr. apply Forall2_length in HF.
      apply (keys_combine (map fst inventory)). now rewrite length_map.
    + intros car level Hl.
      destruct (lookup_combine_R fst entry _ _ HF Hwf (car, level)
                  (lookup_in _ _ _ Hl))
        as [q [[v [hi [tf [f [Hv [Hv0 [Hhi [Htf [Hf [H0 Hle]]]]]]]]]] Hq]].
      simpl in *. exists v, hi, tf, f, q. rewrite Hr.
      repeat (split; [assumption|]). exact Hle.
Qed.

(** ** The runner's log *)

Lemma sum_over_transfer (f g : string -> result Q) (ks : list string) (x : Q) :
  sum_over ks f = Ok x ->
  (forall k y, In k ks -> f k = Ok y -> g k = Ok y) ->
  sum_over ks g = Ok x.
Proof.
  unfold sum_over. generalize 0%Q.
  induction ks as [|k ks IH]; simpl; intros acc Hf H; [exact Hf|].
  destruct (f k) as [y|e] eqn:Hk; simpl in Hf; [|discriminate].
  rewrite (H k y (or_introl eq_refl) Hk). simpl.
  apply IH; [exact Hf|]. intros k' y' Hin. apply H. now right.
Qed.

(** One turn of the loop: the logged revenue, restocking cost and holding
    cost against the profit of the step. *)
(** Case analysis on the result the goal's outermost [match] inspects. *)
Ltac head_result a H :=
  match goal with
  | |- match ?x with Ok _ => _ | Raise _ => _ end = _ -> _ =>
      destruct x as [a|?] eqn:H; [|discriminate]
  end.

Lemma run_policy_step_log (self : CarDealerPolicy) (policy_fn : PolicyFn)
    (theta_min theta_max : dict Z) (i : Z)
    (m m' : CarDealerInventoryModel) (row : ResultRow) :
  run_policy_step self policy_fn theta_min theta_max i m = (Ok row, m') ->
  holding_cost m = holding_cost (model self) ->
  (holding_cost m' = holding_cost m /\
   seasonal_holding_cost m' = seasonal_holding_cost m) /\
  (no_seasonal_rate (seasonal_holding_cost m) row -> row_adds_up row).
Proof.
  unfold run_policy_step. unfold mbind at 1.
  pose proof (exog_info_fn_frame None m) as [g Hg].
  destruct (exog_info_fn None m) as [[w|e] m1] eqn:Hw; [|discriminate].
  simpl in Hg. subst m1.
  unfold mbind at 1. unfold lift at 1.
  destruct (policy_fn theta_min theta_max (Some w)) as [d|e]; [|discriminate].
  unfold mbind at 1. unfold reads at 1.
  unfold mbind at 1. unfold reads at 1.
  destruct (transition_fn _ d w) as [ts|e] eqn:Hts; [|discriminate].
  unfold mbind at 1. unfold mmodify at 1.
  unfold mbind at 1. unfold reads at 1.
  destruct (objective_fn _ d w) as [p|e] eqn:Hp; [|discriminate].
  unfold mbind at 1. unfold mmodify at 1.
  unfold mbind at 1. unfold mget at 1.
  unfold mbind at 1. unfold lift at 1.
  head_result revenue Hrev.
  unfold mbind at 1. unfold lift at 1.
  head_result restocking Hrc.
  unfold mbind at 1. unfold lift at 1.
  head_result unsold Hun.
  unfold mbind at 1. unfold lift at 1.
  head_result holding Hhold.
  unfold mret. intros [= <- <-] Hhc. simpl.
  split; [split; reflexivity|].
  unfold no_seasonal_rate, row_adds_up. simpl. intro Hns.
  unfold objective_fn in Hp. simpl in Hp, Hrev, Hrc, Hun, Hhold.
  rewrite Hrev in Hp. simpl in Hp. rewrite Hrc in Hp. simpl in Hp.
  rewrite Hun in Hp. simpl in Hp.
  destruct (sum_over (keys unsold) _) as [hs|e] eqn:Hhs in Hp;
    simpl in Hp; [|discriminate].
  injection Hp as <-.
  assert (E : Ok hs = Ok holding); [|now injection E as ->].
  rewrite <- Hhold. symmetry.
  apply (sum_over_transfer _ _ _ _ Hhs).
  intros k y _.
  destruct (getitem unsold k) as [u|e]; simpl; [|discriminate].
  destruct (getitem (Transition.holding_time ts) k) as [h|e]; simpl;
    [|discriminate].
  unfold getitem.
  destruct (lookup (ExogInfo.market_trends w) k) as [trend|] eqn:Htr;
    simpl; [|discriminate].
  assert (Hw' : Transition.market_trends ts = ExogInfo.market_trends w).
  { unfold transition_fn in Hts.
    destruct (for_each _ _ _) in Hts; simpl in Hts; [|discriminate].
    destruct (dict_comp _ _) in Hts; simpl in Hts; [|discriminate].
    destruct (dict_comp _ _) in Hts; simpl in Hts; [|discriminate].
    now injection Hts as <-. }
  rewrite <- Hw' in Htr. specialize (Hns k trend Htr).
  unfold get. rewrite Hns, Hhc. tauto.
Qed.

Lemma run_policy_loop_log (self : CarDealerPolicy) (policy_fn : PolicyFn)
    (theta_min theta_max : dict Z) (rng : list Z) :
  forall acc m rows m',
  holding_cost m = holding_cost (model self) ->
  seasonal_holding_cost m = seasonal_holding_cost (model self) ->
  run_policy_loop self policy_fn theta_min theta_max rng acc m = (Ok rows, m') ->
  exists new,
    rows = acc ++ new /\
    Forall (fun row =>
              no_seasonal_rate (seasonal_holding_cost (model self)) row ->
              row_adds_up row) new.
Proof.
  induction rng as [|i rng IH]; simpl; intros acc m rows m' Hhc Hsc Hrun.
  - injection Hrun as <- <-. exists []. rewrite app_nil_r.
    split; [reflexivity | constructor].
  - unfold mbind at 1 in Hrun. unfold mget in Hrun.
    destruct (T m <=? t m).
    + injection Hrun as <- <-. exists []. rewrite app_nil_r.
      split; [reflexivity | constructor].
    + unfold mbind at 1 in Hrun.
      destruct (run_policy_step self policy_fn theta_min theta_max i m)
        as [[row|e] m1] eqn:Hstep; [|discriminate].
      destruct (run_policy_step_log _ _ _ _ _ _ _ _ Hstep Hhc)
        as [[Hhc1 Hsc1] Hrow].
      destruct (IH (acc ++ [row]) m1 rows m') as [new [-> HF]];
        [congruence | congruence | exact Hrun |].
      exists (row :: new). rewrite <- app_assoc. split; [reflexivity|].
      constructor; [|exact HF]. rewrite <- Hsc. exact Hrow.
Qed.

(** X19. The log of a run against its profits.  In every row of a run, if
    the new trends of the step are ASCII strings and none of them has a
    seasonal holding rate (as with the fallback trend "stable" and the
    default winter/summer table), the logged revenue, restocking cost and
    holding cost are exactly the parts of the step's profit: [profit =
    revenue - (restocking_cost + holding_cost)].  (The logged holding cost
    always uses the base rate; the profit uses the seasonal rate where
    there is one.) *)
Theorem run_policy_log_adds_up (self : CarDealerPolicy) (policy_fn : PolicyFn)
    (n_iterations : Z) (theta_min theta_max : dict Z)
    (rows : list ResultRow) (m' : CarDealerInventoryModel) (row : ResultRow) :
  run_policy self policy_fn n_iterations theta_min theta_max = (Ok rows, m') ->
  In row rows ->
  ascii_trends (Transition.market_trends (r_state_after row)) ->
  no_seasonal_rate (seasonal_holding_cost (model self)) row ->
  r_profit row
  = (r_revenue row - (r_restocking_cost row + r_holding_cost row))%Q.
Proof.
  unfold run_policy. intros Hrun Hin _ Hns.
  destruct (run_policy_loop_log _ _ _ _ _ _ _ _ _ eq_refl eq_refl Hrun)
    as [new [-> HF]].
  simpl in Hin. rewrite Forall_forall in HF. exact (HF row Hin Hns).
Qed.

(** ** The runner decides on the policy's own model *)

Lemma run_policy_loop_decisions (self : CarDealerPolicy) (policy_fn : PolicyFn)
    (theta_min theta_max : dict Z) (rng : list Z) :
  forall acc m rows m',
  run_policy_loop self policy_fn theta_min theta_max rng acc m = (Ok rows, m') ->
  exists new,
    rows = acc ++ new /\
    Forall (fun row =>
              exists w, policy_fn theta_min theta_max (Some w)
                        = Ok (r_decision row)) new.
Proof.
  induction rng as [|i rng IH]; simpl; intros acc m rows m' Hrun.
  - injection Hrun as <- <-. exists []. rewrite app_nil_r.
    split; [reflexivity | constructor].
  - unfold mbind at 1 in Hrun. unfold mget in Hrun.
    destruct (T m <=? t m).
    + injection Hrun as <- <-. exists []. rewrite app_nil_r.
      split; [reflexivity | constructor].
    + unfold mbind at 1 in Hrun.
      destruct (run_policy_step self policy_fn theta_min theta_max i m)
        as [[row|e] m1] eqn:Hstep; [|discriminate].
      destruct (run_policy_step_inv _ _ _ _ _ _ _ _ Hstep)
        as [w [m2 [_ [Hd _]]]].
      destruct (IH (acc ++ [row]) m1 rows m' Hrun) as [new [-> HF]].
      exists (row :: new). rewrite <- app_assoc. split; [reflexivity|].
      constructor; [eauto | exact HF].
Qed.

(** X20. Every decision of a run is taken on the state of the policy's own
    model, which the run never writes, not on the state of the copy the run
    advances.  So in every row of a run of the forecast-adaptive policy the
    restock of a car is bounded by its level in the initial state: it lies
    between 0 and [max(0, theta_max - initial level)], whatever the row's
    own starting state is. *)
Theorem run_policy_decides_on_initial_state (self : CarDealerPolicy)
    (n_iterations : Z) (theta_min theta_max : dict Z)
    (rows : list ResultRow) (m' : CarDealerInventoryModel) (row : ResultRow)
    (car : string) (level hi : Z) :
  let s0 := state (model self) in
  wf_dict (State.inventory_level s0) ->
  run_policy self (basic_order_up_to_policy self) n_iterations
    theta_min theta_max = (Ok rows, m') ->
  In row rows ->
  lookup (State.inventory_level s0) car = Some level ->
  lookup theta_max car = Some hi ->
  exists r,
    lookup (Decision.restock (r_decision row)) car = Some r /\
    (0 <= r)%Q /\ (inject_Z level + r <= inject_Z (Z.max level hi))%Q.
Proof.
  intros s0 Hwf Hrun Hin Hl Hhi. unfold run_policy in Hrun.
  destruct (run_policy_loop_decisions _ _ _ _ _ _ _ _ _ Hrun) as [new [-> HF]].
  simpl in Hin. rewrite Forall_forall in HF.
  destruct (HF row Hin) as [w Hd].
  destruct (order_up_to_policy_shape self theta_min theta_max (Some w)
              (r_decision row) Hwf Hd) as [_ [_ [_ Hcar]]].
  exact (Hcar car level hi Hl Hhi).
Qed.

(** X21. Validation can fail on a decision of the forecast-adaptive policy
    in one way only.  Such a decision has an entry for every tracked car and
    no negative restock, so on the policy's model [is_valid_decision] returns
    [True] if the total after restocking is within [max_inventory] and raises
    the capacity [ValueError] otherwise; it never raises a [KeyError] or the
    negative-restock error. *)
Theorem basic_order_up_to_policy_validation (self : CarDealerPolicy)
    (theta_min theta_max : dict Z) (w : option ExogInfo.t)
    (decision : Decision.t) :
  let s := state (model self) in
  wf_dict (State.inventory_level s) ->
  basic_order_up_to_policy self theta_min theta_max w = Ok decision ->
  fst (is_valid_decision decision (model self))
  = if Qltb (inject_Z (max_inventory (model self)))
         (post_restock_total s decision)
    then Raise (ValueError "Total inventory exceeds storage capacity!")
    else Ok true.
Proof.
  intros s Hwf Hrun.
  destruct (order_up_to_policy_shape self theta_min theta_max w decision
              Hwf Hrun) as [Hk [_ [_ _]]].
  assert (Hcov : covers (Decision.restock decision)
                   (keys (State.inventory_level s))).
  { unfold covers. apply forallb_forall. intros k Hin.
    apply has_key_in. fold s in Hk. now rewrite Hk. }
  assert (Hneg : existsb (fun value => Qltb value 0)
                   (values (Decision.restock decision)) = false).
  { destruct (existsb _ _) eqn:E; [|reflexivity].
    apply existsb_exists in E. destruct E as [q [Hin Hq]].
    unfold values in Hin. apply in_map_iff in Hin.
    destruct Hin as [[k q'] [Heq Hin]]. simpl in Heq. subst q'.
    assert (Hkin : In k (keys (State.inventory_level s))).
    { fold s in Hk. rewrite <- Hk. unfold keys. change k with (fst (k, q)).
      now apply in_map. }
    destruct (basic_order_up_to_policy_nonneg self theta_min theta_max w
                decision k Hwf Hrun Hkin) as [r [_ [_ [Hlr [Hr0 _]]]]].
    assert (Hwfr : wf_dict (Decision.restock decision))
      by (unfold wf_dict; rewrite Hk; exact Hwf).
    assert (lookup (Decision.restock decision) k = Some q).
    { clear - Hin Hwfr. unfold wf_dict, keys in Hwfr.
      induction (Decision.restock decision) as [|[k0 v0] d IH];
        [destruct Hin|]. simpl in *.
      apply andb_true_iff in Hwfr. destruct Hwfr as [Hk0 Hd].
      apply negb_true_iff in Hk0.
      destruct Hin as [[= -> ->]|Hin]; [now rewrite String.eqb_refl|].
      destruct (String.eqb k k0) eqn:E; [|now apply IH].
      apply String.eqb_eq in E. subst k0.
      assert (Hk' : In k (map fst d))
        by (change k with (fst (k, q)); now apply in_map).
      apply existsb_eqb_in in Hk'. congruence. }
    apply Qltb_lt in Hq. exfalso. apply (Qlt_not_le _ _ Hq). congruence. }
  unfold is_valid_decision, mbind, mget, lift, mraise, mret. simpl. fold s.
  rewrite (is_valid_decision_total s decision Hcov). simpl.
  rewrite Hneg. destruct (Qltb _ _); reflexivity.
Qed.

(** ** The further properties at the worked inputs *)

Lemma transition_fn_keeps_shape_witness :
  wf_dict (State.inventory_level (state ex_model)) /\
  exists ts,
    transition_fn ex_model ex_decision ex_exog = Ok ts /\
    keys (State.inventory_level (State_of ts)) = ["A"%string] /\
    keys (State.holding_time (State_of ts)) = ["A"%string].
Proof.
  split; [reflexivity|].
  destruct (transition_fn ex_model ex_decision ex_exog) as [ts|e] eqn:Hrun;
    [|vm_compute in Hrun; discriminate].
  exists ts. split; [reflexivity|].
  destruct (transition_fn_keeps_shape ex_model ex_decision ex_exog ts
              eq_refl eq_refl) as [H1 [H2 _]]; [one_entry | exact Hrun |].
  split; [exact H1 | exact H2].
Defined.

Lemma transition_fn_conserves_stock_witness :
  (0 <= get (ExogInfo.demand ex_exog) "A" 0)%Q /\
  exists ts sold added,
    transition_fn ex_model ex_decision ex_exog = Ok ts /\
    lookup (Transition.cars_sold ts) "A" = Some sold /\
    lookup (Transition.cars_added ts) "A" = Some added /\
    lookup (Transition.inventory_level ts) "A" = Some (10 + added - sold).
Proof.
  split; [vm_compute; discriminate|].
  destruct (transition_fn_conserves_stock ex_model ex_decision ex_exog
              "A" 10 eq_refl eq_refl eq_refl)
    as [ts [sold [added [H1 [H2 [H3 [H4 _]]]]]]];
    [lia | vm_compute; discriminate | vm_compute; discriminate |].
  exists ts, sold, added. repeat split; assumption.
Defined.

Lemma transition_fn_returns_iff_witness :
  wf_dict (State.inventory_level (state ex_model)) /\
  exists ts, transition_fn ex_model ex_decision ex_exog = Ok ts.
Proof.
  split; [reflexivity|].
  apply (proj2 (transition_fn_returns_iff ex_model ex_decision ex_exog
                  eq_refl)).
  intros car level. simpl. destruct (String.eqb car "A") eqn:E;
    [|discriminate].
  intros _ _. unfold has_key. simpl. now rewrite E.
Defined.

Lemma transition_fn_shifts_trends_witness :
  exists ts1 ts2,
    transition_fn ex_model ex_decision ex_exog = Ok ts1 /\
    transition_fn (set_state (State_of ts1) ex_model) ex_decision
      ex_exog_capitals = Ok ts2 /\
    State.market_trends_lag2 (State_of ts2) = State.market_trends ex_state /\
    State.market_trends_lag1 (State_of ts2) = ExogInfo.market_trends ex_exog.
Proof.
  destruct (transition_fn ex_model ex_decision ex_exog) as [ts1|e] eqn:H1;
    [|vm_compute in H1; discriminate].
  destruct (transition_fn (set_state (State_of ts1) ex_model) ex_decision
              ex_exog_capitals) as [ts2|e] eqn:H2.
  - exists ts1, ts2. split; [reflexivity|]. split; [exact H2|].
    destruct (transition_fn_shifts_trends ex_model ex_decision ex_decision
                ex_exog ex_exog_capitals ts1 ts2 H1 H2) as [Ha [Hb _]].
    split; [exact Ha | exact Hb].
  - exfalso. vm_compute in H1. injection H1 as <-.
    vm_compute in H2. discriminate.
Defined.

Lemma objective_fn_value_witness :
  covers (Decision.price ex_decision)
    (keys (State.inventory_level (state ex_model))) /\
  objective_fn ex_model ex_decision ex_exog
  = Ok (revenue_of ex_state ex_decision ex_exog
        - (restocking_cost_of ex_decision + holding_cost_of ex_model ex_exog))%Q.
Proof.
  split; [reflexivity|].
  apply (objective_fn_value ex_model ex_decision ex_exog
           eq_refl eq_refl eq_refl eq_refl eq_refl).
  intros car trend. simpl. destruct (String.eqb car "A"); [|discriminate].
  intros [= <-]. reflexivity.
Defined.

Lemma objective_fn_at_most_stock_value_witness :
  (0 <= holding_cost ex_model)%Q /\
  exists profit,
    objective_fn ex_model ex_decision ex_exog = Ok profit /\
    (profit <= stock_value ex_state ex_decision)%Q.
Proof.
  split; [vm_compute; discriminate|].
  apply (objective_fn_at_most_stock_value ex_model ex_decision ex_exog);
    try reflexivity; try one_entry.
  - vm_compute. discriminate.
  - intros season rate. simpl.
    destruct (String.eqb season "winter");
      [intros [= <-]; vm_compute; discriminate|].
    destruct (String.eqb season "summer");
      [intros [= <-]; vm_compute; discriminate | discriminate].
Defined.

Lemma objective_fn_ignores_trend_case_witness :
  same_trends_up_to_case (ExogInfo.market_trends ex_exog)
    (ExogInfo.market_trends ex_exog_capitals) /\
  objective_fn ex_model ex_decision ex_exog
  = objective_fn ex_model ex_decision ex_exog_capitals.
Proof.
  assert (H : same_trends_up_to_case (ExogInfo.market_trends ex_exog)
                (ExogInfo.market_trends ex_exog_capitals)).
  { intro car. simpl. destruct (String.eqb car "A"); reflexivity. }
  split; [exact H|].
  exact (objective_fn_ignores_trend_case ex_model ex_decision ex_exog
           ex_exog_capitals eq_refl H).
Defined.

Lemma exog_info_fn_prices_and_trends_witness :
  market_trends_df ex_model_with_table = Some ex_table /\
  exists w self',
    exog_info_fn None ex_model_with_table = (Ok w, self') /\
    lookup (ExogInfo.competitor_prices w) "A"
    = Some (py_max 0 (1000 + 30 - 10))%Q /\
    lookup (ExogInfo.market_trends w) "A" = Some "Winter"%string.
Proof.
  split; [reflexivity|].
  destruct (exog_info_fn None ex_model_with_table) as [[w|e] self'] eqn:Hrun;
    [|vm_compute in Hrun; discriminate].
  exists w, self'. split; [reflexivity|].
  destruct (exog_info_fn_prices_and_trends ex_model_with_table self' None
              ex_table w "A" 1000%Q eq_refl Hrun (or_introl eq_refl) eq_refl)
    as [H1 [H2 _]].
  - split; vm_compute; discriminate.
  - intros row [= <-]. split; split; vm_compute; discriminate.
  - split; [exact H1 | exact H2].
Defined.

Lemma exog_info_fn_draws_witness :
  market_trends_df ex_model_with_table = Some ex_table /\
  exists w self',
    exog_info_fn None ex_model_with_table = (Ok w, self') /\
    cursor (prng self') = 2%nat.
Proof.
  split; [reflexivity|].
  destruct (exog_info_fn None ex_model_with_table) as [[w|e] self'] eqn:Hrun;
    [|vm_compute in Hrun; discriminate].
  exists w, self'. split; [reflexivity|].
  rewrite (exog_info_fn_draws ex_model_with_table self' None ex_table w
             eq_refl Hrun).
  reflexivity.
Defined.

Lemma is_valid_decision_error_order_witness :
  fst (is_valid_decision empty_decision ex_model) = Raise (KeyError "A") /\
  fst (is_valid_decision negative_decision ex_model)
  = Raise (ValueError "Restocking values cannot be negative!").
Proof.
  destruct (is_valid_decision_error_order ex_model empty_decision)
    as [Hmiss _].
  destruct (is_valid_decision_error_order ex_model negative_decision)
    as [_ Hneg].
  split.
  - destruct Hmiss as [pre [k [post [Hks [_ [_ Hr]]]]]].
    { exists "A"%string. split; [now left | reflexivity]. }
    destruct pre as [|k0 pre]; simpl in Hks.
    + injection Hks as <- _. exact Hr.
    + injection Hks as _ Hks. exfalso. eapply app_cons_not_nil, Hks.
  - apply Hneg; [reflexivity|].
    exists (-1)%Q. split; [now left | reflexivity].
Defined.

Lemma basic_order_up_to_policy_bounds_witness :
  wf_dict (State.inventory_level (state (model ex_policy))) /\
  exists decision r,
    basic_order_up_to_policy ex_policy [] [("A", 15)]%string (Some ex_exog)
    = Ok decision /\
    lookup (Decision.restock decision) "A" = Some r /\
    (0 <= r)%Q /\ (inject_Z 10 + r <= inject_Z 15)%Q.
Proof.
  split; [reflexivity|].
  destruct (basic_order_up_to_policy ex_policy [] [("A", 15)]%string
              (Some ex_exog)) as [decision|e] eqn:Hrun;
    [|vm_compute in Hrun; discriminate].
  destruct (basic_order_up_to_policy_bounds ex_policy [] [("A", 15)]%string
              (Some ex_exog) decision eq_refl Hrun) as [_ [_ [_ Hcar]]].
  destruct (Hcar "A"%string 10 15 eq_refl eq_refl) as [r [Hr [H0 Hle]]].
  exists decision, r. repeat split; assumption.
Defined.

Lemma basic_order_up_to_policy_without_exog_witness :
  State.inventory_level (state (model ex_policy)) <> [] /\
  exists e, basic_order_up_to_policy ex_policy [] [("A", 15)]%string None
            = Raise e.
Proof.
  assert (H : State.inventory_level (state (model ex_policy)) <> [])
    by discriminate.
  split; [exact H|].
  exact (proj1 (basic_order_up_to_policy_without_exog ex_policy []
                  [("A", 15)]%string) H).
Defined.

Lemma get_decision_is_valid_witness :
  sumZ (values (State.inventory_level cheap_state))
  <= max_inventory (sdp_model ex_sdp_policy) /\
  exists decision,
    get_decision ex_sdp_policy cheap_state 0 30 = Ok decision /\
    fst (is_valid_decision decision
           (set_state cheap_state (sdp_model ex_sdp_policy))) = Ok true.
Proof.
  split; [vm_compute; discriminate|].
  destruct (get_decision ex_sdp_policy cheap_state 0 30) as [decision|e]
    eqn:Hrun; [|vm_compute in Hrun; discriminate].
  exists decision. split; [reflexivity|].
  apply (get_decision_is_valid ex_sdp_policy cheap_state 0 30 decision);
    [reflexivity | vm_compute; discriminate | exact Hrun].
Defined.

Lemma get_decision_price_and_discount_witness :
  wf_dict (State.inventory_level cheap_state) /\
  exists decision,
    get_decision ex_sdp_policy cheap_state 0 30 = Ok decision /\
    lookup (Decision.price decision) "Car A" = Some (30 - 50)%Q /\
    lookup (Decision.discount decision) "Car A" = Some 0%Q.
Proof.
  split; [reflexivity|].
  destruct (get_decision ex_sdp_policy cheap_state 0 30) as [decision|e]
    eqn:Hrun; [|vm_compute in Hrun; discriminate].
  exists decision. split; [reflexivity|].
  destruct (get_decision_price_and_discount ex_sdp_policy cheap_state 0 30
              decision "Car A" 3 2 30%Q eq_refl Hrun eq_refl eq_refl eq_refl)
    as [Hp [Hd _]].
  split; [exact Hp | exact Hd].
Defined.

Lemma run_policy_rows_witness :
  t (model ex_policy) < T (model ex_policy) /\
  exists rows m',
    run_policy ex_policy (basic_order_up_to_policy ex_policy) 2 []
      [("A", 15)]%string = (Ok rows, m') /\
    map r_t rows = [0; 1] /\ t m' = 0.
Proof.
  split; [reflexivity|].
  destruct (run_policy ex_policy (basic_order_up_to_policy ex_policy) 2 []
              [("A", 15)]%string) as [[rows|e] m'] eqn:Hrun;
    [|vm_compute in Hrun; discriminate].
  exists rows, m'. split; [reflexivity|].
  destruct (proj2 (run_policy_rows ex_policy
                     (basic_order_up_to_policy ex_policy) 2 []
                     [("A", 15)]%string) eq_refl rows m' Hrun)
    as [Hmap [_ [_ [_ Ht]]]].
  split; [exact Hmap | exact Ht].
Defined.

Lemma basic_order_up_to_policy_util_bounds_witness :
  wf_dict [("A", 10)]%string /\
  exists restock r,
    basic_order_up_to_policy_util [("A", 10)]%string [] [("A", 15)]%string
      [("A", 10%Q)]%string [("A", 1%Q)]%string [("A", 4)]%string = Ok restock /\
    lookup restock "A" = Some r /\ (0 <= r)%Q /\ (r <= inject_Z 5)%Q.
Proof.
  split; [reflexivity|].
  destruct (basic_order_up_to_policy_util [("A", 10)]%string []
              [("A", 15)]%string [("A", 10%Q)]%string [("A", 1%Q)]%string
              [("A", 4)]%string) as [restock|e] eqn:Hrun;
    [|vm_compute in Hrun; discriminate].
  destruct (basic_order_up_to_policy_util_bounds [("A", 10)]%string []
              [("A", 15)]%string [("A", 10%Q)]%string [("A", 1%Q)]%string
              [("A", 4)]%string restock eq_refl Hrun) as [_ Hcar].
  destruct (Hcar "A"%string 10 eq_refl)
    as [v [hi [tf [f [r [_ [_ [Hhi [_ [_ [Hr [H0 Hle]]]]]]]]]]]].
  injection Hhi as <-.
  exists restock, r. repeat split; assumption.
Defined.

Lemma run_policy_log_adds_up_witness :
  exists rows m',
    run_policy ex_policy (basic_order_up_to_policy ex_policy) 1 []
      [("A", 15)]%string = (Ok rows, m') /\
    Forall row_adds_up rows.
Proof.
  eexists. eexists. split; [vm_compute; reflexivity|].
  constructor; [|constructor].
  eapply (run_policy_log_adds_up ex_policy
            (basic_order_up_to_policy ex_policy) 1 [] [("A", 15)]%string).
  - vm_compute. reflexivity.
  - left. reflexivity.
  - intros car trend. simpl. destruct (String.eqb car "A"); [|discriminate].
    intros [= <-]. reflexivity.
  - intros car trend. simpl. destruct (String.eqb car "A"); [|discriminate].
    intros [= <-]. reflexivity.
Defined.

Lemma run_policy_decides_on_initial_state_witness :
  wf_dict (State.inventory_level (state (model ex_policy))) /\
  exists rows m',
    run_policy ex_policy (basic_order_up_to_policy ex_policy) 2 []
      [("A", 15)]%string = (Ok rows, m') /\
    Forall (fun row =>
              exists r,
                lookup (Decision.restock (r_decision row)) "A" = Some r /\
                (inject_Z 10 + r <= inject_Z 15)%Q) rows.
Proof.
  split; [reflexivity|].
  destruct (run_policy ex_policy (basic_order_up_to_policy ex_policy) 2 []
              [("A", 15)]%string) as [[rows|e] m'] eqn:Hrun;
    [|vm_compute in Hrun; discriminate].
  exists rows, m'. split; [reflexivity|].
  apply Forall_forall. intros row Hin.
  destruct (run_policy_decides_on_initial_state ex_policy 2 []
              [("A", 15)]%string rows m' row "A" 10 15 eq_refl Hrun Hin
              eq_refl eq_refl) as [r [Hr [_ Hle]]].
  exists r. split; [exact Hr | exact Hle].
Defined.

Lemma basic_order_up_to_policy_validation_witness :
  wf_dict (State.inventory_level (state (model ex_policy))) /\
  exists decision,
    basic_order_up_to_policy ex_policy [] [("A", 15)]%string (Some ex_exog)
    = Ok decision /\
    fst (is_valid_decision decision (model ex_policy)) = Ok true.
Proof.
  split; [reflexivity|].
  destruct (basic_order_up_to_policy ex_policy [] [("A", 15)]%string
              (Some ex_exog)) as [decision|e] eqn:Hrun;
    [|vm_compute in Hrun; discriminate].
  exists decision. split; [reflexivity|].
  rewrite (basic_order_up_to_policy_validation ex_policy []
             [("A", 15)]%string (Some ex_exog) decision eq_refl Hrun).
  vm_compute in Hrun. injection Hrun as <-. reflexivity.
Defined.

Lemma transition_fn_forecast_witness :
  wf_dict (State.demand_forecast (state ex_model)) /\
  exists ts,
    transition_fn ex_model ex_decision ex_exog = Ok ts /\
    lookup (Transition.demand_forecast ts) "A"
    = Some (py_max 0 (10 * (1 + (1 # 10) * inject_Z 0)))%Q.
Proof.
  split; [reflexivity|].
  destruct (transition_fn ex_model ex_decision ex_exog) as [ts|e] eqn:Hrun;
    [|vm_compute in Hrun; discriminate].
  exists ts. split; [reflexivity|].
  exact (proj1 (transition_fn_forecast ex_model ex_decision ex_exog ts "A"
                  eq_refl eq_refl Hrun (or_introl eq_refl))).
Defined.
